(** * Converge: the collaboration server (Socket.IO rooms over a Yjs document)

    A shallow embedding of [CollaborationServer] (the Socket.IO server of
    the repository), of [CRDTDocument] / [DocumentStore] and of
    [checkDocumentAccess], followed by the properties of the room life
    cycle, the update path and the persistence scheduler.

    Conventions of the embedding.
    - JavaScript objects that are shared by reference ([RoomState], held by
      the room registry and by the closure of its save timer;
      [CRDTDocument], held by the document store and by its room) live in
      two heaps and are named by locations.
    - The handlers are [async]; each one is embedded as one run-to-completion
      computation in the monad [M] (state, plus a thrown completion that
      keeps the state reached so far, as a JavaScript exception does).  The
      theorems about one handler describe the path of that handler; [run]
      takes the inputs one after the other, so a theorem over [run]
      describes the schedules in which no handler starts while another is
      suspended at an [await], unless it says otherwise.
    - An event carries a payload of the shape its TypeScript type declares.
    - A JavaScript [Map] is a finite map; where the code lists one
      ([Array.from(map.values())]) the list is in the order of the keys,
      the code's being the order of insertion.
    - Prisma is embedded as tables in the state; [update] of a missing row
      throws, every other call returns.
    - Yjs is not part of the repository: it is the class [CRDTEngine].
    - [Date.now()] reads the [clock] of the state; timers are a table of
      pending callbacks fired by [fireTimer]. *)

From stdpp Require Import base gmap sets list strings.
From Stdlib Require Import ZArith Lia Ascii.

Local Open Scope Z_scope.
Local Open Scope string_scope.

(** ** Plain data (types/index.ts, Prisma schema) *)

Inductive Role := OWNER | EDITOR | VIEWER.

#[global] Instance Role_eq_dec : EqDecision Role.
Proof. solve_decision. Defined.

Record CursorPosition := { anchor : Z; head : Z }.

Record SafeUser := {
  su_id : string;
  su_name : string;
  su_email : string;
  su_avatar : option string;
  su_color : string
}.

Record RoomUser := {
  ru_id : string;
  ru_name : string;
  ru_color : string;
  ru_avatar : option string;
  ru_role : Role;
  ru_cursor : option CursorPosition;
  ru_isOnline : bool
}.

(** [AuthenticatedSocket] after the authentication middleware: [userId] and
    [user] are set ([socket.userId!], [socket.user!]). *)
Record AuthenticatedSocket := {
  sock_id : string;
  userId : string;
  user : SafeUser
}.

(** A [Uint8Array] / [Buffer]; the wire form is [number[]]. *)
Definition Uint8Array := list Byte.byte.

(** Modelled from the spec: [arrayToUint8Array] and [uint8ArrayToArray] of
    lib/utils are not among the sources; the spec calls them the update
    encoding bridge, a stateless conversion between the wire form and the
    byte buffer.  Each number is taken modulo 256, as a typed array does. *)
Definition arrayToUint8Array (a : list Z) : Uint8Array :=
  map (fun z => match Byte.of_N (Z.to_N (z mod 256)) with
                | Some b => b
                | None => Byte.x00
                end) a.

Definition uint8ArrayToArray (u : Uint8Array) : list Z :=
  map (fun b => Z.of_N (Byte.to_N b)) u.

Record JoinRoomPayload := { jr_documentId : string }.

Record UpdateOperationPayload := {
  up_documentId : string;
  up_update : list Z;
  up_clientId : Z;
  up_timestamp : Z
}.

Record CursorPresencePayload := {
  cp_documentId : string;
  cp_userId : string;
  cp_cursor : option CursorPosition;
  cp_user : string * string
}.

Record TypingIndicatorPayload := {
  ti_documentId : string;
  ti_userId : string;
  ti_isTyping : bool
}.

Record RoomJoinedPayload := {
  rj_documentId : string;
  rj_document : string * string * Z;
  rj_state : list Z;
  rj_users : list RoomUser;
  rj_role : Role
}.

(** Server to client events ([SocketEvent] with the payload sent). *)
Inductive ServerEvent :=
  | ERROR (message : string)
  | ROOM_JOINED (p : RoomJoinedPayload)
  | USER_JOINED (u : RoomUser)
  | USER_LEFT (uid : string)
  | UPDATE_OPERATION (p : UpdateOperationPayload) (uid : string)
  | SYNC_STATE (documentId : string) (state : list Z) (version : Z)
  | CURSOR_PRESENCE (p : CursorPresencePayload) (uid : string)
  | TYPING_INDICATOR (p : TypingIndicatorPayload) (uid : string)
  | DOCUMENT_SAVED (documentId : string) (savedAt : Z).

(** One [emit]: the sockets it is delivered to, and the event. *)
Record Emission := { recipients : gset string; event : ServerEvent }.

(** ** The durable store (Prisma tables) *)

Record DocumentRow := {
  doc_title : string;
  doc_content : option Uint8Array;
  doc_ownerId : string;
  doc_version : Z;
  doc_isPublic : bool;
  doc_updatedAt : Z
}.

Record OperationRow := {
  op_documentId : string;
  op_userId : string;
  op_data : Uint8Array;
  op_version : Z
}.

Record SnapshotRow := {
  sn_documentId : string;
  sn_data : Uint8Array;
  sn_version : Z
}.

Record Db := {
  tbl_document : gmap string DocumentRow;
  tbl_collaborator : gmap (string * string) Role;
  tbl_operation : list OperationRow;
  tbl_snapshot : list SnapshotRow
}.

(** ** The CRDT engine (Yjs) *)

Inductive ApplyResult (YDoc : Type) :=
  | Applied (d : YDoc)      (* [Y.applyUpdate] returned; the document after *)
  | Malformed (d : YDoc).   (* it threw; the document as the engine left it *)
Arguments Applied {YDoc} d.
Arguments Malformed {YDoc} d.

Class CRDTEngine (YDoc : Type) := {
  Y_Doc : YDoc;                                         (* new Y.Doc() *)
  Y_applyUpdate : YDoc -> Uint8Array -> ApplyResult YDoc;
  Y_encodeStateAsUpdate : YDoc -> Uint8Array
}.

Definition loc := nat.
Definition handle := nat.

(** ** Server state *)

Record RoomState := {
  documentId : string;
  users : gmap string RoomUser;
  document : loc;
  lastSaveTime : Z;
  saveTimeout : option handle
}.

(** A pending [setTimeout]: when it is due and the [roomState] its callback
    closes over. *)
Record Timer := { deadline : Z; target : loc }.

(** How a computation ends: it returns a value or it throws. *)
Inductive Completion (A : Type) :=
  | Normal (a : A)
  | Thrown.
Arguments Normal {A} a.
Arguments Thrown {A}.

(** ** Permissions (types/index.ts) *)

Inductive Permission := PermRead | PermWrite | PermDelete | PermShare | PermAdmin.

#[global] Instance Permission_eq_dec : EqDecision Permission.
Proof. solve_decision. Defined.

Definition RolePermissions (role : Role) : list Permission :=
  match role with
  | OWNER => [PermRead; PermWrite; PermDelete; PermShare; PermAdmin]
  | EDITOR => [PermRead; PermWrite]
  | VIEWER => [PermRead]
  end.

(** [RolePermissions[role]?.includes(permission) ?? false] *)
Definition hasPermission (role : Role) (permission : Permission) : bool :=
  bool_decide (permission ∈ RolePermissions role).

Definition canEdit (role : Role) : bool := hasPermission role PermWrite.
Definition canDelete (role : Role) : bool := hasPermission role PermDelete.
Definition canShare (role : Role) : bool := hasPermission role PermShare.

(** ** Tokens (lib/auth/utils.ts)

    jsonwebtoken is not part of the repository: [jwt.verify(token, secret)]
    is the class [JWT]; it returns the decoded payload, or throws. *)

Record JWTPayload := {
  jwt_userId : string;
  jwt_email : string;
  jwt_name : string;
  jwt_iat : Z;
  jwt_exp : Z
}.

Class JWT := {
  jwt_verify : string -> string -> option JWTPayload   (* [None]: it throws *)
}.

(** [process.env] *)
Record Env := { JWT_SECRET : option string }.

(** A value used as a condition: [null], [undefined] and the empty string
    are falsy.  [present s] is the string when it is truthy. *)
Definition present (s : option string) : option string :=
  match s with
  | Some s => if decide (s = "") then None else Some s
  | None => None
  end.

(** [getJWTSecret]; [None] when it throws. *)
Definition getJWTSecret (env : Env) : option string := present (JWT_SECRET env).

(** [verifyToken]: whatever is thrown inside is caught and gives [null]. *)
Definition verifyToken `{JWT} (env : Env) (token : string) : option JWTPayload :=
  match getJWTSecret env with
  | Some secret => jwt_verify token secret
  | None => None
  end.

(** [s.split(sep)] of JavaScript, for a separator of one character. *)
Fixpoint String_split (sep : ascii) (s : string) : list string :=
  match s with
  | EmptyString => [EmptyString]
  | String c s' =>
      if decide (c = sep) then EmptyString :: String_split sep s'
      else match String_split sep s' with
           | part :: parts => String c part :: parts
           | [] => [String c EmptyString]
           end
  end.

(** [c] occurs in [s]. *)
Fixpoint occurs (c : ascii) (s : string) : bool :=
  match s with
  | EmptyString => false
  | String c' s' => bool_decide (c' = c) || occurs c s'
  end.

Definition extractBearerToken (authHeader : option string) : option string :=
  match present authHeader with
  | None => None
  | Some authHeader =>
      match String_split " "%char authHeader with
      | [scheme; token] => if decide (scheme = "Bearer") then Some token else None
      | _ => None
      end
  end.

(** ** The user table and requests (Prisma schema, lib/auth/session.ts) *)

Record UserRow := {
  usr_email : string;
  usr_name : string;
  usr_avatar : option string;
  usr_color : string
}.

(** [prisma.user.findUnique({ where: { id }, select: { id, email, name,
    avatar, color } })] *)
Definition prisma_user_findUnique (tbl_user : gmap string UserRow) (id : string)
    : option SafeUser :=
  (fun row => {| su_id := id; su_name := usr_name row; su_email := usr_email row;
                 su_avatar := usr_avatar row; su_color := usr_color row |})
    <$> tbl_user !! id.

(** What the route helpers read of a [NextRequest]: the Authorization header
    and the value of the cookie [AUTH_COOKIE_NAME]. *)
Record NextRequest := {
  req_authorization : option string;
  req_cookie : option string
}.

(** What the authentication middleware reads of a handshake:
    [socket.handshake.auth?.token] and [socket.handshake.query?.token]. *)
Record Handshake := {
  hs_auth_token : option string;
  hs_query_token : option string
}.

(** How a guard ends: with the value, or with an error response (status and
    the [error] field of its JSON body). *)
Inductive RouteResult (A : Type) :=
  | Passed (a : A)
  | ErrorResponse (status : Z) (error : string).
Arguments Passed {A} a.
Arguments ErrorResponse {A} status error.

(** How the authentication middleware ends: [next()] with the socket it
    filled in, or [next(new Error(message))]. *)
Inductive Admission :=
  | Accepted (socket : AuthenticatedSocket)
  | Refused (message : string).

(** [{ allowed, role, error }] of [requireDocumentRole] *)
Record RoleCheck := {
  rc_allowed : bool;
  rc_role : option Role;
  rc_error : option string
}.

Section Server.

Context {YDoc : Type} `{!CRDTEngine YDoc}.

Record World := {
  rooms : gmap string loc;                   (* this.rooms *)
  roomHeap : gmap loc RoomState;             (* the RoomState objects *)
  userSockets : gmap string (gset string);   (* this.userSockets *)
  socketToRoom : gmap string string;         (* this.socketToRoom *)
  documents : gmap string loc;               (* documentStore.documents *)
  docHeap : gmap loc YDoc;                   (* the CRDTDocument objects *)
  adapter : gmap string (gset string);       (* Socket.IO rooms: room -> sockets *)
  timers : gmap handle Timer;                (* pending timeouts *)
  nextHandle : handle;
  clock : Z;                                 (* Date.now() *)
  db : Db;                                   (* prisma *)
  outbox : list Emission                     (* everything emitted, oldest first *)
}.

(** Field updates. *)
Definition with_rooms (f : gmap string loc -> gmap string loc) (w : World) : World :=
  {| rooms := f (rooms w); roomHeap := roomHeap w; userSockets := userSockets w;
     socketToRoom := socketToRoom w; documents := documents w; docHeap := docHeap w;
     adapter := adapter w; timers := timers w; nextHandle := nextHandle w;
     clock := clock w; db := db w; outbox := outbox w |}.

Definition with_roomHeap (f : gmap loc RoomState -> gmap loc RoomState) (w : World) : World :=
  {| rooms := rooms w; roomHeap := f (roomHeap w); userSockets := userSockets w;
     socketToRoom := socketToRoom w; documents := documents w; docHeap := docHeap w;
     adapter := adapter w; timers := timers w; nextHandle := nextHandle w;
     clock := clock w; db := db w; outbox := outbox w |}.

Definition with_userSockets
    (f : gmap string (gset string) -> gmap string (gset string)) (w : World) : World :=
  {| rooms := rooms w; roomHeap := roomHeap w; userSockets := f (userSockets w);
     socketToRoom := socketToRoom w; documents := documents w; docHeap := docHeap w;
     adapter := adapter w; timers := timers w; nextHandle := nextHandle w;
     clock := clock w; db := db w; outbox := outbox w |}.

Definition with_socketToRoom (f : gmap string string -> gmap string string) (w : World) : World :=
  {| rooms := rooms w; roomHeap := roomHeap w; userSockets := userSockets w;
     socketToRoom := f (socketToRoom w); documents := documents w; docHeap := docHeap w;
     adapter := adapter w; timers := timers w; nextHandle := nextHandle w;
     clock := clock w; db := db w; outbox := outbox w |}.

Definition with_documents (f : gmap string loc -> gmap string loc) (w : World) : World :=
  {| rooms := rooms w; roomHeap := roomHeap w; userSockets := userSockets w;
     socketToRoom := socketToRoom w; documents := f (documents w); docHeap := docHeap w;
     adapter := adapter w; timers := timers w; nextHandle := nextHandle w;
     clock := clock w; db := db w; outbox := outbox w |}.

Definition with_docHeap (f : gmap loc YDoc -> gmap loc YDoc) (w : World) : World :=
  {| rooms := rooms w; roomHeap := roomHeap w; userSockets := userSockets w;
     socketToRoom := socketToRoom w; documents := documents w; docHeap := f (docHeap w);
     adapter := adapter w; timers := timers w; nextHandle := nextHandle w;
     clock := clock w; db := db w; outbox := outbox w |}.

Definition with_adapter
    (f : gmap string (gset string) -> gmap string (gset string)) (w : World) : World :=
  {| rooms := rooms w; roomHeap := roomHeap w; userSockets := userSockets w;
     socketToRoom := socketToRoom w; documents := documents w; docHeap := docHeap w;
     adapter := f (adapter w); timers := timers w; nextHandle := nextHandle w;
     clock := clock w; db := db w; outbox := outbox w |}.

Definition with_timers (f : gmap handle Timer -> gmap handle Timer) (w : World) : World :=
  {| rooms := rooms w; roomHeap := roomHeap w; userSockets := userSockets w;
     socketToRoom := socketToRoom w; documents := documents w; docHeap := docHeap w;
     adapter := adapter w; timers := f (timers w); nextHandle := nextHandle w;
     clock := clock w; db := db w; outbox := outbox w |}.

Definition with_nextHandle (f : handle -> handle) (w : World) : World :=
  {| rooms := rooms w; roomHeap := roomHeap w; userSockets := userSockets w;
     socketToRoom := socketToRoom w; documents := documents w; docHeap := docHeap w;
     adapter := adapter w; timers := timers w; nextHandle := f (nextHandle w);
     clock := clock w; db := db w; outbox := outbox w |}.

Definition with_clock (f : Z -> Z) (w : World) : World :=
  {| rooms := rooms w; roomHeap := roomHeap w; userSockets := userSockets w;
     socketToRoom := socketToRoom w; documents := documents w; docHeap := docHeap w;
     adapter := adapter w; timers := timers w; nextHandle := nextHandle w;
     clock := f (clock w); db := db w; outbox := outbox w |}.

Definition with_db (f : Db -> Db) (w : World) : World :=
  {| rooms := rooms w; roomHeap := roomHeap w; userSockets := userSockets w;
     socketToRoom := socketToRoom w; documents := documents w; docHeap := docHeap w;
     adapter := adapter w; timers := timers w; nextHandle := nextHandle w;
     clock := clock w; db := f (db w); outbox := outbox w |}.

Definition with_outbox (f : list Emission -> list Emission) (w : World) : World :=
  {| rooms := rooms w; roomHeap := roomHeap w; userSockets := userSockets w;
     socketToRoom := socketToRoom w; documents := documents w; docHeap := docHeap w;
     adapter := adapter w; timers := timers w; nextHandle := nextHandle w;
     clock := clock w; db := db w; outbox := f (outbox w) |}.

(** ** The monad of handlers

    A computation returns normally or throws; either way it hands on the
    state it reached. *)

Definition M (A : Type) : Type := World -> Completion A * World.

Definition ret {A} (a : A) : M A := fun w => (Normal a, w).

Definition bind {A B} (m : M A) (k : A -> M B) : M B :=
  fun w => match m w with
           | (Normal a, w') => k a w'
           | (Thrown, w') => (Thrown, w')
           end.

Definition throw {A} : M A := fun w => (Thrown, w).

(** [try { m } catch (error) { h }] *)
Definition try_catch {A} (m : M A) (h : M A) : M A :=
  fun w => match m w with
           | (Normal a, w') => (Normal a, w')
           | (Thrown, w') => h w'
           end.

Definition gets {A} (f : World -> A) : M A := fun w => (Normal (f w), w).
Definition modify (f : World -> World) : M unit := fun w => (Normal tt, f w).

(** The state a handler leaves behind, and what it emitted. *)
Definition exec {A} (m : M A) (w : World) : World := snd (m w).
Definition emitted {A} (m : M A) (w : World) : list Emission :=
  drop (length (outbox w)) (outbox (exec m w)).

#[global] Instance M_ret : MRet M := @ret.
#[global] Instance M_bind : MBind M := fun A B k m => bind m k.

(** ** Primitives *)

(** [`doc:${documentId}`] *)
Definition roomIdOf (documentId : string) : string := "doc:" ++ documentId.

Definition SAVE_DEBOUNCE_MS : Z := 2000.
Definition SNAPSHOT_INTERVAL_MS : Z := 60000.

(** *** Prisma *)

Definition prisma_document_findUnique (id : string) : M (option DocumentRow) :=
  gets (fun w => tbl_document (db w) !! id).

Definition with_tbl_document
    (f : gmap string DocumentRow -> gmap string DocumentRow) (d : Db) : Db :=
  {| tbl_document := f (tbl_document d); tbl_collaborator := tbl_collaborator d;
     tbl_operation := tbl_operation d; tbl_snapshot := tbl_snapshot d |}.

(** [data: { content, version: { increment: 1 }, updatedAt }] *)
Definition saved_row (content : Uint8Array) (updatedAt : Z) (row : DocumentRow) : DocumentRow :=
  {| doc_title := doc_title row; doc_content := Some content;
     doc_ownerId := doc_ownerId row; doc_version := doc_version row + 1;
     doc_isPublic := doc_isPublic row; doc_updatedAt := updatedAt |}.

(** [prisma.document.update]: throws when no row has this id. *)
Definition prisma_document_update (id : string) (content : Uint8Array) (updatedAt : Z)
    : M unit :=
  row ← prisma_document_findUnique id;
  match row with
  | None => throw
  | Some _ => modify (with_db (with_tbl_document (alter (saved_row content updatedAt) id)))
  end.

Definition prisma_operation_create (row : OperationRow) : M unit :=
  modify (with_db (fun d =>
    {| tbl_document := tbl_document d; tbl_collaborator := tbl_collaborator d;
       tbl_operation := (tbl_operation d ++ [row])%list; tbl_snapshot := tbl_snapshot d |})).

Definition prisma_snapshot_create (row : SnapshotRow) : M unit :=
  modify (with_db (fun d =>
    {| tbl_document := tbl_document d; tbl_collaborator := tbl_collaborator d;
       tbl_operation := tbl_operation d; tbl_snapshot := (tbl_snapshot d ++ [row])%list |})).

Definition prisma_collaborator_findUnique (userId documentId : string) : M (option Role) :=
  gets (fun w => tbl_collaborator (db w) !! (userId, documentId)).

(** *** Socket.IO *)

Definition emit (to : gset string) (ev : ServerEvent) : M unit :=
  modify (with_outbox (fun o => (o ++ [{| recipients := to; event := ev |}])%list)).

Definition in_room (w : World) (roomId : string) : gset string :=
  default ∅ (adapter w !! roomId).

(** [socket.emit(ev, payload)] *)
Definition socket_emit (socket : AuthenticatedSocket) (ev : ServerEvent) : M unit :=
  emit {[ sock_id socket ]} ev.

(** [socket.to(roomId).emit(ev, payload)]: the room without the sender. *)
Definition socket_to_emit (socket : AuthenticatedSocket) (roomId : string) (ev : ServerEvent)
    : M unit :=
  to ← gets (fun w => in_room w roomId ∖ {[ sock_id socket ]});
  emit to ev.

(** [this.io.to(roomId).emit(ev, payload)] *)
Definition io_to_emit (roomId : string) (ev : ServerEvent) : M unit :=
  to ← gets (fun w => in_room w roomId);
  emit to ev.

Definition socket_join (socket : AuthenticatedSocket) (roomId : string) : M unit :=
  modify (fun w => with_adapter <[roomId := in_room w roomId ∪ {[ sock_id socket ]}]> w).

Definition socket_leave (socket : AuthenticatedSocket) (roomId : string) : M unit :=
  modify (fun w => with_adapter <[roomId := in_room w roomId ∖ {[ sock_id socket ]}]> w).

(** *** Timers *)

Definition setTimeout (callbackRoom : loc) (delay : Z) : M handle :=
  h ← gets nextHandle;
  now ← gets clock;
  modify (with_timers <[h := {| deadline := now + delay; target := callbackRoom |}]>);;
  modify (with_nextHandle S);;
  mret h.

Definition clearTimeout (h : handle) : M unit :=
  modify (with_timers (delete h)).

(** *** CRDTDocument and DocumentStore (lib/crdt/document.ts) *)

(** [new CRDTDocument(documentId, initialState)] *)
Definition new_CRDTDocument (initialState : option Uint8Array) : M loc :=
  doc ← match initialState with
        | Some s =>
            if decide (0 < length s)%nat then
              match Y_applyUpdate Y_Doc s with
              | Applied d => mret d
              | Malformed _ => throw
              end
            else mret Y_Doc
        | None => mret Y_Doc
        end;
  l ← gets (fun w => fresh (dom (docHeap w)));
  modify (with_docHeap <[l := doc]>);;
  mret l.

Definition readDoc (l : loc) : M YDoc :=
  d ← gets (fun w => docHeap w !! l);
  match d with
  | Some d => mret d
  | None => throw
  end.

Definition getState (this : loc) : M Uint8Array :=
  d ← readDoc this;
  mret (Y_encodeStateAsUpdate d).

Definition getStateArray (this : loc) : M (list Z) :=
  s ← getState this;
  mret (uint8ArrayToArray s).

Definition applyUpdate (this : loc) (update : Uint8Array) : M unit :=
  d ← readDoc this;
  match Y_applyUpdate d update with
  | Applied d' => modify (with_docHeap <[this := d']>)
  | Malformed d' => modify (with_docHeap <[this := d']>);; throw
  end.

Definition documentStore_getOrCreate (documentId : string) (initialState : option Uint8Array)
    : M loc :=
  doc ← gets (fun w => documents w !! documentId);
  match doc with
  | Some doc => mret doc
  | None =>
      doc ← new_CRDTDocument initialState;
      modify (with_documents <[documentId := doc]>);;
      mret doc
  end.

(** [remove]: [doc.destroy()] detaches the listeners of the Y.Doc and leaves
    its content; the entry is deleted. *)
Definition documentStore_remove (documentId : string) : M unit :=
  doc ← gets (fun w => documents w !! documentId);
  match doc with
  | Some _ => modify (with_documents (delete documentId))
  | None => mret tt
  end.

(** *** RoomState objects *)

Definition readRoom (r : loc) : M RoomState :=
  rs ← gets (fun w => roomHeap w !! r);
  match rs with
  | Some rs => mret rs
  | None => throw
  end.

Definition new_RoomState (rs : RoomState) : M loc :=
  r ← gets (fun w => fresh (dom (roomHeap w)));
  modify (with_roomHeap <[r := rs]>);;
  mret r.

Definition with_users (f : gmap string RoomUser -> gmap string RoomUser) (rs : RoomState)
    : RoomState :=
  {| documentId := documentId rs; users := f (users rs); document := document rs;
     lastSaveTime := lastSaveTime rs; saveTimeout := saveTimeout rs |}.

Definition set_lastSaveTime (t : Z) (rs : RoomState) : RoomState :=
  {| documentId := documentId rs; users := users rs; document := document rs;
     lastSaveTime := t; saveTimeout := saveTimeout rs |}.

Definition set_saveTimeout (h : option handle) (rs : RoomState) : RoomState :=
  {| documentId := documentId rs; users := users rs; document := document rs;
     lastSaveTime := lastSaveTime rs; saveTimeout := h |}.

Definition set_cursor (c : option CursorPosition) (u : RoomUser) : RoomUser :=
  {| ru_id := ru_id u; ru_name := ru_name u; ru_color := ru_color u;
     ru_avatar := ru_avatar u; ru_role := ru_role u; ru_cursor := c;
     ru_isOnline := ru_isOnline u |}.

Definition modRoom (r : loc) (f : RoomState -> RoomState) : M unit :=
  modify (with_roomHeap (alter f r)).

(** ** lib/auth/session.ts *)

Definition checkDocumentAccess (userId documentId : string) : M (bool * option Role) :=
  document ← prisma_document_findUnique documentId;
  match document with
  | None => mret (false, None)
  | Some document =>
      if decide (doc_ownerId document = userId) then mret (true, Some OWNER)
      else
        collaborator ← prisma_collaborator_findUnique userId documentId;
        match collaborator with
        | Some role => mret (true, Some role)
        | None =>
            if doc_isPublic document then mret (true, Some VIEWER)
            else mret (false, None)
        end
  end.

(** ** CollaborationServer *)

(** *** User socket tracking *)

Definition trackUserSocket (userId socketId : string) : M unit :=
  sockets ← gets (fun w => userSockets w !! userId);
  match sockets with
  | None => modify (with_userSockets <[userId := {[ socketId ]}]>)
  | Some sockets => modify (with_userSockets <[userId := sockets ∪ {[ socketId ]}]>)
  end.

Definition untrackUserSocket (userId socketId : string) : M unit :=
  sockets ← gets (fun w => userSockets w !! userId);
  match sockets with
  | None => mret tt
  | Some sockets =>
      let sockets := sockets ∖ {[ socketId ]} in
      if decide (size sockets = 0%nat)
      then modify (with_userSockets (delete userId))
      else modify (with_userSockets <[userId := sockets]>)
  end.

(** *** Persistence *)

Definition getDocumentVersion (documentId : string) : M Z :=
  doc ← prisma_document_findUnique documentId;
  mret (match doc with Some doc => doc_version doc | None => 0 end).

Definition saveDocument (roomState : loc) : M unit :=
  try_catch
    (rs ← readRoom roomState;
     state ← getState (document rs);
     now ← gets clock;
     prisma_document_update (documentId rs) state now;;
     version ← getDocumentVersion (documentId rs);
     prisma_operation_create
       {| op_documentId := documentId rs; op_userId := "system";
          op_data := state; op_version := version |};;
     (if decide (now - lastSaveTime rs > SNAPSHOT_INTERVAL_MS) then
        version ← getDocumentVersion (documentId rs);
        prisma_snapshot_create
          {| sn_documentId := documentId rs; sn_data := state; sn_version := version |}
      else mret tt);;
     modRoom roomState (set_lastSaveTime now);;
     savedAt ← gets clock;
     io_to_emit (roomIdOf (documentId rs)) (DOCUMENT_SAVED (documentId rs) savedAt))
    (mret tt).

Definition scheduleSave (roomState : loc) : M unit :=
  rs ← readRoom roomState;
  match saveTimeout rs with
  | Some h => clearTimeout h
  | None => mret tt
  end;;
  h ← setTimeout roomState SAVE_DEBOUNCE_MS;
  modRoom roomState (set_saveTimeout (Some h)).

(** The callback of the save timer, run by the event loop when [h] is due:
    [async () => { await this.saveDocument(roomState) }]. *)
Definition fireTimer (h : handle) : M unit :=
  tm ← gets (fun w => timers w !! h);
  match tm with
  | None => mret tt
  | Some tm =>
      now ← gets clock;
      if decide (deadline tm <= now) then
        modify (with_timers (delete h));;
        saveDocument (target tm)
      else mret tt
  end.

(** *** Room management *)

(** The other sockets of the user of [socket] that are in [roomId]:
    [Array.from(userSockets).filter((sid) =>
       this.socketToRoom.get(sid) === roomId && sid !== socket.id)],
    and [[]] when the user has no tracked socket. *)
Definition userSocketsInRoom (w : World) (socket : AuthenticatedSocket) (roomId : string)
    : list string :=
  match userSockets w !! userId socket with
  | Some userSockets =>
      filter (fun sid => socketToRoom w !! sid = Some roomId ∧ sid ≠ sock_id socket)
             (elements userSockets)
  | None => []
  end.

Definition handleLeaveRoom (socket : AuthenticatedSocket) : M unit :=
  roomId ← gets (fun w => socketToRoom w !! sock_id socket);
  match roomId with
  | None => mret tt
  | Some roomId =>
    if decide (roomId = "") then mret tt else
    roomState ← gets (fun w => rooms w !! roomId);
    match roomState with
    | None => mret tt
    | Some roomState =>
      let userId := userId socket in
      userSocketsInRoom ← gets (fun w => userSocketsInRoom w socket roomId);
      (if decide (length userSocketsInRoom = 0%nat) then
         modRoom roomState (with_users (delete userId));;
         socket_to_emit socket roomId (USER_LEFT userId)
       else mret tt);;
      socket_leave socket roomId;;
      modify (with_socketToRoom (delete (sock_id socket)));;
      rs ← readRoom roomState;
      if decide (size (users rs) = 0%nat) then
        saveDocument roomState;;
        rs ← readRoom roomState;
        match saveTimeout rs with
        | Some h => clearTimeout h
        | None => mret tt
        end;;
        documentStore_remove (documentId rs);;
        modify (with_rooms (delete roomId))
      else mret tt
    end
  end.

Definition handleJoinRoom (socket : AuthenticatedSocket) (payload : JoinRoomPayload)
    : M unit :=
  let documentId := jr_documentId payload in
  let userId := userId socket in
  let user := user socket in
  try_catch
    (access ← checkDocumentAccess userId documentId;
     match access with
     | (true, Some role) =>
       handleLeaveRoom socket;;
       let roomId := roomIdOf documentId in
       socket_join socket roomId;;
       modify (with_socketToRoom <[sock_id socket := roomId]>);;
       roomState ← gets (fun w => rooms w !! roomId);
       roomState ←
         match roomState with
         | Some roomState => mret (Some roomState)
         | None =>
           document ← prisma_document_findUnique documentId;
           match document with
           | None => socket_emit socket (ERROR "Document not found");; mret None
           | Some document =>
             crdtDoc ← documentStore_getOrCreate documentId (doc_content document);
             now ← gets clock;
             roomState ← new_RoomState
               {| documentId := documentId; users := ∅; document := crdtDoc;
                  lastSaveTime := now; saveTimeout := None |};
             modify (with_rooms <[roomId := roomState]>);;
             mret (Some roomState)
           end
         end;
       match roomState with
       | None => mret tt
       | Some roomState =>
         let roomUser :=
           {| ru_id := userId; ru_name := su_name user; ru_color := su_color user;
              ru_avatar := su_avatar user; ru_role := role; ru_cursor := None;
              ru_isOnline := true |} in
         modRoom roomState (with_users <[userId := roomUser]>);;
         documentInfo ← prisma_document_findUnique documentId;
         match documentInfo with
         | None => throw
         | Some documentInfo =>
           rs ← readRoom roomState;
           state ← getStateArray (document rs);
           socket_emit socket (ROOM_JOINED
             {| rj_documentId := documentId;
                rj_document := (documentId, doc_title documentInfo, doc_version documentInfo);
                rj_state := state;
                rj_users := (map_to_list (users rs)).*2;
                rj_role := role |});;
           socket_to_emit socket roomId (USER_JOINED roomUser)
         end
       end
     | _ => socket_emit socket (ERROR "Access denied to this document")
     end)
    (socket_emit socket (ERROR "Failed to join room")).

(** *** CRDT operations *)

Definition handleUpdateOperation (socket : AuthenticatedSocket)
    (payload : UpdateOperationPayload) : M unit :=
  roomId ← gets (fun w => socketToRoom w !! sock_id socket);
  match roomId with
  | None => mret tt
  | Some roomId =>
    if decide (roomId = "") then mret tt else
    roomState ← gets (fun w => rooms w !! roomId);
    match roomState with
    | None => mret tt
    | Some roomState =>
      let userId := userId socket in
      rs ← readRoom roomState;
      let userRole := ru_role <$> users rs !! userId in
      if decide (userRole = Some VIEWER) then
        socket_emit socket (ERROR "You do not have permission to edit this document")
      else
        try_catch
          (let update := arrayToUint8Array (up_update payload) in
           applyUpdate (document rs) update;;
           socket_to_emit socket roomId (UPDATE_OPERATION payload userId);;
           scheduleSave roomState)
          (socket_emit socket (ERROR "Failed to apply update"))
    end
  end.

Definition handleRequestSync (socket : AuthenticatedSocket) : M unit :=
  roomId ← gets (fun w => socketToRoom w !! sock_id socket);
  match roomId with
  | None => mret tt
  | Some roomId =>
    if decide (roomId = "") then mret tt else
    roomState ← gets (fun w => rooms w !! roomId);
    match roomState with
    | None => mret tt
    | Some roomState =>
      rs ← readRoom roomState;
      state ← getStateArray (document rs);
      version ← getDocumentVersion (documentId rs);
      socket_emit socket (SYNC_STATE (documentId rs) state version)
    end
  end.

(** *** Presence *)

Definition handleCursorPresence (socket : AuthenticatedSocket)
    (payload : CursorPresencePayload) : M unit :=
  roomId ← gets (fun w => socketToRoom w !! sock_id socket);
  match roomId with
  | None => mret tt
  | Some roomId =>
    if decide (roomId = "") then mret tt else
    roomState ← gets (fun w => rooms w !! roomId);
    match roomState with
    | None => mret tt
    | Some roomState =>
      let userId := userId socket in
      modRoom roomState (with_users (alter (set_cursor (cp_cursor payload)) userId));;
      socket_to_emit socket roomId (CURSOR_PRESENCE payload userId)
    end
  end.

Definition handleTypingIndicator (socket : AuthenticatedSocket)
    (payload : TypingIndicatorPayload) : M unit :=
  roomId ← gets (fun w => socketToRoom w !! sock_id socket);
  match roomId with
  | None => mret tt
  | Some roomId =>
    if decide (roomId = "") then mret tt else
    socket_to_emit socket roomId (TYPING_INDICATOR payload (userId socket))
  end.

(** *** Disconnect

    The handler as written.  Socket.IO itself takes a closing socket out of
    its rooms before the handler runs; the [adapter] of the state changes
    by [socket.join] and [socket.leave] only. *)

Definition handleDisconnect (socket : AuthenticatedSocket) : M unit :=
  untrackUserSocket (userId socket) (sock_id socket);;
  handleLeaveRoom socket.

(** The connection [socket] is in the room of document [d], and that room
    is resident: [r] is its [RoomState] object, [rs] the content of it. *)
Definition resident (w : World) (socket : AuthenticatedSocket) (d : string)
    (r : loc) (rs : RoomState) : Prop :=
  socketToRoom w !! sock_id socket = Some (roomIdOf d)
  /\ rooms w !! roomIdOf d = Some r
  /\ roomHeap w !! r = Some rs.

(** [socket.emit(SocketEvent.ERROR, { message })] as it lands in the outbox. *)
Definition error_to (socket : AuthenticatedSocket) (message : string) : Emission :=
  {| recipients := {[ sock_id socket ]}; event := ERROR message |}.

Definition sent (e : Emission) (w : World) : World :=
  with_outbox (fun o => (o ++ [e])%list) w.

(** [if (roomState.saveTimeout) clearTimeout(roomState.saveTimeout)] on the
    timer table. *)
Definition cancel (h : option handle) (t : gmap handle Timer) : gmap handle Timer :=
  match h with
  | Some h => delete h t
  | None => t
  end.

(** The broadcast of an accepted update: to the room without its sender. *)
Definition update_broadcast (w : World) (socket : AuthenticatedSocket) (roomId : string)
    (payload : UpdateOperationPayload) : Emission :=
  {| recipients := in_room w roomId ∖ {[ sock_id socket ]};
     event := UPDATE_OPERATION payload (userId socket) |}.

(** The state after an accepted update of the room object [r] (content [rs]):
    the document holds [yd'], the update went to the others, the pending
    save timer of the room is replaced by a new one. *)
Definition after_update (w : World) (socket : AuthenticatedSocket) (roomId : string)
    (r : loc) (rs : RoomState) (yd' : YDoc) (payload : UpdateOperationPayload) : World :=
  with_roomHeap (alter (set_saveTimeout (Some (nextHandle w))) r)
    (with_nextHandle S
      (with_timers
         (fun t => <[nextHandle w :=
                      {| deadline := clock w + SAVE_DEBOUNCE_MS; target := r |}]>
                     (cancel (saveTimeout rs) t))
         (sent (update_broadcast w socket roomId payload)
            (with_docHeap <[document rs := yd']> w)))).

(** What one successful [saveDocument] makes of the durable store: the row
    of the document gets the content, the next version and the time; one
    operation record is appended; a snapshot record is appended when more
    than the interval has passed since [lastSave]. *)
Definition saved_db (d : Db) (docId : string) (state : Uint8Array) (now lastSave : Z)
    (row : DocumentRow) : Db :=
  {| tbl_document := alter (saved_row state now) docId (tbl_document d);
     tbl_collaborator := tbl_collaborator d;
     tbl_operation :=
       (tbl_operation d ++
        [{| op_documentId := docId; op_userId := "system"; op_data := state;
            op_version := doc_version row + 1 |}])%list;
     tbl_snapshot :=
       if decide (now - lastSave > SNAPSHOT_INTERVAL_MS)
       then (tbl_snapshot d ++
             [{| sn_documentId := docId; sn_data := state;
                 sn_version := doc_version row + 1 |}])%list
       else tbl_snapshot d |}.

Definition document_saved (w : World) (rs : RoomState) : Emission :=
  {| recipients := in_room w (roomIdOf (documentId rs));
     event := DOCUMENT_SAVED (documentId rs) (clock w) |}.

Definition after_save (w : World) (r : loc) (rs : RoomState) (yd : YDoc)
    (row : DocumentRow) : World :=
  sent (document_saved w rs)
    (with_roomHeap (alter (set_lastSaveTime (clock w)) r)
      (with_db (fun d => saved_db d (documentId rs) (Y_encodeStateAsUpdate yd)
                           (clock w) (lastSaveTime rs) row) w)).

(** The state [saveDocument] leaves: the save, or nothing at all when the
    room object, its document or the row of the document is missing. *)
Definition save_result (w : World) (r : loc) : World :=
  match roomHeap w !! r with
  | None => w
  | Some rs =>
      match docHeap w !! document rs with
      | None => w
      | Some yd =>
          match tbl_document (db w) !! documentId rs with
          | None => w
          | Some row => after_save w r rs yd row
          end
      end
  end.

Definition user_left (w : World) (socket : AuthenticatedSocket) (roomId : string)
    : Emission :=
  {| recipients := in_room w roomId ∖ {[ sock_id socket ]};
     event := USER_LEFT (userId socket) |}.

(** The roster of the room after a leave of [socket]: the entry of its user
    goes when no other socket of that user is in the room. *)
Definition roster_after_leave (w : World) (socket : AuthenticatedSocket)
    (roomId : string) (rs : RoomState) : RoomState :=
  if decide (length (userSocketsInRoom w socket roomId) = 0%nat)
  then with_users (delete (userId socket)) rs
  else rs.

(** The first half of [handleLeaveRoom]: roster, notification, Socket.IO
    room, [socketToRoom]. *)
Definition leave_membership (w : World) (socket : AuthenticatedSocket)
    (roomId : string) (r : loc) : World :=
  let w1 :=
    if decide (length (userSocketsInRoom w socket roomId) = 0%nat)
    then sent (user_left w socket roomId)
           (with_roomHeap (alter (with_users (delete (userId socket))) r) w)
    else w in
  with_socketToRoom (delete (sock_id socket))
    (with_adapter <[roomId := in_room w1 roomId ∖ {[ sock_id socket ]}]> w1).

(** The clean-up of an empty room, after its flush: the pending save timer
    is cleared, the document leaves the store, the room leaves the registry. *)
Definition teardown (w : World) (roomId : string) (rs : RoomState) : World :=
  with_rooms (delete roomId)
    (with_documents (delete (documentId rs))
      (with_timers (cancel (saveTimeout rs)) w)).

Definition after_leave (w : World) (socket : AuthenticatedSocket) (roomId : string)
    (r : loc) (rs : RoomState) : World :=
  let w2 := leave_membership w socket roomId r in
  let rs2 := roster_after_leave w socket roomId rs in
  if decide (size (users rs2) = 0%nat)
  then teardown (save_result w2 r) roomId rs2
  else w2.

(** The user of [socket] has another tracked socket in [roomId]. *)
Definition has_other_socket (w : World) (socket : AuthenticatedSocket) (roomId : string)
    : Prop :=
  exists sid, sid ∈ default ∅ (userSockets w !! userId socket)
    /\ socketToRoom w !! sid = Some roomId
    /\ sid ≠ sock_id socket.

(** [checkDocumentAccess] as a function of the durable store. *)
Definition access_of (d : Db) (userId documentId : string) : bool * option Role :=
  match tbl_document d !! documentId with
  | None => (false, None)
  | Some document =>
      if decide (doc_ownerId document = userId) then (true, Some OWNER)
      else match tbl_collaborator d !! (userId, documentId) with
           | Some role => (true, Some role)
           | None => if doc_isPublic document then (true, Some VIEWER) else (false, None)
           end
  end.

(** The Y.Doc that [new CRDTDocument(documentId, initialState)] holds, when
    the engine accepts the stored content; [None] when it throws on it. *)
Definition loaded (initialState : option Uint8Array) : option YDoc :=
  match initialState with
  | Some s =>
      if decide (0 < length s)%nat then
        match Y_applyUpdate Y_Doc s with
        | Applied d => Some d
        | Malformed _ => None
        end
      else Some Y_Doc
  | None => Some Y_Doc
  end.

(** The roster entry a join writes. *)
Definition roomUser_of (socket : AuthenticatedSocket) (role : Role) : RoomUser :=
  {| ru_id := userId socket; ru_name := su_name (user socket);
     ru_color := su_color (user socket); ru_avatar := su_avatar (user socket);
     ru_role := role; ru_cursor := None; ru_isOnline := true |}.

(** [handleJoinRoom] from [socket.join(roomId)] on, once access is granted
    with [role] and the previous room is left. *)
Definition join_rest (socket : AuthenticatedSocket) (documentId : string) (role : Role)
    : M unit :=
  let userId := userId socket in
  let user := user socket in
  let roomId := roomIdOf documentId in
  socket_join socket roomId;;
  modify (with_socketToRoom <[sock_id socket := roomId]>);;
  roomState ← gets (fun w => rooms w !! roomId);
  roomState ←
    match roomState with
    | Some roomState => mret (Some roomState)
    | None =>
      document ← prisma_document_findUnique documentId;
      match document with
      | None => socket_emit socket (ERROR "Document not found");; mret None
      | Some document =>
        crdtDoc ← documentStore_getOrCreate documentId (doc_content document);
        now ← gets clock;
        roomState ← new_RoomState
          {| documentId := documentId; users := ∅; document := crdtDoc;
             lastSaveTime := now; saveTimeout := None |};
        modify (with_rooms <[roomId := roomState]>);;
        mret (Some roomState)
      end
    end;
  match roomState with
  | None => mret tt
  | Some roomState =>
    let roomUser :=
      {| ru_id := userId; ru_name := su_name user; ru_color := su_color user;
         ru_avatar := su_avatar user; ru_role := role; ru_cursor := None;
         ru_isOnline := true |} in
    modRoom roomState (with_users <[userId := roomUser]>);;
    documentInfo ← prisma_document_findUnique documentId;
    match documentInfo with
    | None => throw
    | Some documentInfo =>
      rs ← readRoom roomState;
      state ← getStateArray (document rs);
      socket_emit socket (ROOM_JOINED
        {| rj_documentId := documentId;
           rj_document := (documentId, doc_title documentInfo, doc_version documentInfo);
           rj_state := state;
           rj_users := (map_to_list (users rs)).*2;
           rj_role := role |});;
      socket_to_emit socket roomId (USER_JOINED roomUser)
    end
  end.

(** The state [join_rest] enters the room part with: the socket is in the
    Socket.IO room and mapped to it. *)
Definition entered (w : World) (socket : AuthenticatedSocket) (roomId : string) : World :=
  with_socketToRoom <[sock_id socket := roomId]>
    (with_adapter <[roomId := in_room w roomId ∪ {[ sock_id socket ]}]> w).

Definition room_joined (socket : AuthenticatedSocket) (documentId : string)
    (row : DocumentRow) (yd : YDoc) (roster : gmap string RoomUser) (role : Role)
    : Emission :=
  {| recipients := {[ sock_id socket ]};
     event := ROOM_JOINED
       {| rj_documentId := documentId;
          rj_document := (documentId, doc_title row, doc_version row);
          rj_state := uint8ArrayToArray (Y_encodeStateAsUpdate yd);
          rj_users := (map_to_list roster).*2;
          rj_role := role |} |}.

Definition user_joined (w : World) (socket : AuthenticatedSocket) (roomId : string)
    (role : Role) : Emission :=
  {| recipients := (in_room w roomId ∪ {[ sock_id socket ]}) ∖ {[ sock_id socket ]};
     event := USER_JOINED (roomUser_of socket role) |}.

(** A room object as [handleJoinRoom] constructs it, with its first member. *)
Definition fresh_room (w : World) (socket : AuthenticatedSocket) (documentId : string)
    (role : Role) (crdtDoc : loc) : RoomState :=
  {| documentId := documentId;
     users := {[ userId socket := roomUser_of socket role ]};
     document := crdtDoc;
     lastSaveTime := clock w;
     saveTimeout := None |}.

(** ** The event loop

    What the server reacts to: the Socket.IO events wired in
    [setupEventHandlers], each with a payload of the declared shape, and a
    save timer coming due. *)
Inductive Input :=
  | Connection (socket : AuthenticatedSocket)
  | JoinRoom (socket : AuthenticatedSocket) (payload : JoinRoomPayload)
  | LeaveRoom (socket : AuthenticatedSocket)
  | UpdateOperation (socket : AuthenticatedSocket) (payload : UpdateOperationPayload)
  | CursorPresence (socket : AuthenticatedSocket) (payload : CursorPresencePayload)
  | TypingIndicator (socket : AuthenticatedSocket) (payload : TypingIndicatorPayload)
  | RequestSync (socket : AuthenticatedSocket)
  | Disconnect (socket : AuthenticatedSocket)
  | TimerDue (h : handle).

Definition dispatch (i : Input) : M unit :=
  match i with
  | Connection socket => trackUserSocket (userId socket) (sock_id socket)
  | JoinRoom socket payload => handleJoinRoom socket payload
  | LeaveRoom socket => handleLeaveRoom socket
  | UpdateOperation socket payload => handleUpdateOperation socket payload
  | CursorPresence socket payload => handleCursorPresence socket payload
  | TypingIndicator socket payload => handleTypingIndicator socket payload
  | RequestSync socket => handleRequestSync socket
  | Disconnect socket => handleDisconnect socket
  | TimerDue h => fireTimer h
  end.

(** The loop takes input [i] at time [t] and runs its handler to the end. *)
Definition step (ti : Z * Input) (w : World) : World :=
  exec (dispatch (snd ti)) (with_clock (fun _ => fst ti) w).

(** The inputs taken one after the other. *)
Definition run (inputs : list (Z * Input)) (w : World) : World :=
  foldl (fun w ti => step ti w) w inputs.

(** Every pending timer is the save timer of a registered room, and that
    room is registered under the id of its document. *)
Definition timers_wf (w : World) : Prop :=
  forall h tm, timers w !! h = Some tm ->
    (h < nextHandle w)%nat
    /\ exists rs, rooms w !! roomIdOf (documentId rs) = Some (target tm)
         /\ roomHeap w !! target tm = Some rs
         /\ saveTimeout rs = Some h.

(** Every registered room is a room object, registered under the id of
    its document. *)
Definition rooms_wf (w : World) : Prop :=
  forall rid r, rooms w !! rid = Some r ->
    exists rs, roomHeap w !! r = Some rs /\ rid = roomIdOf (documentId rs).

Definition server_wf (w : World) : Prop := rooms_wf w /\ timers_wf w.

(** [socket] may write to the room with roster [roster] of document [d]:
    it is mapped to the room and its roster entry, if any, is no viewer. *)
Definition writer (w : World) (d : string) (roster : gmap string RoomUser)
    (socket : AuthenticatedSocket) : Prop :=
  socketToRoom w !! sock_id socket = Some (roomIdOf d)
  /\ ru_role <$> roster !! userId socket ≠ Some VIEWER.

#[global] Instance writer_dec w d roster socket : Decision (writer w d roster socket).
Proof. unfold writer. apply _. Defined.


(** What [fireTimer] leaves: the save of the room the callback closes over,
    once the timer is due; nothing before that, nor for a handle that is
    not pending. *)
Definition fire_result (w : World) (h : handle) : World :=
  match timers w !! h with
  | Some tm =>
      if decide (deadline tm <= clock w)
      then save_result (with_timers (delete h) w) (target tm)
      else w
  | None => w
  end.



(** The snapshot rule as the claim reads it, over saves of the room [r] at
    the given times: each save writes a snapshot exactly when more than the
    interval has passed since the last snapshot was written ([lastSnapshot];
    before the first snapshot, the creation of the room). *)
Fixpoint snapshots_since_last_snapshot (r : loc) (lastSnapshot : Z) (times : list Z)
    (w : World) : Prop :=
  match times with
  | [] => True
  | t :: times' =>
      let w1 := with_clock (fun _ => t) w in
      let w2 := exec (saveDocument r) w1 in
      let wrote :=
        bool_decide (length (tbl_snapshot (db w1)) < length (tbl_snapshot (db w2)))%nat in
      (wrote = true <-> t - lastSnapshot > SNAPSHOT_INTERVAL_MS)
      /\ snapshots_since_last_snapshot r (if wrote then t else lastSnapshot) times' w2
  end.

(** The join of [socket] succeeded: ROOM_JOINED went to it. *)
Definition joined (socket : AuthenticatedSocket) (payload : JoinRoomPayload) (w : World)
    : Prop :=
  exists p, {| recipients := {[ sock_id socket ]}; event := ROOM_JOINED p |}
            ∈ emitted (handleJoinRoom socket payload) w.

(** The tracked sockets of a user that are in a room. *)
Definition socketsInRoom (w : World) (uid roomId : string) : gset string :=
  filter (fun sid => socketToRoom w !! sid = Some roomId) (default ∅ (userSockets w !! uid)).

(** ** The rest of the code

    *** DocumentStore (lib/crdt/document.ts) *)

Definition documentStore_get (documentId : string) : M (option loc) :=
  gets (fun w => documents w !! documentId).

Definition documentStore_has (documentId : string) : M bool :=
  gets (fun w => bool_decide (is_Some (documents w !! documentId))).

Definition documentStore_getCount : M nat :=
  gets (fun w => size (documents w)).

(** *** lib/auth/session.ts *)

Definition roleHierarchy (role : Role) : Z :=
  match role with
  | VIEWER => 1
  | EDITOR => 2
  | OWNER => 3
  end.

Definition requireDocumentRole (userId documentId : string) (minRole : Role)
    : M RoleCheck :=
  access ← checkDocumentAccess userId documentId;
  let hasAccess := access.1 in
  let role := access.2 in
  if negb hasAccess then
    mret {| rc_allowed := false; rc_role := None; rc_error := Some "Document not found" |}
  else
    let userLevel := match role with Some role => roleHierarchy role | None => 0 end in
    let requiredLevel := roleHierarchy minRole in
    if decide (userLevel < requiredLevel) then
      mret {| rc_allowed := false; rc_role := role;
              rc_error := Some "Insufficient permissions" |}
    else
      mret {| rc_allowed := true; rc_role := role; rc_error := None |}.

(** *** CollaborationServer: the public API *)

(** [await Promise.all(promises)]: every promise runs to its end, and the
    whole rejects when one of them did.  The promises are taken in the order
    of the list, each to its end before the next, as every handler of this
    development runs to its end before the next input. *)
Fixpoint Promise_all (promises : list (M unit)) : M unit :=
  match promises with
  | [] => mret tt
  | p :: promises =>
      fun w =>
        let (c, w') := p w in
        match Promise_all promises w' with
        | (Normal _, w'') => (c, w'')
        | (Thrown, w'') => (Thrown, w'')
        end
  end.

Definition saveAllDocuments : M unit :=
  roomStates ← gets (fun w => (map_to_list (rooms w)).*2);
  Promise_all (saveDocument <$> roomStates).

(** ** The state of a server that was just constructed: the field
    initialisers of [CollaborationServer] and of [DocumentStore], and no
    timer set. *)
Definition constructed (w : World) : Prop :=
  rooms w = ∅ /\ userSockets w = ∅ /\ socketToRoom w = ∅
  /\ documents w = ∅ /\ timers w = ∅.

(** Every registered room has a member. *)
Definition rosters_wf (w : World) : Prop :=
  forall rid r rs, rooms w !! rid = Some r -> roomHeap w !! r = Some rs -> users rs ≠ ∅.

(** The document store and the room registry go together: the document of
    a registered room is the entry of the store for its id, every entry of
    the store is the document of a registered room and a live object, and
    no object is the entry of two ids. *)
Definition store_wf (w : World) : Prop :=
  (forall rid r rs, rooms w !! rid = Some r -> roomHeap w !! r = Some rs ->
     documents w !! documentId rs = Some (document rs))
  /\ (forall d l, documents w !! d = Some l ->
        is_Some (rooms w !! roomIdOf d) /\ is_Some (docHeap w !! l))
  /\ (forall d1 d2 l, documents w !! d1 = Some l -> documents w !! d2 = Some l -> d1 = d2).

(** No user is tracked with an empty set of sockets. *)
Definition tracking_wf (w : World) : Prop :=
  forall uid sockets, userSockets w !! uid = Some sockets -> sockets ≠ ∅.

Definition server_inv (w : World) : Prop :=
  server_wf w /\ rosters_wf w /\ store_wf w /\ tracking_wf w.

(** The operation records of one document. *)
Definition operations_of (d : string) (ops : list OperationRow) : list OperationRow :=
  filter (fun o => op_documentId o = d) ops.

(** The inputs that can change who is in which room. *)
Definition changes_membership (i : Input) : bool :=
  match i with
  | JoinRoom _ _ | LeaveRoom _ | Disconnect _ => true
  | _ => false
  end.

End Server.

(** ** Route protection and socket authentication

    [getCurrentUser], [getServerUser], [protectRoute] and
    [protectDocumentRoute] of lib/auth/session.ts, and the authentication
    middleware of [CollaborationServer.setupMiddleware].  The user table is
    not part of the server state above; it is the parameter [tbl_user]. *)
Section Session.

Context {YDoc : Type} `{!CRDTEngine YDoc} `{!JWT}.
Variables (env : Env) (tbl_user : gmap string UserRow).

Definition userOfToken (token : string) : option SafeUser :=
  match verifyToken env token with
  | None => None
  | Some payload => prisma_user_findUnique tbl_user (jwt_userId payload)
  end.

Definition getCurrentUser (request : NextRequest) : option SafeUser :=
  let token := extractBearerToken (req_authorization request) in
  let token := match present token with
               | Some token => Some token
               | None => req_cookie request
               end in
  match present token with
  | None => None
  | Some token => userOfToken token
  end.

Definition getServerUser (cookie : option string) : option SafeUser :=
  match present cookie with
  | None => None
  | Some token => userOfToken token
  end.

Definition protectRoute (request : NextRequest) : RouteResult SafeUser :=
  match getCurrentUser request with
  | None => ErrorResponse 401 "Unauthorized"
  | Some user => Passed user
  end.

Definition protectDocumentRoute (request : NextRequest) (documentId : string)
    (minRole : Role) : M (YDoc := YDoc) (RouteResult (SafeUser * Role)) :=
  match protectRoute request with
  | ErrorResponse status error => mret (ErrorResponse status error)
  | Passed user =>
      accessResult ← requireDocumentRole (su_id user) documentId minRole;
      match rc_allowed accessResult, rc_role accessResult with
      | true, Some role => mret (Passed (user, role))
      | _, _ =>
          mret (ErrorResponse 403
                  (default "Access denied" (present (rc_error accessResult))))
      end
  end.

(** The middleware installed by [setupMiddleware], on the socket with id
    [socketId].  Its [catch] branch, [next(new Error("Authentication
    failed"))], runs when the lookup in the user table throws, which a
    table that is a finite map does not do; [verifyToken] catches what it
    throws itself. *)
Definition setupMiddleware (socketId : string) (handshake : Handshake) : Admission :=
  let token := match present (hs_auth_token handshake) with
               | Some token => Some token
               | None => hs_query_token handshake
               end in
  match present token with
  | None => Refused "Authentication required"
  | Some token =>
      match verifyToken env token with
      | None => Refused "Invalid or expired token"
      | Some payload =>
          match prisma_user_findUnique tbl_user (jwt_userId payload) with
          | None => Refused "User not found"
          | Some user => Accepted {| sock_id := socketId; userId := su_id user; user := user |}
          end
      end
  end.

End Session.

(** ** A concrete engine and a concrete server

    The engine [LogEngine] keeps the bytes it was given, in order, and
    rejects an update that starts with the byte 0xff without touching the
    document.  The server below is run from the empty state on two
    documents of Alice: [d1], public and empty, and [d2], whose stored
    content the engine rejects. *)
Module Scenario.

#[global] Instance LogEngine : CRDTEngine (list Byte.byte) := {|
  Y_Doc := [];
  Y_applyUpdate d u :=
    match u with
    | Byte.xff :: _ => Malformed d
    | _ => Applied (d ++ u)%list
    end;
  Y_encodeStateAsUpdate d := d
|}.

Definition row_d1 : DocumentRow :=
  {| doc_title := "Notes"; doc_content := None; doc_ownerId := "alice";
     doc_version := 0; doc_isPublic := true; doc_updatedAt := 0 |}.

Definition row_d2 : DocumentRow :=
  {| doc_title := "Broken"; doc_content := Some [Byte.xff]; doc_ownerId := "alice";
     doc_version := 3; doc_isPublic := false; doc_updatedAt := 0 |}.

Definition db0 : Db :=
  {| tbl_document := {[ "d1" := row_d1; "d2" := row_d2 ]};
     tbl_collaborator := ∅;
     tbl_operation := [];
     tbl_snapshot := [] |}.

Definition empty_server : World (YDoc := list Byte.byte) :=
  {| rooms := ∅; roomHeap := ∅; userSockets := ∅; socketToRoom := ∅;
     documents := ∅; docHeap := ∅; adapter := ∅; timers := ∅;
     nextHandle := 0%nat; clock := 0; db := db0; outbox := [] |}.

Definition alice : SafeUser :=
  {| su_id := "alice"; su_name := "Alice"; su_email := "alice@example.org";
     su_avatar := None; su_color := "#ff0000" |}.

Definition bob : SafeUser :=
  {| su_id := "bob"; su_name := "Bob"; su_email := "bob@example.org";
     su_avatar := None; su_color := "#0000ff" |}.

(** Two tabs of Alice, one of Bob. *)
Definition sA : AuthenticatedSocket := {| sock_id := "sA"; userId := "alice"; user := alice |}.
Definition sA2 : AuthenticatedSocket := {| sock_id := "sA2"; userId := "alice"; user := alice |}.
Definition sB : AuthenticatedSocket := {| sock_id := "sB"; userId := "bob"; user := bob |}.

Definition join_d1 : JoinRoomPayload := {| jr_documentId := "d1" |}.
Definition join_d2 : JoinRoomPayload := {| jr_documentId := "d2" |}.

Definition edit (bytes : list Z) (at_ : Z) : UpdateOperationPayload :=
  {| up_documentId := "d1"; up_update := bytes; up_clientId := 1; up_timestamp := at_ |}.

(** The three sockets are connected. *)
Definition connected : World :=
  Eval vm_compute in
    run [(0, Connection sA); (0, Connection sA2); (0, Connection sB)] empty_server.

(** Alice is alone in the room of [d1]. *)
Definition alice_alone : World :=
  Eval vm_compute in step (10, JoinRoom sA join_d1) connected.

(** Alice (owner) and Bob (viewer, the document being public) in the room. *)
Definition alice_and_bob : World :=
  Eval vm_compute in step (20, JoinRoom sB join_d1) alice_alone.

(** Both tabs of Alice in the room. *)
Definition two_tabs : World :=
  Eval vm_compute in step (20, JoinRoom sA2 join_d1) alice_alone.

(** Room object 0 of a state (the room of [d1] in the states above). *)
Definition room0 (w : World (YDoc := list Byte.byte)) : RoomState :=
  default {| documentId := ""; users := ∅; document := 0%nat; lastSaveTime := 0;
             saveTimeout := None |}
          (roomHeap w !! 0%nat).

(** A second tab of Bob, not connected in the states above. *)
Definition sB2 : AuthenticatedSocket := {| sock_id := "sB2"; userId := "bob"; user := bob |}.

(** Room object [r] of a state. *)
Definition room_at (r : loc) (w : World (YDoc := list Byte.byte)) : RoomState :=
  default {| documentId := ""; users := ∅; document := 0%nat; lastSaveTime := 0;
             saveTimeout := None |}
          (roomHeap w !! r).

(** *** A store with two documents that load *)

Definition row_d3 : DocumentRow :=
  {| doc_title := "Plan"; doc_content := Some [Byte.x01]; doc_ownerId := "bob";
     doc_version := 7; doc_isPublic := false; doc_updatedAt := 0 |}.

Definition db_two : Db :=
  {| tbl_document := {[ "d1" := row_d1; "d3" := row_d3 ]};
     tbl_collaborator := {[ ("alice", "d3") := EDITOR ]};
     tbl_operation := [];
     tbl_snapshot := [] |}.

Definition empty_server_two : World (YDoc := list Byte.byte) :=
  {| rooms := ∅; roomHeap := ∅; userSockets := ∅; socketToRoom := ∅;
     documents := ∅; docHeap := ∅; adapter := ∅; timers := ∅;
     nextHandle := 0%nat; clock := 0; db := db_two; outbox := [] |}.

Definition join_d3 : JoinRoomPayload := {| jr_documentId := "d3" |}.

Definition edit_d3 (bytes : list Z) (at_ : Z) : UpdateOperationPayload :=
  {| up_documentId := "d3"; up_update := bytes; up_clientId := 2; up_timestamp := at_ |}.

(** Alice in the room of [d1], Bob in the room of [d3]. *)
Definition two_rooms_inputs : list (Z * Input) :=
  [(0, Connection sA); (0, Connection sB); (10, JoinRoom sA join_d1);
   (20, JoinRoom sB join_d3)].

Definition two_rooms : World := Eval vm_compute in run two_rooms_inputs empty_server_two.

(** *** A session *)

Definition connected_inputs : list (Z * Input) :=
  [(0, Connection sA); (0, Connection sA2); (0, Connection sB)].

(** Alice and Bob join [d1]; Alice edits twice, Bob (a viewer) tries to. *)
Definition editing_inputs : list (Z * Input) :=
  (connected_inputs ++
   [(10, JoinRoom sA join_d1); (20, JoinRoom sB join_d1);
    (30, UpdateOperation sA (edit [1; 2] 30)); (40, UpdateOperation sB (edit [3] 40));
    (50, UpdateOperation sA (edit [4] 50))])%list.

(** Then the save timer comes due and Bob leaves. *)
Definition session_inputs : list (Z * Input) :=
  (editing_inputs ++ [(2050, TimerDue 1%nat); (3000, LeaveRoom sB)])%list.

Definition cursor_of_bob : CursorPresencePayload :=
  {| cp_documentId := "d1"; cp_userId := "alice";
     cp_cursor := Some {| anchor := 3; head := 5 |};
     cp_user := ("Alice", "#ff0000") |}.

(** *** An engine that does not undo

    [Y.applyUpdate] changes the document in place and promises no rollback.
    This engine integrates the bytes of an update one by one and throws at
    the byte 255, keeping what it has integrated. *)
Fixpoint integrate (d : list Byte.byte) (u : Uint8Array) : ApplyResult (list Byte.byte) :=
  match u with
  | [] => Applied d
  | Byte.xff :: _ => Malformed d
  | b :: u' => integrate (d ++ [b]) u'
  end.

Definition IntegratingEngine : CRDTEngine (list Byte.byte) :=
  {| Y_Doc := []; Y_applyUpdate := integrate; Y_encodeStateAsUpdate d := d |}.

(** *** Tokens and users *)

(** A token library that knows one token, signed with one secret. *)
Definition OneToken : JWT :=
  {| jwt_verify token secret :=
       if decide (token = "token-of-alice" /\ secret = "s3cret")
       then Some {| jwt_userId := "alice"; jwt_email := "alice@example.org";
                    jwt_name := "Alice"; jwt_iat := 0; jwt_exp := 604800 |}
       else None |}.

Definition env0 : Env := {| JWT_SECRET := Some "s3cret" |}.

(** JWT_SECRET is set to the empty string. *)
Definition env_unset : Env := {| JWT_SECRET := Some "" |}.

Definition users0 : gmap string UserRow :=
  {[ "alice" := {| usr_email := "alice@example.org"; usr_name := "Alice";
                   usr_avatar := None; usr_color := "#ff0000" |} ]}.

(** A handshake with an empty [auth] token and the token in the query. *)
Definition handshake0 : Handshake :=
  {| hs_auth_token := Some ""; hs_query_token := Some "token-of-alice" |}.

End Scenario.

(** ** Properties *)

Ltac mred :=
  cbv [mbind mret M_bind M_ret bind ret gets modify throw try_catch exec emitted].

(** Projections of updated records. *)
Ltac wsimpl :=
  cbn [rooms roomHeap userSockets socketToRoom documents docHeap adapter timers
       nextHandle clock db outbox
       with_rooms with_roomHeap with_userSockets with_socketToRoom with_documents
       with_docHeap with_adapter with_timers with_nextHandle with_clock with_db
       with_outbox sent
       tbl_document tbl_collaborator tbl_operation tbl_snapshot with_tbl_document
       documentId users document lastSaveTime saveTimeout
       with_users set_lastSaveTime set_saveTimeout
       fst snd].

(** Rewrite with a fact about the state and step into the continuation. *)
Tactic Notation "mrw" uconstr(H) := rewrite H; cbv beta; wsimpl.

Section Properties.

Context {YDoc : Type} `{!CRDTEngine YDoc}.

Local Abbreviation World := (@World YDoc).
Local Abbreviation M := (@M YDoc).

(** Two states with the same fields are the same state. *)
Lemma World_ext (w1 w2 : World) :
  rooms w1 = rooms w2 -> roomHeap w1 = roomHeap w2 ->
  userSockets w1 = userSockets w2 -> socketToRoom w1 = socketToRoom w2 ->
  documents w1 = documents w2 -> docHeap w1 = docHeap w2 ->
  adapter w1 = adapter w2 -> timers w1 = timers w2 ->
  nextHandle w1 = nextHandle w2 -> clock w1 = clock w2 ->
  db w1 = db w2 -> outbox w1 = outbox w2 ->
  w1 = w2.
Proof. destruct w1, w2. simpl. by intros -> -> -> -> -> -> -> -> -> -> -> ->. Qed.

Ltac world_eq := apply World_ext; wsimpl; try reflexivity.

Lemma roomIdOf_nonempty d : roomIdOf d ≠ "".
Proof. unfold roomIdOf. discriminate. Qed.

Lemma roomIdOf_inj d1 d2 : roomIdOf d1 = roomIdOf d2 -> d1 = d2.
Proof. unfold roomIdOf. simpl. intros E. by injection E. Qed.

Lemma emitted_sent {A} (m : M A) (w : World) (a : Completion A) (e : Emission) :
  m w = (a, sent e w) -> emitted m w = [e].
Proof.
  intros E. unfold emitted, exec. rewrite E. simpl.
  rewrite drop_app_length. reflexivity.
Qed.

Lemma viewer_update_denied
    (w : World) (socket : AuthenticatedSocket) (d : string) (r : loc)
    (rs : RoomState) (ru : RoomUser) (payload : UpdateOperationPayload) :
  resident w socket d r rs ->
  users rs !! userId socket = Some ru ->
  ru_role ru = VIEWER ->
  handleUpdateOperation socket payload w
  = (Normal tt,
     sent (error_to socket "You do not have permission to edit this document") w).
Proof.
  intros (Hs & Hr & Hh) Hu Hv.
  unfold handleUpdateOperation, readRoom. mred. rewrite Hs.
  destruct (decide (roomIdOf d = "")) as [e|_]; [by destruct (roomIdOf_nonempty d)|].
  rewrite Hr, Hh, Hu. simpl. rewrite Hv.
  destruct (decide (Some VIEWER = Some VIEWER)) as [_|n]; [|done].
  reflexivity.
Qed.

(** C1: an update submitted by a connection whose roster entry has role
    VIEWER is answered with the permission error to that connection alone;
    nothing else is emitted and every other component of the state (the
    CRDT documents, the rooms, the timers, the durable store) is as before. *)
Theorem viewer_update_rejected
    (w : World) (socket : AuthenticatedSocket) (d : string) (r : loc)
    (rs : RoomState) (ru : RoomUser) (payload : UpdateOperationPayload) :
  resident w socket d r rs ->
  users rs !! userId socket = Some ru ->
  ru_role ru = VIEWER ->
  let denial := error_to socket "You do not have permission to edit this document" in
  handleUpdateOperation socket payload w = (Normal tt, sent denial w)
  /\ emitted (handleUpdateOperation socket payload) w = [denial]
  /\ docHeap (exec (handleUpdateOperation socket payload) w) = docHeap w
  /\ timers (exec (handleUpdateOperation socket payload) w) = timers w
  /\ roomHeap (exec (handleUpdateOperation socket payload) w) = roomHeap w.
Proof.
  intros Hres Hu Hv denial.
  pose proof (viewer_update_denied w socket d r rs ru payload Hres Hu Hv) as E.
  fold denial in E.
  split; [exact E|]. split; [by eapply emitted_sent|].
  unfold exec. rewrite E. simpl. done.
Qed.

(** C10: a connection that is mapped to no room gets no answer and changes
    nothing: update, sync request, cursor, typing indicator and leave all
    return at once, with the state (rooms, rosters, document store, timers,
    durable store, and everything emitted so far) exactly as it was. *)
Theorem unmapped_connection_is_ignored
    (w : World) (socket : AuthenticatedSocket)
    (up : UpdateOperationPayload) (cp : CursorPresencePayload)
    (ti : TypingIndicatorPayload) :
  socketToRoom w !! sock_id socket = None ->
  handleUpdateOperation socket up w = (Normal tt, w)
  /\ handleRequestSync socket w = (Normal tt, w)
  /\ handleCursorPresence socket cp w = (Normal tt, w)
  /\ handleTypingIndicator socket ti w = (Normal tt, w)
  /\ handleLeaveRoom socket w = (Normal tt, w).
Proof.
  intros Hnone.
  unfold handleUpdateOperation, handleRequestSync, handleCursorPresence,
    handleTypingIndicator, handleLeaveRoom.
  mred. rewrite Hnone. repeat split; reflexivity.
Qed.


Lemma update_accepted
    (w : World) (socket : AuthenticatedSocket) (d : string) (r : loc)
    (rs : RoomState) (yd yd' : YDoc) (payload : UpdateOperationPayload) :
  resident w socket d r rs ->
  ru_role <$> users rs !! userId socket ≠ Some VIEWER ->
  docHeap w !! document rs = Some yd ->
  Y_applyUpdate yd (arrayToUint8Array (up_update payload)) = Applied yd' ->
  handleUpdateOperation socket payload w
  = (Normal tt, after_update w socket (roomIdOf d) r rs yd' payload).
Proof.
  intros (Hs & Hr & Hh) Hu Hd Ha.
  unfold handleUpdateOperation, readRoom, applyUpdate, readDoc, socket_to_emit, emit,
    scheduleSave, readRoom, setTimeout, clearTimeout, modRoom.
  mred. rewrite Hs.
  destruct (decide (roomIdOf d = "")) as [e|_]; [by destruct (roomIdOf_nonempty d)|].
  rewrite Hr, Hh. simpl.
  destruct (decide _) as [e|_]; [done|].
  rewrite Hd, Ha. simpl. rewrite Hh.
  unfold after_update, cancel, sent, update_broadcast.
  destruct (saveTimeout rs); reflexivity.
Qed.

Lemma update_malformed
    (w : World) (socket : AuthenticatedSocket) (d : string) (r : loc)
    (rs : RoomState) (yd yd' : YDoc) (payload : UpdateOperationPayload) :
  resident w socket d r rs ->
  ru_role <$> users rs !! userId socket ≠ Some VIEWER ->
  docHeap w !! document rs = Some yd ->
  Y_applyUpdate yd (arrayToUint8Array (up_update payload)) = Malformed yd' ->
  handleUpdateOperation socket payload w
  = (Normal tt, sent (error_to socket "Failed to apply update")
                  (with_docHeap <[document rs := yd']> w)).
Proof.
  intros (Hs & Hr & Hh) Hu Hd Ha.
  unfold handleUpdateOperation, readRoom, applyUpdate, readDoc. mred. rewrite Hs.
  destruct (decide (roomIdOf d = "")) as [e|_]; [by destruct (roomIdOf_nonempty d)|].
  rewrite Hr, Hh. simpl.
  destruct (decide _) as [e|_]; [done|].
  rewrite Hd, Ha. reflexivity.
Qed.

Lemma sync_served
    (w : World) (socket : AuthenticatedSocket) (d : string) (r : loc)
    (rs : RoomState) (yd : YDoc) :
  resident w socket d r rs ->
  docHeap w !! document rs = Some yd ->
  handleRequestSync socket w
  = (Normal tt,
     sent {| recipients := {[ sock_id socket ]};
             event := SYNC_STATE (documentId rs)
                        (uint8ArrayToArray (Y_encodeStateAsUpdate yd))
                        (match tbl_document (db w) !! documentId rs with
                         | Some row => doc_version row
                         | None => 0
                         end) |} w).
Proof.
  intros (Hs & Hr & Hh) Hd.
  unfold handleRequestSync, readRoom, getStateArray, getState, readDoc,
    getDocumentVersion, prisma_document_findUnique, socket_emit, emit.
  mred. rewrite Hs.
  destruct (decide (roomIdOf d = "")) as [e|_]; [by destruct (roomIdOf_nonempty d)|].
  rewrite Hr, Hh, Hd. reflexivity.
Qed.

(** [SYNC_STATE] as [handleRequestSync] sends it for the room content [rs]
    whose document holds [yd], with the version the durable store has. *)
Definition sync_state_of (w : World) (socket : AuthenticatedSocket) (rs : RoomState)
    (yd : YDoc) : Emission :=
  {| recipients := {[ sock_id socket ]};
     event := SYNC_STATE (documentId rs)
                (uint8ArrayToArray (Y_encodeStateAsUpdate yd))
                (match tbl_document (db w) !! documentId rs with
                 | Some row => doc_version row
                 | None => 0
                 end) |}.

(** C8, amended: when the engine throws on a submitted update, the
    submitter alone gets "Failed to apply update"; nothing is broadcast, no
    save timer is set or touched, rooms and durable store are as before.
    The handler does not restore the document: the room holds it as the
    engine left it when it threw. *)
Theorem malformed_update_reported_to_submitter_only
    (w : World) (socket : AuthenticatedSocket) (d : string) (r : loc)
    (rs : RoomState) (yd yd' : YDoc) (payload : UpdateOperationPayload) :
  resident w socket d r rs ->
  ru_role <$> users rs !! userId socket ≠ Some VIEWER ->
  docHeap w !! document rs = Some yd ->
  Y_applyUpdate yd (arrayToUint8Array (up_update payload)) = Malformed yd' ->
  let w' := exec (handleUpdateOperation socket payload) w in
  emitted (handleUpdateOperation socket payload) w
    = [error_to socket "Failed to apply update"]
  /\ timers w' = timers w
  /\ nextHandle w' = nextHandle w
  /\ roomHeap w' = roomHeap w
  /\ rooms w' = rooms w
  /\ db w' = db w
  /\ docHeap w' = <[document rs := yd']> (docHeap w).
Proof.
  intros Hres Hu Hd Ha w'.
  pose proof (update_malformed w socket d r rs yd yd' payload Hres Hu Hd Ha) as E.
  subst w'. unfold emitted, exec. rewrite E. simpl.
  rewrite drop_app_length.
  repeat split; reflexivity.
Qed.

(** C6: a sync request of a connection in a resident room is answered, to
    that connection, with the encoding of the document the room holds in
    memory.  In particular, right after an accepted update (the save timer
    it armed still pending, the durable store not yet written) the answer
    is the encoding of the document with that update applied. *)
Theorem sync_serves_current_state
    (w : World) (socket : AuthenticatedSocket) (d : string) (r : loc)
    (rs : RoomState) (yd : YDoc) :
  resident w socket d r rs ->
  docHeap w !! document rs = Some yd ->
  emitted (handleRequestSync socket) w = [sync_state_of w socket rs yd]
  /\ forall (submitter : AuthenticatedSocket) (payload : UpdateOperationPayload)
       (yd' : YDoc) (t : Z),
       resident w submitter d r rs ->
       ru_role <$> users rs !! userId submitter ≠ Some VIEWER ->
       Y_applyUpdate yd (arrayToUint8Array (up_update payload)) = Applied yd' ->
       let w1 := with_clock (fun _ => t) (exec (handleUpdateOperation submitter payload) w) in
       emitted (handleRequestSync socket) w1 = [sync_state_of w socket rs yd']
       /\ db w1 = db w
       /\ timers w1 !! nextHandle w
          = Some {| deadline := clock w + SAVE_DEBOUNCE_MS; target := r |}.
Proof.
  intros Hres Hd. split.
  { eapply emitted_sent. eapply sync_served; eauto. }
  intros submitter payload yd' t Hsub Hrole Ha w1.
  pose proof (update_accepted w submitter d r rs yd yd' payload Hsub Hrole Hd Ha) as E.
  destruct Hres as (Hs & Hr & Hh).
  assert (Hres1 : resident w1 socket d r (set_saveTimeout (Some (nextHandle w)) rs)).
  { subst w1. unfold exec. rewrite E. simpl. repeat split; simpl; try done.
    rewrite lookup_alter_eq, Hh. done. }
  assert (Hd1 : docHeap w1 !! document (set_saveTimeout (Some (nextHandle w)) rs) = Some yd').
  { subst w1. unfold exec. rewrite E. simpl. by rewrite lookup_insert_eq. }
  split.
  { eapply emitted_sent. rewrite (sync_served _ _ _ _ _ _ Hres1 Hd1).
    f_equal. subst w1. unfold exec. rewrite E. reflexivity. }
  subst w1. unfold exec. rewrite E. simpl. split; [done|].
  by rewrite lookup_insert_eq.
Qed.

Lemma saveDocument_result (w : World) (r : loc) :
  saveDocument r w = (Normal tt, save_result w r).
Proof.
  unfold saveDocument, save_result, readRoom, getState, readDoc, prisma_document_update,
    getDocumentVersion, prisma_document_findUnique, prisma_operation_create,
    prisma_snapshot_create, modRoom, io_to_emit, emit.
  mred.
  destruct (roomHeap w !! r) as [rs|]; [|reflexivity].
  destruct (docHeap w !! document rs) as [yd|]; [|reflexivity].
  destruct (tbl_document (db w) !! documentId rs) as [row|] eqn:Hrow; [|reflexivity].
  unfold after_save, saved_db, document_saved, in_room. wsimpl.
  rewrite !lookup_alter_eq, Hrow.
  cbn [fmap option_fmap option_map saved_row doc_version].
  destruct (decide (clock w - lastSaveTime rs > SNAPSHOT_INTERVAL_MS));
    wsimpl; rewrite ?lookup_alter_eq, ?Hrow; reflexivity.
Qed.

Lemma save_result_roomHeap (w : World) (r r' : loc) :
  roomHeap (save_result w r) !! r' = roomHeap w !! r'
  \/ (r' = r /\ roomHeap (save_result w r) !! r'
                = set_lastSaveTime (clock w) <$> roomHeap w !! r').
Proof.
  unfold save_result.
  destruct (roomHeap w !! r) as [rs|] eqn:Hrs; [|by left].
  destruct (docHeap w !! document rs) as [yd|]; [|by left].
  destruct (tbl_document (db w) !! documentId rs) as [row|]; [|by left].
  unfold after_save. wsimpl.
  destruct (decide (r' = r)) as [->|Hne].
  - right. split; [done|]. by rewrite lookup_alter_eq.
  - left. by rewrite lookup_alter_ne.
Qed.

Lemma save_result_frame (w : World) (r : loc) :
  rooms (save_result w r) = rooms w
  /\ userSockets (save_result w r) = userSockets w
  /\ socketToRoom (save_result w r) = socketToRoom w
  /\ documents (save_result w r) = documents w
  /\ docHeap (save_result w r) = docHeap w
  /\ adapter (save_result w r) = adapter w
  /\ timers (save_result w r) = timers w
  /\ nextHandle (save_result w r) = nextHandle w
  /\ clock (save_result w r) = clock w.
Proof.
  unfold save_result.
  destruct (roomHeap w !! r) as [rs|]; [|done].
  destruct (docHeap w !! document rs) as [yd|]; [|done].
  destruct (tbl_document (db w) !! documentId rs) as [row|]; done.
Qed.

Lemma save_result_room (w : World) (r : loc) (rs : RoomState) :
  roomHeap w !! r = Some rs ->
  exists rs', roomHeap (save_result w r) !! r = Some rs'
    /\ documentId rs' = documentId rs /\ users rs' = users rs
    /\ document rs' = document rs /\ saveTimeout rs' = saveTimeout rs.
Proof.
  intros Hh.
  destruct (save_result_roomHeap w r r) as [E|[_ E]]; rewrite E, Hh.
  - by exists rs.
  - by exists (set_lastSaveTime (clock w) rs).
Qed.

(** The clean-up block of [handleLeaveRoom], run on a room object that
    exists. *)
Lemma clean_up_steps (w2 : World) (roomId : string) (r : loc) (rs2 : RoomState) :
  roomHeap w2 !! r = Some rs2 ->
  (saveDocument r;;
   rs ← readRoom r;
   match saveTimeout rs with
   | Some h => clearTimeout h
   | None => mret tt
   end;;
   documentStore_remove (documentId rs);;
   modify (with_rooms (delete roomId))) w2
  = (Normal tt, teardown (save_result w2 r) roomId rs2).
Proof.
  intros Hh.
  unfold readRoom, clearTimeout, documentStore_remove. mred.
  rewrite saveDocument_result.
  destruct (save_result_room w2 r rs2 Hh) as (rs' & E & Hid & _ & _ & Hto).
  rewrite E, Hto, Hid. unfold teardown, cancel.
  destruct (saveTimeout rs2) as [h|]; wsimpl.
  - destruct (documents (save_result w2 r) !! documentId rs2) eqn:Hdoc; [done|].
    f_equal. world_eq. by rewrite (delete_id _ _ Hdoc).
  - destruct (documents (save_result w2 r) !! documentId rs2) eqn:Hdoc; [done|].
    f_equal. world_eq. by rewrite (delete_id _ _ Hdoc).
Qed.

Lemma leave_resident_at
    (w : World) (socket : AuthenticatedSocket) (rid : string) (r : loc) (rs : RoomState) :
  rid ≠ "" ->
  socketToRoom w !! sock_id socket = Some rid ->
  rooms w !! rid = Some r ->
  roomHeap w !! r = Some rs ->
  handleLeaveRoom socket w = (Normal tt, after_leave w socket rid r rs).
Proof.
  intros Hne Hs Hr Hh.
  unfold handleLeaveRoom.
  unfold after_leave, leave_membership, roster_after_leave.
  unfold modRoom, socket_to_emit, emit, socket_leave.
  cbv [mbind M_bind bind gets modify mret M_ret ret]. rewrite Hs.
  destruct (decide (rid = "")) as [e|_]; [done|].
  rewrite Hr.
  destruct (decide (length (userSocketsInRoom w socket rid) = 0%nat))
    as [Hlast|Hother].
  - set (w2 := with_socketToRoom _ _).
    assert (Hh2 : roomHeap w2 !! r = Some (with_users (delete (userId socket)) rs)).
    { subst w2. wsimpl. by rewrite lookup_alter_eq, Hh. }
    unfold readRoom at 1. cbv [mbind M_bind bind gets mret M_ret ret].
    rewrite Hh2. cbn [users with_users].
    destruct (decide (size (delete (userId socket) (users rs)) = 0%nat)).
    + exact (clean_up_steps w2 rid r _ Hh2).
    + reflexivity.
  - set (w2 := with_socketToRoom _ _).
    assert (Hh2 : roomHeap w2 !! r = Some rs) by (subst w2; by wsimpl).
    unfold readRoom at 1. cbv [mbind M_bind bind gets mret M_ret ret].
    rewrite Hh2.
    destruct (decide (size (users rs) = 0%nat)).
    + exact (clean_up_steps w2 rid r _ Hh2).
    + reflexivity.
Qed.

Lemma leave_resident
    (w : World) (socket : AuthenticatedSocket) (d : string) (r : loc) (rs : RoomState) :
  resident w socket d r rs ->
  handleLeaveRoom socket w = (Normal tt, after_leave w socket (roomIdOf d) r rs).
Proof.
  intros (Hs & Hr & Hh). apply leave_resident_at; [apply roomIdOf_nonempty|done..].
Qed.

(** A leave that returns did nothing, or it left a resident room. *)
Lemma leave_normal_cases (w wl : World) (socket : AuthenticatedSocket) :
  handleLeaveRoom socket w = (Normal tt, wl) ->
  wl = w
  \/ exists rid r rs,
       rid ≠ ""
       /\ socketToRoom w !! sock_id socket = Some rid
       /\ rooms w !! rid = Some r
       /\ roomHeap w !! r = Some rs
       /\ wl = after_leave w socket rid r rs.
Proof.
  intros Hl.
  destruct (socketToRoom w !! sock_id socket) as [rid|] eqn:Hs.
  2:{ left. revert Hl. unfold handleLeaveRoom. mred. rewrite Hs. congruence. }
  destruct (decide (rid = "")) as [->|Hne].
  { left. revert Hl. unfold handleLeaveRoom. mred. rewrite Hs. simpl. congruence. }
  destruct (rooms w !! rid) as [r|] eqn:Hr.
  2:{ left. revert Hl. unfold handleLeaveRoom. mred. rewrite Hs.
      destruct (decide (rid = "")); [done|]. rewrite Hr. congruence. }
  destruct (roomHeap w !! r) as [rs|] eqn:Hh.
  { right. exists rid, r, rs. rewrite (leave_resident_at w socket rid r rs) in Hl by done.
    repeat split; try done. congruence. }
  exfalso. revert Hl. unfold handleLeaveRoom, modRoom, socket_to_emit, emit, socket_leave,
    readRoom.
  mred. rewrite Hs. destruct (decide (rid = "")); [done|]. rewrite Hr.
  destruct (decide (length (userSocketsInRoom w socket rid) = 0%nat)); wsimpl;
    rewrite ?lookup_alter_eq, Hh; cbn [fmap option_fmap option_map]; discriminate.
Qed.

(** What the leave path emits. *)
Definition leave_event (uid : string) (ev : ServerEvent) : Prop :=
  match ev with
  | USER_LEFT u => u = uid
  | DOCUMENT_SAVED _ _ => True
  | _ => False
  end.

Lemma save_result_outbox (w : World) (r : loc) :
  outbox (save_result w r) = outbox w
  \/ exists e d t, outbox (save_result w r) = (outbox w ++ [e])%list
       /\ event e = DOCUMENT_SAVED d t.
Proof.
  unfold save_result.
  destruct (roomHeap w !! r) as [rs|]; [|by left].
  destruct (docHeap w !! document rs) as [yd|]; [|by left].
  destruct (tbl_document (db w) !! documentId rs) as [row|]; [|by left].
  right. unfold after_save. wsimpl. by eexists _, _, _.
Qed.

Lemma save_result_rows (w : World) (r : loc) (k : string) :
  is_Some (tbl_document (db w) !! k) -> is_Some (tbl_document (db (save_result w r)) !! k).
Proof.
  intros [row Hrow]. unfold save_result.
  destruct (roomHeap w !! r) as [rs|]; [|by eexists].
  destruct (docHeap w !! document rs) as [yd|]; [|by eexists].
  destruct (tbl_document (db w) !! documentId rs) as [row'|]; [|by eexists].
  unfold after_save, saved_db. wsimpl. rewrite lookup_alter.
  destruct (decide (documentId rs = k)) as [->|]; rewrite Hrow; by eexists.
Qed.

(** The leave of a resident room, on the rest of the state. *)
Lemma after_leave_frame
    (w : World) (socket : AuthenticatedSocket) (rid : string) (r : loc) (rs : RoomState) :
  roomHeap w !! r = Some rs ->
  let wl := after_leave w socket rid r rs in
  let rs2 := roster_after_leave w socket rid rs in
  userSockets wl = userSockets w
  /\ socketToRoom wl = delete (sock_id socket) (socketToRoom w)
  /\ docHeap wl = docHeap w
  /\ (forall k, is_Some (tbl_document (db w) !! k) -> is_Some (tbl_document (db wl) !! k))
  /\ (forall rid0, rid0 ≠ rid -> rooms wl !! rid0 = rooms w !! rid0)
  /\ (size (users rs2) ≠ 0%nat -> rooms wl = rooms w)
  /\ (forall r0 rs0, roomHeap w !! r0 = Some rs0 ->
        exists rs0', roomHeap wl !! r0 = Some rs0'
          /\ document rs0' = document rs0
          /\ documentId rs0' = documentId rs0
          /\ (users rs0' = users rs0 \/ (r0 = r /\ users rs0' = users rs2)))
  /\ (forall e, e ∈ drop (length (outbox w)) (outbox wl) ->
        leave_event (userId socket) (event e)).
Proof.
  intros Hh wl rs2.
  set (w2 := leave_membership w socket rid r).
  assert (F2 : userSockets w2 = userSockets w
    /\ socketToRoom w2 = delete (sock_id socket) (socketToRoom w)
    /\ docHeap w2 = docHeap w /\ db w2 = db w /\ rooms w2 = rooms w
    /\ roomHeap w2 !! r = Some rs2
    /\ (forall r0, r0 ≠ r -> roomHeap w2 !! r0 = roomHeap w !! r0)
    /\ (forall e, e ∈ drop (length (outbox w)) (outbox w2) ->
          leave_event (userId socket) (event e))).
  { subst w2 rs2. unfold leave_membership, roster_after_leave.
    destruct (decide (length (userSocketsInRoom w socket rid) = 0%nat)) as [Hl|Hl];
      wsimpl.
    - repeat split; try done.
      + by rewrite lookup_alter_eq, Hh.
      + intros r0 Hne. by rewrite lookup_alter_ne.
      + rewrite drop_app_length. by intros e ->%list_elem_of_singleton.
    - repeat split; try done. rewrite drop_all. by intros e ?%elem_of_nil. }
  destruct F2 as (Fus & Fs & Fd & Fdb & Fr & Fh & Fho & Fo).
  assert (Hrs2 : document rs2 = document rs /\ documentId rs2 = documentId rs).
  { subst rs2. unfold roster_after_leave. by destruct (decide _). }
  subst wl. unfold after_leave. fold w2 rs2.
  destruct (decide (size (users rs2) = 0%nat)) as [He|Hne].
  - destruct (save_result_frame w2 r) as (Sr & Sus & Ss & Sdoc & Sd & _ & _ & _ & _).
    unfold teardown. wsimpl.
    split; [by rewrite Sus|]. split; [by rewrite Ss|]. split; [by rewrite Sd|].
    split. { intros k Hk. apply save_result_rows. by rewrite Fdb. }
    split. { intros rid0 Hne. by rewrite lookup_delete_ne, Sr, Fr. }
    split; [done|].
    split.
    { intros r0 rs0 Hrs0. destruct (decide (r0 = r)) as [->|Hne].
      - destruct (save_result_room w2 r rs2 Fh) as (rs' & E & Hid & Hu & Hdoc & _).
        exists rs'. rewrite Hh in Hrs0. injection Hrs0 as <-.
        destruct Hrs2 as [H1 H2]. rewrite Hdoc, Hid, Hu. eauto 10.
      - destruct (save_result_roomHeap w2 r r0) as [E|[E _]]; [|done].
        exists rs0. rewrite E, Fho by done. eauto. }
    intros e He'.
    destruct (save_result_outbox w2 r) as [E|(e' & d' & t' & E & Hev)]; rewrite E in He'.
    + by apply Fo.
    + assert (Hle : (length (outbox w) <= length (outbox w2))%nat).
      { revert Fo. clear. subst w2. unfold leave_membership.
        destruct (decide _); wsimpl; intros _; rewrite ?length_app; lia. }
      rewrite drop_app_le in He' by done.
      apply elem_of_app in He' as [He'| ->%list_elem_of_singleton]; [by apply Fo|].
      by rewrite Hev.
  - split; [done|]. split; [done|]. split; [done|].
    split; [by rewrite Fdb|]. split; [by rewrite Fr|]. split; [by rewrite Fr|].
    split; [|done].
    intros r0 rs0 Hrs0. destruct (decide (r0 = r)) as [->|Hne'].
    + exists rs2. rewrite Hh in Hrs0. injection Hrs0 as <-.
      destruct Hrs2 as [H1 H2]. eauto 10.
    + exists rs0. rewrite Fho by done. eauto.
Qed.

Lemma after_leave_outbox
    (w : World) (socket : AuthenticatedSocket) (rid : string) (r : loc) (rs : RoomState) :
  exists l, outbox (after_leave w socket rid r rs) = (outbox w ++ l)%list
    /\ forall e, e ∈ l -> leave_event (userId socket) (event e).
Proof.
  set (w2 := leave_membership w socket rid r).
  assert (H2 : exists l, outbox w2 = (outbox w ++ l)%list
                 /\ forall e, e ∈ l -> leave_event (userId socket) (event e)).
  { subst w2. unfold leave_membership.
    destruct (decide (length (userSocketsInRoom w socket rid) = 0%nat)) as [Hl|Hl]; wsimpl.
    - eexists [_]. split; [done|]. by intros e ->%list_elem_of_singleton.
    - exists []. rewrite app_nil_r. split; [done|]. by intros e ?%elem_of_nil. }
  destruct H2 as (l & Ho & Hl).
  unfold after_leave. fold w2.
  destruct (decide _) as [Hz|Hz]; [|by exists l].
  unfold teardown. wsimpl.
  destruct (save_result_outbox w2 r) as [E|(e' & d' & t' & E & Hev)]; rewrite E, Ho.
  - by exists l.
  - exists (l ++ [e'])%list. rewrite app_assoc. split; [done|].
    intros e [?| ->%list_elem_of_singleton]%elem_of_app; [by apply Hl|by rewrite Hev].
Qed.

(** Whatever the leave path does, it only adds USER_LEFT of the user and
    DOCUMENT_SAVED to the outbox. *)
Lemma leave_emissions (w : World) (socket : AuthenticatedSocket) :
  exists c wl l,
    handleLeaveRoom socket w = (c, wl)
    /\ outbox wl = (outbox w ++ l)%list
    /\ forall e, e ∈ l -> leave_event (userId socket) (event e).
Proof.
  assert (Hnoop : handleLeaveRoom socket w = (Normal tt, w) ->
            exists c wl l, handleLeaveRoom socket w = (c, wl)
              /\ outbox wl = (outbox w ++ l)%list
              /\ forall e, e ∈ l -> leave_event (userId socket) (event e)).
  { intros E. exists (Normal tt), w, []. rewrite app_nil_r.
    split; [done|]. split; [done|]. by intros e ?%elem_of_nil. }
  destruct (socketToRoom w !! sock_id socket) as [rid|] eqn:Hs.
  2:{ apply Hnoop. unfold handleLeaveRoom. mred. by rewrite Hs. }
  destruct (decide (rid = "")) as [->|Hne].
  { apply Hnoop. unfold handleLeaveRoom. mred. by rewrite Hs. }
  destruct (rooms w !! rid) as [r|] eqn:Hr.
  2:{ apply Hnoop. unfold handleLeaveRoom. mred. rewrite Hs.
      destruct (decide (rid = "")); [done|]. by rewrite Hr. }
  destruct (roomHeap w !! r) as [rs|] eqn:Hh.
  { destruct (after_leave_outbox w socket rid r rs) as (l & Ho & Hl).
    exists (Normal tt), (after_leave w socket rid r rs), l.
    split; [by apply leave_resident_at|done]. }
  unfold handleLeaveRoom, modRoom, socket_to_emit, emit, socket_leave, readRoom.
  mred. rewrite Hs. destruct (decide (rid = "")); [done|]. rewrite Hr.
  destruct (decide (length (userSocketsInRoom w socket rid) = 0%nat)) as [Hz|Hz]; wsimpl;
    rewrite ?lookup_alter_eq, Hh; cbn [fmap option_fmap option_map].
  - eexists _, _, [_]. split; [reflexivity|]. wsimpl. split; [done|].
    by intros e ->%list_elem_of_singleton.
  - eexists _, _, []. split; [reflexivity|]. wsimpl. rewrite app_nil_r. split; [done|].
    by intros e ?%elem_of_nil.
Qed.

Lemma userSocketsInRoom_spec (w : World) (socket : AuthenticatedSocket) (roomId sid : string) :
  sid ∈ userSocketsInRoom w socket roomId
  <-> sid ∈ default ∅ (userSockets w !! userId socket)
      /\ socketToRoom w !! sid = Some roomId /\ sid ≠ sock_id socket.
Proof.
  unfold userSocketsInRoom.
  destruct (userSockets w !! userId socket) as [sockets|]; simpl.
  - rewrite list_elem_of_filter, elem_of_elements. tauto.
  - split; [by intros ?%elem_of_nil | intros (?%not_elem_of_empty & _); done].
Qed.

Lemma has_other_socket_spec (w : World) (socket : AuthenticatedSocket) (roomId : string) :
  has_other_socket w socket roomId
  <-> length (userSocketsInRoom w socket roomId) ≠ 0%nat.
Proof.
  unfold has_other_socket. split.
  - intros (sid & Hsid). apply userSocketsInRoom_spec in Hsid.
    destruct (userSocketsInRoom w socket roomId); [by apply elem_of_nil in Hsid | done].
  - destruct (userSocketsInRoom w socket roomId) as [|sid l] eqn:E; [done|].
    intros _. exists sid. apply userSocketsInRoom_spec. rewrite E. left.
Qed.

(** What a leave of [socket] from the resident room [r] (content [rs]) of
    document [d] must have made of the state [w]: [w'] is the state after,
    [em] what was emitted. *)
Definition leave_postcondition (w : World) (socket : AuthenticatedSocket) (d : string)
    (r : loc) (rs : RoomState) (w' : World) (em : list Emission) : Prop :=
  let rid := roomIdOf d in
  let uid := userId socket in
  (has_other_socket w socket rid ->
     (exists rs', roomHeap w' !! r = Some rs' /\ users rs' = users rs)
     /\ (forall e, e ∈ em -> event e ≠ USER_LEFT uid)
     /\ (is_Some (users rs !! uid) -> rooms w' !! rid = Some r))
  /\ (¬ has_other_socket w socket rid ->
     (exists rs', roomHeap w' !! r = Some rs' /\ users rs' = delete uid (users rs))
     /\ user_left w socket rid ∈ em
     /\ (delete uid (users rs) ≠ ∅ -> rooms w' !! rid = Some r)
     /\ (delete uid (users rs) = ∅ ->
          rooms w' !! rid = None
          /\ documents w' !! documentId rs = None
          /\ timers w' = cancel (saveTimeout rs) (timers w)
          /\ (exists w2, rooms w2 !! rid = Some r
                /\ documents w2 = documents w
                /\ db w2 = db w
                /\ w' = teardown (save_result w2 r) rid (with_users (delete uid) rs))
          /\ forall yd row,
               docHeap w !! document rs = Some yd ->
               tbl_document (db w) !! documentId rs = Some row ->
               db w' = saved_db (db w) (documentId rs) (Y_encodeStateAsUpdate yd)
                         (clock w) (lastSaveTime rs) row
               /\ exists to,
                    em = [user_left w socket rid;
                          {| recipients := to;
                             event := DOCUMENT_SAVED (documentId rs) (clock w) |}])).

Lemma map_size_0 {A} (m : gmap string A) : size m = 0%nat <-> m = ∅.
Proof. apply map_size_empty_iff. Qed.

Lemma leave_core
    (w : World) (socket : AuthenticatedSocket) (d : string) (r : loc) (rs : RoomState)
    (us : gmap string (gset string)) :
  resident w socket d r rs ->
  (forall sid, sid ≠ sock_id socket ->
     sid ∈ default ∅ (us !! userId socket)
     <-> sid ∈ default ∅ (userSockets w !! userId socket)) ->
  let w0 := with_userSockets (fun _ => us) w in
  leave_postcondition w socket d r rs
    (exec (handleLeaveRoom socket) w0) (emitted (handleLeaveRoom socket) w0).
Proof.
  intros Hres Hus w0.
  assert (Hres0 : resident w0 socket d r rs) by exact Hres.
  assert (Hother : has_other_socket w0 socket (roomIdOf d)
                   <-> has_other_socket w socket (roomIdOf d)).
  { unfold has_other_socket, w0. wsimpl.
    split; intros (sid & H1 & H2 & H3); exists sid; (split; [by apply Hus|done]). }
  unfold emitted, exec. rewrite (leave_resident w0 socket d r rs Hres0).
  destruct Hres as (Hs & Hr & Hh).
  unfold leave_postcondition, after_leave, leave_membership, roster_after_leave.
  cbn [snd]. rewrite <- Hother, !has_other_socket_spec.
  destruct (decide (length (userSocketsInRoom w0 socket (roomIdOf d)) = 0%nat))
    as [Hlast|Hkept].
  - split; [done|]. intros _. cbn [users with_users].
    set (w2 := with_socketToRoom _ _).
    assert (Hh2 : roomHeap w2 !! r = Some (with_users (delete (userId socket)) rs)).
    { subst w2 w0. wsimpl. by rewrite lookup_alter_eq, Hh. }
    destruct (save_result_room w2 r _ Hh2) as (rs3 & Hh3 & _ & Hu3 & _).
    destruct (decide (size (delete (userId socket) (users rs)) = 0%nat)) as [He|Hne].
    + apply map_size_0 in He.
      split; [by exists rs3|].
      destruct (save_result_frame w2 r) as (Fr & _ & _ & Fd & _ & _ & Ft & _).
      assert (Hout : exists l, outbox (save_result w2 r)
                = (outbox w ++ user_left w socket (roomIdOf d) :: l)%list
              /\ forall yd row, docHeap w !! document rs = Some yd ->
                   tbl_document (db w) !! documentId rs = Some row ->
                   db (save_result w2 r)
                   = saved_db (db w) (documentId rs) (Y_encodeStateAsUpdate yd)
                       (clock w) (lastSaveTime rs) row
                   /\ exists to, l = [{| recipients := to;
                                         event := DOCUMENT_SAVED (documentId rs) (clock w) |}]).
      { unfold save_result. rewrite Hh2. cbn [document documentId with_users].
        change (docHeap w2) with (docHeap w). change (db w2) with (db w).
        destruct (docHeap w !! document rs) as [yd|].
        2:{ exists []. split; [|done]. subst w2 w0. wsimpl.
            unfold user_left, in_room. by wsimpl. }
        destruct (tbl_document (db w) !! documentId rs) as [row|].
        2:{ exists []. split; [|done]. subst w2 w0. wsimpl.
            unfold user_left, in_room. by wsimpl. }
        eexists [_]. split.
        { unfold after_save. subst w2 w0. wsimpl. rewrite <- app_assoc.
          unfold user_left, in_room. wsimpl. reflexivity. }
        intros yd' row' [= <-] [= <-]. split; [reflexivity|]. eauto. }
      destruct Hout as (l & Hout & Hdb).
      split; [|split; [done|]].
      { unfold teardown. wsimpl. rewrite Hout, drop_app_length. left. }
      intros _. unfold teardown. wsimpl. rewrite Ft.
      split; [by rewrite lookup_delete_eq|].
      split; [by rewrite lookup_delete_eq|].
      split; [done|].
      split.
      { exists w2. split; [by subst w2 w0; wsimpl|]. done. }
      intros yd row Hyd Hrow. destruct (Hdb yd row Hyd Hrow) as (E1 & to & ->).
      split; [done|]. exists to. by rewrite Hout, drop_app_length.
    + split; [by eexists|].
      split.
      { subst w2 w0. wsimpl. rewrite drop_app_length.
        unfold user_left, in_room. wsimpl. left. }
      split; [|by intros ?%map_size_0]. intros _. by subst w2 w0.
  - split; [|done]. intros _.
    set (w2 := with_socketToRoom _ _).
    assert (Hh2 : roomHeap w2 !! r = Some rs) by (by subst w2 w0).
    destruct (save_result_room w2 r _ Hh2) as (rs3 & Hh3 & _ & Hu3 & _).
    assert (Hsave : forall e, e ∈ drop (length (outbox w)) (outbox (save_result w2 r)) ->
                      event e ≠ USER_LEFT (userId socket)).
    { unfold save_result. rewrite Hh2.
      assert (Hnil : forall e : Emission, e ∈ drop (length (outbox w)) (outbox w2) ->
                       event e ≠ USER_LEFT (userId socket)).
      { subst w2 w0. wsimpl. rewrite drop_all. by intros e ?%elem_of_nil. }
      destruct (docHeap w2 !! document rs) as [yd|]; [|done].
      destruct (tbl_document (db w2) !! documentId rs) as [row|]; [|done].
      unfold after_save. subst w2 w0. wsimpl. rewrite drop_app_length.
      intros e ->%list_elem_of_singleton. done. }
    destruct (decide (size (users rs) = 0%nat)) as [He|Hne].
    + split; [by exists rs3|]. split; [exact Hsave|].
      intros [ru Hru]. apply map_size_0 in He. by rewrite He in Hru.
    + split; [by exists rs|]. split.
      { subst w2 w0. wsimpl. rewrite drop_all. by intros e ?%elem_of_nil. }
      intros _. by subst w2 w0.
Qed.

Lemma with_userSockets_id (w : World) : with_userSockets (fun _ => userSockets w) w = w.
Proof. by destruct w. Qed.

Lemma untrack_result (w : World) (uid sid : string) :
  exists us,
    untrackUserSocket uid sid w = (Normal tt, with_userSockets (fun _ => us) w)
    /\ forall sid', sid' ≠ sid ->
         sid' ∈ default ∅ (us !! uid) <-> sid' ∈ default ∅ (userSockets w !! uid).
Proof.
  unfold untrackUserSocket. mred.
  destruct (userSockets w !! uid) as [sockets|] eqn:E.
  - destruct (decide (size (sockets ∖ {[sid]}) = 0%nat)) as [He|Hne].
    + exists (delete uid (userSockets w)). split; [done|].
      intros sid' Hne. rewrite lookup_delete_eq. simpl.
      apply size_empty_inv in He. set_solver.
    + exists (<[uid := sockets ∖ {[sid]}]> (userSockets w)). split; [done|].
      intros sid' Hne'. rewrite lookup_insert_eq. simpl.
      rewrite elem_of_difference, elem_of_singleton. tauto.
  - exists (userSockets w). split; [by rewrite with_userSockets_id|]. by rewrite E.
Qed.

(** C2: a connection leaves its resident room, by an explicit leave or by a
    disconnect.  (1) When its user has another tracked socket in the room,
    the roster is untouched, no USER_LEFT is emitted, and the room stays
    registered.  (2) When it was the last one, the roster loses the entry of
    the user and USER_LEFT goes to the rest of the room.  (3) When that
    leaves the roster empty, the room is gone from the registry and its
    document from the document store, the pending save timer is cleared,
    and the final state is the clean-up of the state that ONE [saveDocument]
    left when run while the room was still registered; when the document row
    exists that save wrote the encoded state, one version increment and one
    operation record, and DOCUMENT_SAVED was emitted once. *)
Theorem leave_room_outcome
    (w : World) (socket : AuthenticatedSocket) (d : string) (r : loc) (rs : RoomState)
    (leave : M unit) :
  leave = handleLeaveRoom socket \/ leave = handleDisconnect socket ->
  resident w socket d r rs ->
  let rid := roomIdOf d in
  let uid := userId socket in
  let w' := exec leave w in
  let em := emitted leave w in
  (has_other_socket w socket rid ->
     (exists rs', roomHeap w' !! r = Some rs' /\ users rs' = users rs)
     /\ (forall e, e ∈ em -> event e ≠ USER_LEFT uid)
     /\ (is_Some (users rs !! uid) -> rooms w' !! rid = Some r))
  /\ (¬ has_other_socket w socket rid ->
     (exists rs', roomHeap w' !! r = Some rs' /\ users rs' = delete uid (users rs))
     /\ user_left w socket rid ∈ em
     /\ (delete uid (users rs) ≠ ∅ -> rooms w' !! rid = Some r)
     /\ (delete uid (users rs) = ∅ ->
          rooms w' !! rid = None
          /\ documents w' !! documentId rs = None
          /\ timers w' = cancel (saveTimeout rs) (timers w)
          /\ (exists w2, rooms w2 !! rid = Some r
                /\ documents w2 = documents w
                /\ db w2 = db w
                /\ w' = teardown (save_result w2 r) rid (with_users (delete uid) rs))
          /\ forall yd row,
               docHeap w !! document rs = Some yd ->
               tbl_document (db w) !! documentId rs = Some row ->
               db w' = saved_db (db w) (documentId rs) (Y_encodeStateAsUpdate yd)
                         (clock w) (lastSaveTime rs) row
               /\ exists to,
                    em = [user_left w socket rid;
                          {| recipients := to;
                             event := DOCUMENT_SAVED (documentId rs) (clock w) |}])).
Proof.
  intros Hleave Hres rid uid w' em.
  change (leave_postcondition w socket d r rs w' em).
  subst w' em. destruct Hleave as [-> | ->].
  - rewrite <- (with_userSockets_id w) at 2 3.
    by apply leave_core.
  - destruct (untrack_result w (userId socket) (sock_id socket)) as (us & E & Hus).
    assert (E1 : exec (handleDisconnect socket) w
                 = exec (handleLeaveRoom socket) (with_userSockets (fun _ => us) w)).
    { unfold handleDisconnect, exec. cbv [mbind M_bind bind]. by rewrite E. }
    assert (E2 : emitted (handleDisconnect socket) w
                 = emitted (handleLeaveRoom socket) (with_userSockets (fun _ => us) w)).
    { unfold emitted. by rewrite E1. }
    rewrite E1, E2. by apply leave_core.
Qed.

(** *** The invariant of the server

    [server_wf] holds of the empty server and is kept by every input. *)

Lemma timers_wf_mono (w w' : World) :
  (nextHandle w <= nextHandle w')%nat ->
  rooms w' = rooms w ->
  (forall r rs, roomHeap w !! r = Some rs ->
     exists rs', roomHeap w' !! r = Some rs'
       /\ documentId rs' = documentId rs /\ saveTimeout rs' = saveTimeout rs) ->
  (forall h tm, timers w' !! h = Some tm -> timers w !! h = Some tm) ->
  timers_wf w -> timers_wf w'.
Proof.
  intros Hn Hr Hh Ht Hwf h tm Htm.
  destruct (Hwf h tm (Ht h tm Htm)) as (Hlt & rs & Hreg & Hrs & Hto).
  split; [lia|].
  destruct (Hh _ _ Hrs) as (rs' & Hrs' & Hid & Hto').
  exists rs'. rewrite Hr, Hid, Hto'. done.
Qed.

Lemma cancel_lookup_Some (o : option handle) (t : gmap handle Timer) (h : handle) (tm : Timer) :
  cancel o t !! h = Some tm -> t !! h = Some tm /\ o ≠ Some h.
Proof.
  unfold cancel. destruct o as [h0|]; [|by intros ?].
  intros [Hne Htm]%lookup_delete_Some. split; [done|]. congruence.
Qed.

(** Rooms as before, room objects with the document and the save timer
    they had, no new timers. *)
Lemma server_wf_same_rooms (w w' : World) :
  rooms w' = rooms w ->
  (forall r rs, roomHeap w !! r = Some rs ->
     exists rs', roomHeap w' !! r = Some rs'
       /\ documentId rs' = documentId rs /\ saveTimeout rs' = saveTimeout rs) ->
  (forall h tm, timers w' !! h = Some tm -> timers w !! h = Some tm) ->
  (nextHandle w <= nextHandle w')%nat ->
  server_wf w -> server_wf w'.
Proof.
  intros Hr Hh Ht Hn (Hrooms & Htimers). split.
  - intros rid r Hrid. rewrite Hr in Hrid.
    destruct (Hrooms rid r Hrid) as (rs & Hrs & ->).
    destruct (Hh r rs Hrs) as (rs' & Hrs' & Hid & _). exists rs'. by rewrite Hid.
  - by apply (timers_wf_mono w).
Qed.

(** Only the rosters of room objects differ (and what [server_wf] does not
    look at). *)
Lemma server_wf_roster (w w' : World) (f : gmap string RoomUser -> gmap string RoomUser)
    (r : loc) :
  rooms w' = rooms w ->
  roomHeap w' = roomHeap w \/ roomHeap w' = alter (with_users f) r (roomHeap w) ->
  timers w' = timers w ->
  nextHandle w' = nextHandle w ->
  server_wf w -> server_wf w'.
Proof.
  intros Hr Hh Ht Hn. apply server_wf_same_rooms; [done| |by rewrite Ht|by rewrite Hn].
  intros r0 rs0 Hrs0. destruct Hh as [-> | ->]; [by exists rs0|].
  destruct (decide (r0 = r)) as [->|Hne].
  - rewrite lookup_alter_eq, Hrs0. by eexists.
  - rewrite lookup_alter_ne by done. by exists rs0.
Qed.

(** One room leaves the registry, and its save timer the timer table. *)
Lemma server_wf_teardown (w : World) (rid : string) (rs : RoomState) (r : loc) :
  rooms w !! rid = Some r ->
  roomHeap w !! r = Some rs ->
  server_wf w -> server_wf (teardown w rid rs).
Proof.
  intros Hr Hrs (Hrooms & Htimers). unfold teardown. split.
  - intros rid' r'. wsimpl. intros [Hne Hrid']%lookup_delete_Some. by apply Hrooms.
  - intros h tm. wsimpl. intros [Htm Hnot]%cancel_lookup_Some.
    destruct (Htimers h tm Htm) as (Hlt & rs' & Hreg & Hrs' & Hto).
    split; [done|]. exists rs'. split; [|done].
    rewrite lookup_delete_ne; [done|]. intros E. rewrite <- E, Hr in Hreg.
    injection Hreg as E'. rewrite <- E', Hrs in Hrs'. injection Hrs' as E''.
    apply Hnot. by rewrite E''.
Qed.

(** A new room object is registered under the id of its document. *)
Lemma server_wf_new_room (w : World) (d : string) (rs : RoomState) :
  rooms w !! roomIdOf d = None ->
  documentId rs = d ->
  server_wf w ->
  server_wf (with_roomHeap <[fresh (dom (roomHeap w)) := rs]>
               (with_rooms <[roomIdOf d := fresh (dom (roomHeap w))]> w)).
Proof.
  intros Hnone Hid (Hrooms & Htimers).
  assert (Hfresh : roomHeap w !! fresh (dom (roomHeap w)) = None).
  { apply not_elem_of_dom, is_fresh. }
  split.
  - intros rid r. wsimpl. intros Hrid.
    destruct (decide (rid = roomIdOf d)) as [->|Hne].
    + rewrite lookup_insert_eq in Hrid. injection Hrid as <-.
      exists rs. by rewrite lookup_insert_eq, Hid.
    + rewrite lookup_insert_ne in Hrid by done.
      destruct (Hrooms rid r Hrid) as (rs' & Hrs' & ->). exists rs'. split; [|done].
      rewrite lookup_insert_ne; [done|]. intros <-. by rewrite Hfresh in Hrs'.
  - intros h tm. wsimpl. intros Htm.
    destruct (Htimers h tm Htm) as (Hlt & rs' & Hreg & Hrs' & Hto).
    split; [done|]. exists rs'.
    rewrite !lookup_insert_ne; [done| |].
    + intros E. by rewrite <- E, Hfresh in Hrs'.
    + intros E. by rewrite <- E, Hnone in Hreg.
Qed.

Lemma server_wf_save (w : World) (r : loc) : server_wf w -> server_wf (save_result w r).
Proof.
  destruct (save_result_frame w r) as (Fr & _ & _ & _ & _ & _ & Ft & Fn & _).
  apply server_wf_same_rooms; [done| |by rewrite Ft|by rewrite Fn].
  intros r0 rs0 Hrs0.
  destruct (save_result_roomHeap w r r0) as [E|[-> E]]; rewrite E, Hrs0; by eexists.
Qed.

Lemma server_wf_fire (w : World) (h : handle) : server_wf w -> server_wf (fire_result w h).
Proof.
  intros Hwf. unfold fire_result.
  destruct (timers w !! h) as [tm|]; [|done].
  destruct (decide (deadline tm <= clock w)); [|done].
  apply server_wf_save.
  apply (server_wf_same_rooms w); try done.
  - intros r rs Hrs. by exists rs.
  - intros h' tm'. wsimpl. by intros [_ ?]%lookup_delete_Some.
Qed.

Lemma server_wf_leave (w : World) (socket : AuthenticatedSocket) :
  server_wf w ->
  exists wl, handleLeaveRoom socket w = (Normal tt, wl) /\ server_wf wl.
Proof.
  intros Hwf.
  assert (Hnoop : handleLeaveRoom socket w = (Normal tt, w) ->
            exists wl, handleLeaveRoom socket w = (Normal tt, wl) /\ server_wf wl)
    by (intros E; by exists w).
  destruct (socketToRoom w !! sock_id socket) as [rid|] eqn:Hs.
  2:{ apply Hnoop. unfold handleLeaveRoom. mred. by rewrite Hs. }
  destruct (decide (rid = "")) as [->|Hne].
  { apply Hnoop. unfold handleLeaveRoom. mred. by rewrite Hs. }
  destruct (rooms w !! rid) as [r|] eqn:Hr.
  2:{ apply Hnoop. unfold handleLeaveRoom. mred. rewrite Hs.
      destruct (decide (rid = "")); [done|]. by rewrite Hr. }
  destruct (proj1 Hwf rid r Hr) as (rs & Hrs & _).
  exists (after_leave w socket rid r rs). split; [by apply leave_resident_at|].
  set (w2 := leave_membership w socket rid r).
  assert (Hwf2 : server_wf w2).
  { apply (server_wf_same_rooms w); try done.
    - by subst w2; unfold leave_membership; destruct (decide _).
    - intros r0 rs0 Hrs0. subst w2. unfold leave_membership.
      destruct (decide _); wsimpl; [|by exists rs0].
      destruct (decide (r0 = r)) as [->|Hne0].
      + rewrite lookup_alter_eq, Hrs0. by eexists.
      + rewrite lookup_alter_ne by done. by exists rs0.
    - by subst w2; unfold leave_membership; destruct (decide _).
    - by subst w2; unfold leave_membership; destruct (decide _). }
  unfold after_leave. fold w2.
  destruct (decide _) as [Hz|Hz]; [|done].
  assert (Hrs2 : roomHeap w2 !! r = Some (roster_after_leave w socket rid rs)).
  { subst w2. unfold leave_membership, roster_after_leave.
    destruct (decide _); wsimpl; [|done]. by rewrite lookup_alter_eq, Hrs. }
  destruct (save_result_room w2 r _ Hrs2) as (rs' & Hrs' & Hid & _ & _ & Hto).
  destruct (save_result_frame w2 r) as (Fr & _).
  assert (E : teardown (save_result w2 r) rid (roster_after_leave w socket rid rs)
              = teardown (save_result w2 r) rid rs').
  { unfold teardown. by rewrite Hid, Hto. }
  rewrite E. apply (server_wf_teardown _ rid rs' r); [|done|by apply server_wf_save].
  rewrite Fr. by subst w2; unfold leave_membership; destruct (decide _).
Qed.

Lemma checkDocumentAccess_result (w : World) (uid d : string) :
  checkDocumentAccess uid d w = (Normal (access_of (db w) uid d), w).
Proof.
  unfold checkDocumentAccess, access_of, prisma_document_findUnique,
    prisma_collaborator_findUnique.
  mred.
  destruct (tbl_document (db w) !! d) as [row|]; [|done].
  destruct (decide (doc_ownerId row = uid)); [done|].
  destruct (tbl_collaborator (db w) !! (uid, d)); [done|].
  by destruct (doc_isPublic row).
Qed.

Lemma access_granted_row (dbs : Db) (uid d : string) (role : Role) :
  access_of dbs uid d = (true, Some role) -> is_Some (tbl_document dbs !! d).
Proof. unfold access_of. by destruct (tbl_document dbs !! d). Qed.

Lemma handleJoinRoom_steps (socket : AuthenticatedSocket) (payload : JoinRoomPayload) :
  handleJoinRoom socket payload
  = try_catch
      (access ← checkDocumentAccess (userId socket) (jr_documentId payload);
       match access with
       | (true, Some role) =>
           handleLeaveRoom socket;; join_rest socket (jr_documentId payload) role
       | _ => socket_emit socket (ERROR "Access denied to this document")
       end)
      (socket_emit socket (ERROR "Failed to join room")).
Proof. reflexivity. Qed.

Lemma new_CRDTDocument_result (w : World) (c : option Uint8Array) :
  new_CRDTDocument c w
  = match loaded c with
    | Some yd => (Normal (fresh (dom (docHeap w))),
                  with_docHeap <[fresh (dom (docHeap w)) := yd]> w)
    | None => (Thrown, w)
    end.
Proof.
  unfold new_CRDTDocument, loaded. mred.
  destruct c as [s|]; [|done].
  destruct (decide (0 < length s)%nat); [|done].
  by destruct (Y_applyUpdate Y_Doc s).
Qed.

(** Join of a room that is resident. *)
Lemma join_rest_existing
    (w : World) (socket : AuthenticatedSocket) (d : string) (role : Role)
    (r : loc) (rs : RoomState) (yd : YDoc) (row : DocumentRow) :
  rooms w !! roomIdOf d = Some r ->
  roomHeap w !! r = Some rs ->
  docHeap w !! document rs = Some yd ->
  tbl_document (db w) !! d = Some row ->
  join_rest socket d role w
  = (Normal tt,
     sent (user_joined w socket (roomIdOf d) role)
       (sent (room_joined socket d row yd
                (<[userId socket := roomUser_of socket role]> (users rs)) role)
          (with_roomHeap (alter (with_users <[userId socket := roomUser_of socket role]>) r)
             (entered w socket (roomIdOf d))))).
Proof.
  intros Hr Hh Hd Hrow.
  unfold join_rest, socket_join, prisma_document_findUnique, modRoom, readRoom,
    getStateArray, getState, readDoc, socket_emit, socket_to_emit, emit.
  mred. wsimpl. rewrite Hr. wsimpl. rewrite Hrow. cbv beta. wsimpl.
  rewrite lookup_alter_eq, Hh. cbn [fmap option_fmap option_map]. cbv beta. wsimpl.
  rewrite Hd.
  unfold user_joined, room_joined, entered, roomUser_of, in_room. wsimpl.
  by rewrite lookup_insert_eq.
Qed.

(** Join of a document that has no room: the room is built from the durable
    store. *)
Lemma join_rest_fresh
    (w : World) (socket : AuthenticatedSocket) (d : string) (role : Role)
    (row : DocumentRow) (yd : YDoc) :
  rooms w !! roomIdOf d = None ->
  documents w !! d = None ->
  tbl_document (db w) !! d = Some row ->
  loaded (doc_content row) = Some yd ->
  let l := fresh (dom (docHeap w)) in
  let r := fresh (dom (roomHeap w)) in
  join_rest socket d role w
  = (Normal tt,
     sent (user_joined w socket (roomIdOf d) role)
       (sent (room_joined socket d row yd
                {[ userId socket := roomUser_of socket role ]} role)
          (with_roomHeap <[r := fresh_room w socket d role l]>
             (with_rooms <[roomIdOf d := r]>
                (with_documents <[d := l]>
                   (with_docHeap <[l := yd]>
                      (entered w socket (roomIdOf d)))))))).
Proof.
  intros Hr Hdoc Hrow Hload l r.
  unfold join_rest, socket_join, prisma_document_findUnique, documentStore_getOrCreate,
    new_RoomState, modRoom, readRoom, getStateArray, getState, readDoc, socket_emit,
    socket_to_emit, emit.
  cbv [mbind M_bind bind gets modify mret M_ret ret]. wsimpl.
  mrw Hr. mrw Hrow. mrw Hdoc. rewrite new_CRDTDocument_result, Hload. wsimpl.
  mrw Hrow. rewrite lookup_alter_eq, lookup_insert_eq.
  cbn [fmap option_fmap option_map]. cbv beta. wsimpl. rewrite lookup_insert_eq.
  unfold user_joined, room_joined, entered, roomUser_of, fresh_room, in_room. wsimpl.
  rewrite lookup_insert_eq. cbn [default].
  f_equal. world_eq.
  rewrite alter_insert_eq. unfold with_users.
  cbn [documentId users document lastSaveTime saveTimeout].
  by rewrite insert_empty.
Qed.

(** Join of a document that has no room and whose stored content the
    engine rejects: the constructor throws, nothing is registered. *)
Lemma join_rest_load_failure
    (w : World) (socket : AuthenticatedSocket) (d : string) (role : Role)
    (row : DocumentRow) :
  rooms w !! roomIdOf d = None ->
  documents w !! d = None ->
  tbl_document (db w) !! d = Some row ->
  loaded (doc_content row) = None ->
  join_rest socket d role w = (Thrown, entered w socket (roomIdOf d)).
Proof.
  intros Hr Hdoc Hrow Hload.
  unfold join_rest, socket_join, prisma_document_findUnique, documentStore_getOrCreate.
  cbv [mbind M_bind bind gets modify mret M_ret ret]. wsimpl.
  mrw Hr. mrw Hrow. mrw Hdoc. rewrite new_CRDTDocument_result, Hload. reflexivity.
Qed.

(** The other ways [join_rest] can go.  None of them emits ROOM_JOINED. *)
Lemma join_rest_no_row (w : World) (socket : AuthenticatedSocket) (d : string) (role : Role) :
  tbl_document (db w) !! d = None ->
  exists c w', join_rest socket d role w = (c, w')
    /\ (outbox w' = outbox w
        \/ outbox w' = (outbox w ++ [error_to socket "Document not found"])%list)
    /\ (server_wf w -> server_wf w').
Proof.
  intros Hrow.
  unfold join_rest, socket_join, prisma_document_findUnique, modRoom, socket_emit, emit.
  cbv [mbind M_bind bind gets modify mret M_ret ret throw]. wsimpl.
  destruct (rooms w !! roomIdOf d) as [r|]; cbv beta; wsimpl; rewrite Hrow.
  - eexists _, _. split; [reflexivity|]. split; [by left|].
    eapply server_wf_roster; try reflexivity. right. reflexivity.
  - eexists _, _. split; [reflexivity|]. split; [by right|].
    eapply (server_wf_roster _ _ id 0%nat); try reflexivity. by left.
Qed.

Lemma join_rest_dangling_room
    (w : World) (socket : AuthenticatedSocket) (d : string) (role : Role) (r : loc) :
  rooms w !! roomIdOf d = Some r ->
  roomHeap w !! r = None ->
  exists c w', join_rest socket d role w = (c, w') /\ outbox w' = outbox w
    /\ (server_wf w -> server_wf w').
Proof.
  intros Hr Hh.
  unfold join_rest, socket_join, prisma_document_findUnique, modRoom, readRoom.
  cbv [mbind M_bind bind gets modify mret M_ret ret throw]. wsimpl.
  mrw Hr. destruct (tbl_document (db w) !! d) as [row|]; cbv beta; wsimpl.
  - rewrite lookup_alter_eq, Hh. cbn [fmap option_fmap option_map].
    eexists _, _. split; [reflexivity|]. split; [done|].
    eapply server_wf_roster; try reflexivity. right. reflexivity.
  - eexists _, _. split; [reflexivity|]. split; [done|].
    eapply server_wf_roster; try reflexivity. right. reflexivity.
Qed.

Lemma join_rest_dangling_document
    (w : World) (socket : AuthenticatedSocket) (d : string) (role : Role)
    (r : loc) (rs : RoomState) :
  rooms w !! roomIdOf d = Some r ->
  roomHeap w !! r = Some rs ->
  docHeap w !! document rs = None ->
  exists c w', join_rest socket d role w = (c, w') /\ outbox w' = outbox w
    /\ (server_wf w -> server_wf w').
Proof.
  intros Hr Hh Hd.
  unfold join_rest, socket_join, prisma_document_findUnique, modRoom, readRoom,
    getStateArray, getState, readDoc.
  cbv [mbind M_bind bind gets modify mret M_ret ret throw]. wsimpl.
  mrw Hr. destruct (tbl_document (db w) !! d) as [row|]; cbv beta; wsimpl.
  - rewrite lookup_alter_eq, Hh. cbn [fmap option_fmap option_map]. cbv beta. wsimpl.
    rewrite Hd. eexists _, _. split; [reflexivity|]. split; [done|].
    eapply server_wf_roster; try reflexivity. right. reflexivity.
  - eexists _, _. split; [reflexivity|]. split; [done|].
    eapply server_wf_roster; try reflexivity. right. reflexivity.
Qed.

(** No room, but the document store still has an entry for the document:
    [getOrCreate] hands it out. *)
Lemma join_rest_store_entry
    (w : World) (socket : AuthenticatedSocket) (d : string) (role : Role)
    (row : DocumentRow) (l : loc) :
  rooms w !! roomIdOf d = None ->
  documents w !! d = Some l ->
  tbl_document (db w) !! d = Some row ->
  let r := fresh (dom (roomHeap w)) in
  match docHeap w !! l with
  | Some yd =>
      join_rest socket d role w
      = (Normal tt,
         sent (user_joined w socket (roomIdOf d) role)
           (sent (room_joined socket d row yd
                    {[ userId socket := roomUser_of socket role ]} role)
              (with_roomHeap <[r := fresh_room w socket d role l]>
                 (with_rooms <[roomIdOf d := r]> (entered w socket (roomIdOf d))))))
  | None =>
      exists c w', join_rest socket d role w = (c, w') /\ outbox w' = outbox w
        /\ (server_wf w -> server_wf w')
  end.
Proof.
  intros Hr Hdoc Hrow r.
  unfold join_rest, socket_join, prisma_document_findUnique, documentStore_getOrCreate,
    new_RoomState, modRoom, readRoom, getStateArray, getState, readDoc, socket_emit,
    socket_to_emit, emit.
  cbv [mbind M_bind bind gets modify mret M_ret ret throw]. wsimpl.
  mrw Hr. mrw Hrow. mrw Hdoc. mrw Hrow.
  rewrite lookup_alter_eq, lookup_insert_eq.
  cbn [fmap option_fmap option_map]. cbv beta. wsimpl.
  destruct (docHeap w !! l) as [yd|].
  - unfold user_joined, room_joined, entered, roomUser_of, fresh_room, in_room. wsimpl.
    rewrite lookup_insert_eq. cbn [default].
    f_equal. world_eq.
    rewrite alter_insert_eq. unfold with_users.
    cbn [documentId users document lastSaveTime saveTimeout].
    by rewrite insert_empty.
  - eexists _, _. split; [reflexivity|]. split; [done|]. intros Hwf.
    match goal with
    | |- server_wf ?w' =>
        replace w' with
          (with_roomHeap <[r := fresh_room w socket d role l]>
             (with_rooms <[roomIdOf d := r]> (entered w socket (roomIdOf d))))
    end.
    + apply (server_wf_new_room (entered w socket (roomIdOf d)) d);
        [exact Hr|reflexivity|].
      apply (server_wf_roster w _ id 0%nat);
        [reflexivity|by left|reflexivity|reflexivity|exact Hwf].
    + world_eq. rewrite alter_insert_eq. unfold with_users, fresh_room, roomUser_of.
      cbn [documentId users document lastSaveTime saveTimeout].
      by rewrite insert_empty.
Qed.

(** [join_rest] either emits no ROOM_JOINED, or it returns with the socket
    on the roster of the room of [d], mapped to it: a room that was there
    (its roster gets the entry) or a new one (the entry is its roster).
    [m] is what it emitted. *)
Lemma join_rest_cases (wl : World) (socket : AuthenticatedSocket) (d : string) (role : Role) :
  exists c w' m,
    join_rest socket d role wl = (c, w')
    /\ outbox w' = (outbox wl ++ m)%list
    /\ ((forall e, e ∈ m -> forall p, event e ≠ ROOM_JOINED p)
        \/ (c = Normal tt
            /\ exists r rs',
                 rooms w' !! roomIdOf d = Some r
                 /\ roomHeap w' !! r = Some rs'
                 /\ socketToRoom w' = <[sock_id socket := roomIdOf d]> (socketToRoom wl)
                 /\ userSockets w' = userSockets wl
                 /\ ((rooms wl !! roomIdOf d = Some r
                      /\ exists rs, roomHeap wl !! r = Some rs
                           /\ users rs' = <[userId socket := roomUser_of socket role]>
                                            (users rs))
                     \/ (rooms wl !! roomIdOf d = None
                         /\ users rs' = {[ userId socket := roomUser_of socket role ]})))).
Proof.
  destruct (tbl_document (db wl) !! d) as [row|] eqn:Hrow.
  2:{ destruct (join_rest_no_row wl socket d role Hrow) as (c & w' & E & [Ho|Ho] & _).
      - exists c, w', []. rewrite app_nil_r. split; [done|]. split; [done|].
        left. by intros e ?%elem_of_nil.
      - exists c, w', [error_to socket "Document not found"].
        split; [done|]. split; [done|]. left. by intros e ->%list_elem_of_singleton. }
  destruct (rooms wl !! roomIdOf d) as [r|] eqn:Hr.
  - destruct (roomHeap wl !! r) as [rs|] eqn:Hh.
    2:{ destruct (join_rest_dangling_room wl socket d role r Hr Hh)
          as (c & w' & E & Ho & _).
        exists c, w', []. rewrite app_nil_r. split; [done|]. split; [done|].
        left. by intros e ?%elem_of_nil. }
    destruct (docHeap wl !! document rs) as [yd|] eqn:Hd.
    2:{ destruct (join_rest_dangling_document wl socket d role r rs Hr Hh Hd)
          as (c & w' & E & Ho & _).
        exists c, w', []. rewrite app_nil_r. split; [done|]. split; [done|].
        left. by intros e ?%elem_of_nil. }
    eexists _, _, [_; _].
    split; [by apply (join_rest_existing wl socket d role r rs yd row)|].
    split; [wsimpl; by rewrite <- app_assoc|].
    right. split; [done|].
    exists r, (with_users <[userId socket := roomUser_of socket role]> rs).
    unfold entered. wsimpl. rewrite lookup_alter_eq, Hh.
    repeat split; try done. left. split; [done|]. by exists rs.
  - destruct (documents wl !! d) as [l|] eqn:Hdoc.
    + pose proof (join_rest_store_entry wl socket d role row l Hr Hdoc Hrow) as H.
      cbv zeta in H. destruct (docHeap wl !! l) as [yd|].
      * eexists _, _, [_; _]. split; [exact H|].
        split; [wsimpl; by rewrite <- app_assoc|].
        right. split; [done|].
        eexists _, _. unfold entered. wsimpl. rewrite !lookup_insert_eq.
        repeat split; try done. by right.
      * destruct H as (c & w' & E & Ho & _).
        exists c, w', []. rewrite app_nil_r. split; [done|]. split; [done|].
        left. by intros e ?%elem_of_nil.
    + destruct (loaded (doc_content row)) as [yd|] eqn:Hload.
      * eexists _, _, [_; _].
        split; [by apply (join_rest_fresh wl socket d role row yd)|].
        split; [wsimpl; by rewrite <- app_assoc|].
        right. split; [done|].
        eexists _, _. unfold entered. wsimpl. rewrite !lookup_insert_eq.
        repeat split; try done. by right.
      * eexists _, _, [].
        split; [by apply (join_rest_load_failure wl socket d role row)|].
        split; [unfold entered; wsimpl; by rewrite app_nil_r|].
        left. by intros e ?%elem_of_nil.
Qed.

(** A join that sent ROOM_JOINED: access was granted, the leave path
    returned (state [wl]), and the rest of the join put the socket on the
    roster of the room of [d]. *)
Lemma join_success_inv (w : World) (socket : AuthenticatedSocket) (d : string) :
  joined socket {| jr_documentId := d |} w ->
  exists role wl r rs',
    access_of (db w) (userId socket) d = (true, Some role)
    /\ handleLeaveRoom socket w = (Normal tt, wl)
    /\ let w' := exec (handleJoinRoom socket {| jr_documentId := d |}) w in
       rooms w' !! roomIdOf d = Some r
       /\ roomHeap w' !! r = Some rs'
       /\ socketToRoom w' = <[sock_id socket := roomIdOf d]> (socketToRoom wl)
       /\ userSockets w' = userSockets wl
       /\ ((rooms wl !! roomIdOf d = Some r
            /\ exists rs, roomHeap wl !! r = Some rs
                 /\ users rs' = <[userId socket := roomUser_of socket role]> (users rs))
           \/ (rooms wl !! roomIdOf d = None
               /\ users rs' = {[ userId socket := roomUser_of socket role ]})).
Proof.
  intros (p & Hp). revert Hp.
  unfold emitted, exec. rewrite handleJoinRoom_steps. cbn [jr_documentId].
  unfold try_catch. cbv [mbind M_bind bind].
  rewrite checkDocumentAccess_result.
  destruct (access_of (db w) (userId socket) d) as [[] [role|]] eqn:Hacc.
  2-4: unfold socket_emit, emit, modify; wsimpl; rewrite drop_app_length;
       by intros ?%list_elem_of_singleton.
  destruct (leave_emissions w socket) as (c1 & wl & l & El & Hol & Hl). rewrite El.
  assert (Hnot : forall e, e ∈ l -> forall q, event e ≠ ROOM_JOINED q).
  { intros e He q Hq. specialize (Hl e He). by rewrite Hq in Hl. }
  destruct c1 as [[]|].
  2:{ unfold socket_emit, emit, modify. wsimpl. rewrite Hol, <- app_assoc, drop_app_length.
      intros [He|He%list_elem_of_singleton]%elem_of_app; [|done].
      by destruct (Hnot _ He p). }
  destruct (join_rest_cases wl socket d role) as (c2 & w' & m & Ej & Hom & Hcases).
  rewrite Ej.
  destruct Hcases as [Hquiet|(-> & r & rs' & Hsucc)].
  - assert (Hno : forall e, e ∈ (l ++ m)%list -> forall q, event e ≠ ROOM_JOINED q).
    { intros e [He|He]%elem_of_app; eauto. }
    destruct c2 as [[]|].
    + cbn [snd]. rewrite Hom, Hol, <- app_assoc, drop_app_length.
      intros He. by destruct (Hno _ He p).
    + unfold socket_emit, emit, modify. wsimpl.
      rewrite Hom, Hol, <- !app_assoc, drop_app_length, app_assoc.
      intros [He|He%list_elem_of_singleton]%elem_of_app; [|done].
      by destruct (Hno _ He p).
  - intros _. exists role, wl, r, rs'. split; [done|]. split; [done|]. exact Hsucc.
Qed.

(** A leave that returns leaves the socket tracking alone, and the mapping
    of the other sockets. *)
Lemma leave_frame (w wl : World) (socket : AuthenticatedSocket) :
  handleLeaveRoom socket w = (Normal tt, wl) ->
  userSockets wl = userSockets w
  /\ forall sid, sid ≠ sock_id socket -> socketToRoom wl !! sid = socketToRoom w !! sid.
Proof.
  intros [->|(rid & r & rs & _ & _ & _ & Hh & ->)]%leave_normal_cases; [done|].
  destruct (after_leave_frame w socket rid r rs Hh) as (Fus & Fs & _).
  split; [done|]. intros sid Hne. by rewrite Fs, lookup_delete_ne.
Qed.

(** A leave of [sB] does not take away the room in which another socket
    [sA] of the same user is, nor any roster entry but that user's. *)
Lemma leave_keeps_room_of_other_socket
    (w wl : World) (sA sB : AuthenticatedSocket) (rid : string) (r : loc) (rs : RoomState) :
  handleLeaveRoom sB w = (Normal tt, wl) ->
  rooms w !! rid = Some r ->
  roomHeap w !! r = Some rs ->
  sock_id sA ≠ sock_id sB ->
  sock_id sA ∈ default ∅ (userSockets w !! userId sB) ->
  socketToRoom w !! sock_id sA = Some rid ->
  is_Some (users rs !! userId sB) ->
  rooms wl !! rid = Some r
  /\ exists rs', roomHeap wl !! r = Some rs'
       /\ (users rs' = users rs \/ users rs' = delete (userId sB) (users rs)).
Proof.
  intros [->|(ridB & rB & rsB & Hne & HsB & HrB & HhB & ->)]%leave_normal_cases
    Hr Hh Hsock Htracked HsA Hmember.
  { split; [done|]. exists rs. by split; [|left]. }
  destruct (after_leave_frame w sB ridB rB rsB HhB) as (_ & _ & _ & _ & Fro & Frs & Fh & _).
  assert (Husers : users (roster_after_leave w sB ridB rsB) = users rsB
                   \/ users (roster_after_leave w sB ridB rsB)
                      = delete (userId sB) (users rsB)).
  { unfold roster_after_leave. destruct (decide _); [by right|by left]. }
  split.
  - destruct (decide (rid = ridB)) as [->|Hrid]; [|by rewrite Fro].
    rewrite Hr in HrB. injection HrB as <-. rewrite Hh in HhB. injection HhB as <-.
    rewrite Frs; [done|].
    assert (Hother : has_other_socket w sB ridB) by (by exists (sock_id sA)).
    apply has_other_socket_spec in Hother.
    unfold roster_after_leave. destruct (decide _) as [|_]; [done|].
    intros He%map_size_0. rewrite He in Hmember. by destruct Hmember.
  - destruct (Fh r rs Hh) as (rs' & Hrs' & _ & _ & [Hu|[-> Hu]]).
    + exists rs'. by split; [|left].
    + exists rs'. split; [done|]. rewrite Hh in HhB. injection HhB as <-.
      rewrite Hu. exact Husers.
Qed.

(** The last member leaves a resident room whose document row exists: the
    state after, field by field. *)
Lemma last_leave_fields
    (w : World) (socket : AuthenticatedSocket) (d : string) (r : loc) (rs : RoomState)
    (yd : YDoc) (row : DocumentRow) :
  resident w socket d r rs ->
  ¬ has_other_socket w socket (roomIdOf d) ->
  delete (userId socket) (users rs) = ∅ ->
  docHeap w !! document rs = Some yd ->
  tbl_document (db w) !! documentId rs = Some row ->
  exists w1,
    handleLeaveRoom socket w = (Normal tt, w1)
    /\ rooms w1 = delete (roomIdOf d) (rooms w)
    /\ documents w1 = delete (documentId rs) (documents w)
    /\ docHeap w1 = docHeap w
    /\ dom (roomHeap w1) = dom (roomHeap w)
    /\ timers w1 = cancel (saveTimeout rs) (timers w)
    /\ nextHandle w1 = nextHandle w
    /\ clock w1 = clock w
    /\ userSockets w1 = userSockets w
    /\ socketToRoom w1 = delete (sock_id socket) (socketToRoom w)
    /\ adapter w1 = <[roomIdOf d := in_room w (roomIdOf d) ∖ {[ sock_id socket ]}]> (adapter w)
    /\ db w1 = saved_db (db w) (documentId rs) (Y_encodeStateAsUpdate yd) (clock w)
                 (lastSaveTime rs) row
    /\ exists to, outbox w1
         = (outbox w ++ [user_left w socket (roomIdOf d);
                         {| recipients := to;
                            event := DOCUMENT_SAVED (documentId rs) (clock w) |}])%list.
Proof.
  intros Hres Hlast Hempty Hyd Hrow.
  eexists. split; [by apply leave_resident|].
  destruct Hres as (Hs & Hr & Hh).
  rewrite has_other_socket_spec in Hlast.
  unfold after_leave, leave_membership, roster_after_leave.
  destruct (decide (length (userSocketsInRoom w socket (roomIdOf d)) = 0%nat)) as [_|?];
    [|done].
  cbn [users with_users]. rewrite Hempty.
  destruct (decide (size (∅ : gmap string RoomUser) = 0%nat)) as [_|Hne];
    [|by rewrite map_size_empty in Hne].
  set (w2 := with_socketToRoom _ _).
  assert (Hh2 : roomHeap w2 !! r = Some (with_users (delete (userId socket)) rs)).
  { subst w2. wsimpl. by rewrite lookup_alter_eq, Hh. }
  assert (Hsave : save_result w2 r
                  = after_save w2 r (with_users (delete (userId socket)) rs) yd row).
  { unfold save_result. rewrite Hh2. cbn [document documentId with_users].
    change (docHeap w2) with (docHeap w). change (db w2) with (db w).
    by rewrite Hyd, Hrow. }
  rewrite Hsave. unfold teardown, after_save, document_saved. subst w2. wsimpl.
  repeat split; try reflexivity.
  - by rewrite !dom_alter_L.
  - eexists. rewrite <- app_assoc. reflexivity.
Qed.

(** C9: the only member of a resident room joins the same document again
    (its user has no other socket there, nobody else is on the roster).
    The join first runs the leave path: the room is flushed (row content,
    one version increment, one operation record), its pending save timer
    is cleared; then the room is built anew from the durable store: a new
    room object, a new document object holding what the engine loads from
    the content just flushed, the joiner as the only roster entry, no save
    timer, [lastSaveTime] now.  The events are, in order, USER_LEFT,
    DOCUMENT_SAVED, ROOM_JOINED (with the reloaded state and the new
    version) and USER_JOINED. *)
Theorem same_room_rejoin_rebuilds_room
    (w : World) (socket : AuthenticatedSocket) (d : string) (r : loc) (rs : RoomState)
    (role : Role) (yd yd2 : YDoc) (row : DocumentRow) :
  resident w socket d r rs ->
  documentId rs = d ->
  access_of (db w) (userId socket) d = (true, Some role) ->
  ¬ has_other_socket w socket (roomIdOf d) ->
  delete (userId socket) (users rs) = ∅ ->
  docHeap w !! document rs = Some yd ->
  tbl_document (db w) !! d = Some row ->
  loaded (Some (Y_encodeStateAsUpdate yd)) = Some yd2 ->
  let join := handleJoinRoom socket {| jr_documentId := d |} in
  let w' := exec join w in
  let r' := fresh (dom (roomHeap w)) in
  let l' := fresh (dom (docHeap w)) in
  let flushed := saved_row (Y_encodeStateAsUpdate yd) (clock w) row in
  db w' = saved_db (db w) d (Y_encodeStateAsUpdate yd) (clock w) (lastSaveTime rs) row
  /\ tbl_document (db w') !! d = Some flushed
  /\ timers w' = cancel (saveTimeout rs) (timers w)
  /\ r' ≠ r
  /\ rooms w' !! roomIdOf d = Some r'
  /\ roomHeap w' !! r' = Some (fresh_room w socket d role l')
  /\ l' ≠ document rs
  /\ documents w' !! d = Some l'
  /\ docHeap w' !! l' = Some yd2
  /\ socketToRoom w' !! sock_id socket = Some (roomIdOf d)
  /\ event <$> emitted join w
     = [USER_LEFT (userId socket);
        DOCUMENT_SAVED d (clock w);
        ROOM_JOINED {| rj_documentId := d;
                       rj_document := (d, doc_title row, doc_version row + 1);
                       rj_state := uint8ArrayToArray (Y_encodeStateAsUpdate yd2);
                       rj_users := [roomUser_of socket role];
                       rj_role := role |};
        USER_JOINED (roomUser_of socket role)].
Proof.
  intros Hres Hid Hacc Hlast Hempty Hyd Hrow Hload join w' r' l' flushed.
  assert (Hrow' : tbl_document (db w) !! documentId rs = Some row) by by rewrite Hid.
  destruct (last_leave_fields w socket d r rs yd row Hres Hlast Hempty Hyd Hrow')
    as (w1 & Hleave & Fr & Fd & Fh & Fdom & Ft & Fn & Fc & Fus & Fs & Fa & Fdb & to & Fo).
  rewrite Hid in Fd, Fdb, Fo.
  assert (Hrow1 : tbl_document (db w1) !! d = Some flushed).
  { rewrite Fdb. unfold saved_db. cbn [tbl_document]. by rewrite lookup_alter_eq, Hrow. }
  assert (Hjoin : join w
    = join_rest socket d role w1).
  { subst join. rewrite handleJoinRoom_steps. cbn [jr_documentId].
    unfold try_catch. cbv [mbind M_bind bind].
    rewrite checkDocumentAccess_result, Hacc, Hleave.
    rewrite (join_rest_fresh w1 socket d role flushed yd2); try done.
    - rewrite Fr. apply lookup_delete_eq.
    - rewrite Fd. apply lookup_delete_eq. }
  rewrite (join_rest_fresh w1 socket d role flushed yd2) in Hjoin; try done;
    [|rewrite Fr; apply lookup_delete_eq|rewrite Fd; apply lookup_delete_eq].
  rewrite Fh, Fdom in Hjoin. fold r' l' in Hjoin.
  destruct Hres as (Hs & Hr & Hh).
  subst w'. unfold emitted, exec. rewrite Hjoin. wsimpl.
  unfold entered. wsimpl.
  split; [exact Fdb|]. split; [exact Hrow1|]. split; [exact Ft|].
  split.
  { intros E. pose proof (is_fresh (dom (roomHeap w))) as Hf. fold r' in Hf.
    rewrite E in Hf. apply Hf, elem_of_dom. eauto. }
  split; [by rewrite lookup_insert_eq|].
  split.
  { rewrite lookup_insert_eq. unfold fresh_room. by rewrite Fc. }
  split.
  { intros E. pose proof (is_fresh (dom (docHeap w))) as Hf. fold l' in Hf.
    rewrite E in Hf. apply Hf, elem_of_dom. eauto. }
  split; [by rewrite lookup_insert_eq|].
  split; [by rewrite lookup_insert_eq|].
  split; [by rewrite lookup_insert_eq|].
  rewrite Fo, <- !app_assoc, drop_app_length. cbn [fmap list_fmap app event user_left].
  unfold room_joined, user_joined. cbn [event]. rewrite map_to_list_singleton.
  reflexivity.
Qed.

(** C3, as the code has it: a join that is denied access answers the caller
    with the error and changes nothing else.  A join that fails because the
    engine rejects the stored content of a document that has no room has by
    then run the leave path ([w1] is the state that left); the room registry,
    the room objects with their rosters, the document store and its
    documents, the durable store, the timers and the socket tracking are
    those of [w1], and the caller gets "Failed to join room".  For a
    connection that was in no room, [w1] is the state before the call. *)
Theorem failed_join_state
    (w : World) (socket : AuthenticatedSocket) (d : string) :
  let join := handleJoinRoom socket {| jr_documentId := d |} in
  let w' := exec join w in
  ((forall role, access_of (db w) (userId socket) d ≠ (true, Some role)) ->
     join w = (Normal tt, sent (error_to socket "Access denied to this document") w))
  /\ (forall (role : Role) (w1 : World) (row : DocumentRow),
        access_of (db w) (userId socket) d = (true, Some role) ->
        handleLeaveRoom socket w = (Normal tt, w1) ->
        rooms w1 !! roomIdOf d = None ->
        documents w1 !! d = None ->
        tbl_document (db w1) !! d = Some row ->
        loaded (doc_content row) = None ->
        rooms w' = rooms w1
        /\ roomHeap w' = roomHeap w1
        /\ documents w' = documents w1
        /\ docHeap w' = docHeap w1
        /\ db w' = db w1
        /\ timers w' = timers w1
        /\ userSockets w' = userSockets w1
        /\ outbox w' = (outbox w1 ++ [error_to socket "Failed to join room"])%list)
  /\ (socketToRoom w !! sock_id socket = None ->
        handleLeaveRoom socket w = (Normal tt, w)).
Proof.
  intros join w'. subst w' join. rewrite handleJoinRoom_steps. cbn [jr_documentId].
  unfold exec, try_catch. cbv [mbind M_bind bind].
  rewrite checkDocumentAccess_result.
  split; [|split].
  - intros Hden. destruct (access_of (db w) (userId socket) d) as [[] [role|]]; try done.
    by destruct (Hden role).
  - intros role w1 row Hacc Hleave Hr Hdoc Hrow Hload.
    rewrite Hacc, Hleave.
    rewrite (join_rest_load_failure w1 socket d role row Hr Hdoc Hrow Hload).
    unfold socket_emit, emit, modify, entered. wsimpl. done.
  - intros Hnone. unfold handleLeaveRoom. mred. by rewrite Hnone.
Qed.

(** The snapshot test of [saveDocument]: a save that reaches the durable
    store writes a snapshot record exactly when more than
    [SNAPSHOT_INTERVAL_MS] has passed since [lastSaveTime] of the room, and
    it sets [lastSaveTime] to now whether or not it wrote a snapshot.  The
    room has no time of its last snapshot, so the interval runs from the
    previous save: saves less than the interval apart never write one. *)
Lemma snapshot_measured_from_last_save
    (w : World) (r : loc) (rs : RoomState) (yd : YDoc) (row : DocumentRow) :
  roomHeap w !! r = Some rs ->
  docHeap w !! document rs = Some yd ->
  tbl_document (db w) !! documentId rs = Some row ->
  let w' := exec (saveDocument r) w in
  let snapshot := {| sn_documentId := documentId rs;
                     sn_data := Y_encodeStateAsUpdate yd;
                     sn_version := doc_version row + 1 |} in
  (clock w - lastSaveTime rs > SNAPSHOT_INTERVAL_MS ->
     tbl_snapshot (db w') = (tbl_snapshot (db w) ++ [snapshot])%list)
  /\ (clock w - lastSaveTime rs <= SNAPSHOT_INTERVAL_MS ->
     tbl_snapshot (db w') = tbl_snapshot (db w))
  /\ roomHeap w' !! r = Some (set_lastSaveTime (clock w) rs)
  /\ tbl_document (db w') !! documentId rs
     = Some (saved_row (Y_encodeStateAsUpdate yd) (clock w) row).
Proof.
  intros Hh Hd Hrow w' snapshot. subst w'. unfold exec.
  rewrite saveDocument_result. unfold save_result. rewrite Hh, Hd, Hrow.
  unfold after_save, saved_db. wsimpl.
  rewrite !lookup_alter_eq, Hh, Hrow. cbn [fmap option_fmap option_map].
  destruct (decide (clock w - lastSaveTime rs > SNAPSHOT_INTERVAL_MS)).
  - repeat split; try done; lia.
  - repeat split; try done; lia.
Qed.

(** *** The debounce *)

Lemma fireTimer_result (w : World) (h : handle) :
  fireTimer h w = (Normal tt, fire_result w h).
Proof.
  unfold fireTimer, fire_result. mred.
  destruct (timers w !! h) as [tm|]; [|done].
  destruct (decide (deadline tm <= clock w)); [|done].
  apply saveDocument_result.
Qed.



(** Timers of other rooms leave the row of [d] alone. *)
Lemma save_result_other_row (w : World) (r' : loc) (rs' : RoomState) (d : string) :
  roomHeap w !! r' = Some rs' ->
  documentId rs' ≠ d ->
  tbl_document (db (save_result w r')) !! d = tbl_document (db w) !! d.
Proof.
  intros Hrs Hne. unfold save_result. rewrite Hrs.
  destruct (docHeap w !! document rs') as [yd|]; [|done].
  destruct (tbl_document (db w) !! documentId rs') as [row|]; [|done].
  unfold after_save, saved_db. wsimpl. by rewrite lookup_alter_ne.
Qed.







(** The timer table after an accepted update of a registered room. *)
Lemma timers_wf_after_update (w : World) socket rid r rs yd' payload :
  timers_wf w ->
  rooms w !! roomIdOf (documentId rs) = Some r ->
  roomHeap w !! r = Some rs ->
  timers_wf (after_update w socket rid r rs yd' payload).
Proof.
  intros Hwf Hr Hrs. unfold after_update.
  intros h tm. wsimpl. intros Htm.
  destruct (decide (h = nextHandle w)) as [->|Hne].
  - rewrite lookup_insert_eq in Htm. injection Htm as <-. cbn [target].
    split; [lia|]. exists (set_saveTimeout (Some (nextHandle w)) rs).
    cbn [documentId set_saveTimeout saveTimeout]. by rewrite lookup_alter_eq, Hrs.
  - rewrite lookup_insert_ne in Htm by done.
    apply cancel_lookup_Some in Htm as [Htm Hnot].
    destruct (Hwf h tm Htm) as (Hlt & rs' & Hreg' & Hrs' & Hto').
    split; [lia|]. exists rs'. split; [done|]. split; [|done].
    rewrite lookup_alter_ne; [done|]. intros E. rewrite <- E, Hrs in Hrs'.
    by simplify_eq.
Qed.







(** *** Every input keeps the invariant *)

Lemma server_wf_fields (w w' : World) :
  rooms w' = rooms w -> roomHeap w' = roomHeap w ->
  timers w' = timers w -> nextHandle w' = nextHandle w ->
  server_wf w -> server_wf w'.
Proof.
  intros Hr Hh Ht Hn. apply (server_wf_roster w w' id 0%nat); auto.
Qed.

Lemma server_wf_join_rest (wl : World) (socket : AuthenticatedSocket) (d : string)
    (role : Role) :
  server_wf wl -> server_wf (exec (join_rest socket d role) wl).
Proof.
  intros Hwf. unfold exec.
  destruct (tbl_document (db wl) !! d) as [row|] eqn:Hrow.
  2:{ destruct (join_rest_no_row wl socket d role Hrow) as (c & w' & -> & _ & H). auto. }
  destruct (rooms wl !! roomIdOf d) as [r|] eqn:Hr.
  - destruct (roomHeap wl !! r) as [rs|] eqn:Hh.
    2:{ destruct (join_rest_dangling_room wl socket d role r Hr Hh)
          as (c & w' & -> & _ & H). auto. }
    destruct (docHeap wl !! document rs) as [yd|] eqn:Hd.
    2:{ destruct (join_rest_dangling_document wl socket d role r rs Hr Hh Hd)
          as (c & w' & -> & _ & H). auto. }
    rewrite (join_rest_existing wl socket d role r rs yd row) by done. cbn [snd].
    apply (server_wf_roster wl _ <[userId socket := roomUser_of socket role]> r);
      [reflexivity|right; reflexivity|reflexivity|reflexivity|exact Hwf].
  - destruct (documents wl !! d) as [l|] eqn:Hdoc.
    + pose proof (join_rest_store_entry wl socket d role row l Hr Hdoc Hrow) as H.
      cbv zeta in H. destruct (docHeap wl !! l) as [yd|].
      * rewrite H. cbn [snd].
        apply (server_wf_fields
                 (with_roomHeap <[fresh (dom (roomHeap wl)) := fresh_room wl socket d role l]>
                    (with_rooms <[roomIdOf d := fresh (dom (roomHeap wl))]>
                       (entered wl socket (roomIdOf d))))); try reflexivity.
        apply (server_wf_new_room (entered wl socket (roomIdOf d)) d);
          [exact Hr|reflexivity|].
        by apply (server_wf_fields wl).
      * destruct H as (c & w' & -> & _ & H). auto.
    + destruct (loaded (doc_content row)) as [yd|] eqn:Hload.
      * rewrite (join_rest_fresh wl socket d role row yd) by done. cbn [snd].
        apply (server_wf_fields
                 (with_roomHeap
                    <[fresh (dom (roomHeap wl)) :=
                        fresh_room wl socket d role (fresh (dom (docHeap wl)))]>
                    (with_rooms <[roomIdOf d := fresh (dom (roomHeap wl))]>
                       (entered wl socket (roomIdOf d))))); try reflexivity.
        apply (server_wf_new_room (entered wl socket (roomIdOf d)) d);
          [exact Hr|reflexivity|].
        by apply (server_wf_fields wl).
      * rewrite (join_rest_load_failure wl socket d role row) by done. cbn [snd].
        by apply (server_wf_fields wl).
Qed.

Lemma server_wf_join (w : World) (socket : AuthenticatedSocket) (payload : JoinRoomPayload) :
  server_wf w -> server_wf (exec (handleJoinRoom socket payload) w).
Proof.
  intros Hwf. unfold exec. rewrite handleJoinRoom_steps.
  unfold try_catch. cbv [mbind M_bind bind]. rewrite checkDocumentAccess_result.
  destruct (access_of (db w) (userId socket) (jr_documentId payload)) as [[] [role|]].
  2-4: by apply (server_wf_fields w).
  destruct (server_wf_leave w socket Hwf) as (wl & -> & Hwfl).
  pose proof (server_wf_join_rest wl socket (jr_documentId payload) role Hwfl) as Hj.
  unfold exec in Hj.
  destruct (join_rest socket (jr_documentId payload) role wl) as [[[]|] w']; cbn [snd] in *.
  - done.
  - by apply (server_wf_fields w').
Qed.

Lemma server_wf_update (w : World) (socket : AuthenticatedSocket)
    (payload : UpdateOperationPayload) :
  server_wf w -> server_wf (exec (handleUpdateOperation socket payload) w).
Proof.
  intros Hwf.
  assert (Hnoop : handleUpdateOperation socket payload w = (Normal tt, w) ->
                  server_wf (exec (handleUpdateOperation socket payload) w)).
  { intros E. unfold exec. by rewrite E. }
  destruct (socketToRoom w !! sock_id socket) as [rid|] eqn:Hs.
  2:{ apply Hnoop. unfold handleUpdateOperation. mred. by rewrite Hs. }
  destruct (decide (rid = "")) as [->|Hne].
  { apply Hnoop. unfold handleUpdateOperation. mred. by rewrite Hs. }
  destruct (rooms w !! rid) as [r|] eqn:Hr.
  2:{ apply Hnoop. unfold handleUpdateOperation. mred. rewrite Hs.
      destruct (decide (rid = "")); [done|]. by rewrite Hr. }
  destruct (proj1 Hwf rid r Hr) as (rs & Hrs & ->).
  assert (Hres : resident w socket (documentId rs) r rs) by done.
  destruct (decide (ru_role <$> users rs !! userId socket = Some VIEWER)) as [Hv|Hw].
  { destruct (users rs !! userId socket) as [ru|] eqn:Hru; [|done].
    injection Hv as Hv.
    unfold exec.
    rewrite (viewer_update_denied w socket (documentId rs) r rs ru payload Hres Hru Hv). by apply (server_wf_fields w). }
  destruct (docHeap w !! document rs) as [yd|] eqn:Hyd.
  2:{ unfold exec, handleUpdateOperation, readRoom, applyUpdate, readDoc. mred. rewrite Hs.
      destruct (decide _); [done|]. rewrite Hr, Hrs. cbv beta.
      destruct (decide _); [done|]. rewrite Hyd. by apply (server_wf_fields w). }
  destruct (Y_applyUpdate yd (arrayToUint8Array (up_update payload))) as [yd'|yd'] eqn:Happ.
  - unfold exec. rewrite (update_accepted w socket _ r rs yd yd' payload) by done.
    cbn [snd]. split.
    + intros rid' r'. unfold after_update. wsimpl. intros Hrid'.
      destruct (proj1 Hwf rid' r' Hrid') as (rs' & Hrs' & ->).
      destruct (decide (r' = r)) as [->|Hner].
      * rewrite lookup_alter_eq, Hrs'. by eexists.
      * rewrite lookup_alter_ne by done. by exists rs'.
    + apply timers_wf_after_update; [apply Hwf|done..].
  - unfold exec. rewrite (update_malformed w socket _ r rs yd yd' payload) by done.
    by apply (server_wf_fields w).
Qed.

Lemma server_wf_cursor (w : World) (socket : AuthenticatedSocket)
    (payload : CursorPresencePayload) :
  server_wf w -> server_wf (exec (handleCursorPresence socket payload) w).
Proof.
  intros Hwf. unfold exec, handleCursorPresence, modRoom. mred.
  destruct (socketToRoom w !! sock_id socket) as [rid|]; [|done].
  destruct (decide (rid = "")) as [Hz|Hz]; [done|].
  destruct (rooms w !! rid) as [r|]; [|done].
  cbn [snd]. wsimpl.
  apply (server_wf_roster w _ (alter (set_cursor (cp_cursor payload)) (userId socket)) r);
    [reflexivity|right; reflexivity|reflexivity|reflexivity|exact Hwf].
Qed.

Lemma server_wf_typing (w : World) (socket : AuthenticatedSocket)
    (payload : TypingIndicatorPayload) :
  server_wf w -> server_wf (exec (handleTypingIndicator socket payload) w).
Proof.
  intros Hwf. unfold exec, handleTypingIndicator. mred.
  destruct (socketToRoom w !! sock_id socket) as [rid|]; [|done].
  destruct (decide (rid = "")) as [Hz|Hz]; [done|].
  by apply (server_wf_fields w).
Qed.

Lemma server_wf_sync (w : World) (socket : AuthenticatedSocket) :
  server_wf w -> server_wf (exec (handleRequestSync socket) w).
Proof.
  intros Hwf. unfold exec, handleRequestSync, readRoom, getStateArray, getState, readDoc,
    getDocumentVersion. mred.
  destruct (socketToRoom w !! sock_id socket) as [rid|]; [|done].
  destruct (decide (rid = "")) as [Hz|Hz]; [done|].
  destruct (rooms w !! rid) as [r|]; [|done].
  destruct (roomHeap w !! r) as [rs|]; [|done]. cbv beta.
  destruct (docHeap w !! document rs) as [yd|]; [|done]. cbv beta.
  destruct (tbl_document (db w) !! documentId rs) as [row|];
    by apply (server_wf_fields w).
Qed.

Lemma server_wf_track (w : World) (uid sid : string) :
  server_wf w -> server_wf (exec (trackUserSocket uid sid) w).
Proof.
  intros Hwf. unfold exec, trackUserSocket. mred.
  destruct (userSockets w !! uid) as [sockets|]; by apply (server_wf_fields w).
Qed.

Lemma server_wf_disconnect (w : World) (socket : AuthenticatedSocket) :
  server_wf w -> server_wf (exec (handleDisconnect socket) w).
Proof.
  intros Hwf. unfold exec, handleDisconnect. cbv [mbind M_bind bind].
  destruct (untrack_result w (userId socket) (sock_id socket)) as (us & -> & _).
  destruct (server_wf_leave (with_userSockets (fun _ => us) w) socket) as (wl & -> & Hwfl);
    [by apply (server_wf_fields w)|done].
Qed.

(** The invariant of the server: it holds of the server before the first
    connection, and every input keeps it. *)
Lemma server_wf_step (ti : Z * Input) (w : World) : server_wf w -> server_wf (step ti w).
Proof.
  intros Hwf. unfold step.
  assert (Hwt : server_wf (with_clock (fun _ => fst ti) w))
    by (by apply (server_wf_fields w)).
  destruct ti as [t []]; cbn [snd dispatch].
  - by apply server_wf_track.
  - by apply server_wf_join.
  - destruct (server_wf_leave _ socket Hwt) as (wl & E & Hwfl). unfold exec. by rewrite E.
  - by apply server_wf_update.
  - by apply server_wf_cursor.
  - by apply server_wf_typing.
  - by apply server_wf_sync.
  - by apply server_wf_disconnect.
  - unfold exec. rewrite fireTimer_result. by apply server_wf_fire.
Qed.

Lemma server_wf_run (inputs : list (Z * Input)) (w : World) :
  server_wf w -> server_wf (run inputs w).
Proof.
  revert w. induction inputs as [|ti inputs IH]; intros w Hwf; [done|].
  apply IH. by apply server_wf_step.
Qed.

Lemma server_wf_initial (w : World) : rooms w = ∅ -> timers w = ∅ -> server_wf w.
Proof.
  intros Hr Ht. split.
  - intros rid r. by rewrite Hr, lookup_empty.
  - intros h tm. by rewrite Ht, lookup_empty.
Qed.


(** C7: two sockets of one user, both tracked, join the room of [d] one
    after the other, and both joins succeed (ROOM_JOINED is sent).  After
    the second join the room is the same room object, its roster is the
    roster after the first join with the entry of the user written again
    (same keys, same size: the user has one entry, under its id), and both
    sockets are tracked sockets of the user that are mapped to the room. *)
Theorem second_join_upserts_member
    (w : World) (sA sB : AuthenticatedSocket) (d : string) (t2 : Z) :
  sock_id sA ≠ sock_id sB ->
  userId sA = userId sB ->
  sock_id sA ∈ default ∅ (userSockets w !! userId sA) ->
  sock_id sB ∈ default ∅ (userSockets w !! userId sA) ->
  joined sA {| jr_documentId := d |} w ->
  let w1 := with_clock (fun _ => t2) (exec (handleJoinRoom sA {| jr_documentId := d |}) w) in
  joined sB {| jr_documentId := d |} w1 ->
  let w2 := exec (handleJoinRoom sB {| jr_documentId := d |}) w1 in
  exists r rs1 rs2 ru,
    rooms w1 !! roomIdOf d = Some r
    /\ roomHeap w1 !! r = Some rs1
    /\ rooms w2 !! roomIdOf d = Some r
    /\ roomHeap w2 !! r = Some rs2
    /\ is_Some (users rs1 !! userId sA)
    /\ users rs2 = <[userId sA := ru]> (users rs1)
    /\ dom (users rs2) = dom (users rs1)
    /\ size (users rs2) = size (users rs1)
    /\ {[ sock_id sA; sock_id sB ]} ⊆ socketsInRoom w2 (userId sA) (roomIdOf d).
Proof.
  intros Hsock Huser HtA HtB Hj1 w1 Hj2 w2.
  destruct (join_success_inv w sA d Hj1)
    as (role1 & wl1 & r & rs1 & _ & Hl1 & Hr1 & Hh1 & Hs1 & Hus1 & Hroster1).
  cbv zeta in Hr1, Hh1, Hs1, Hus1.
  destruct (leave_frame w wl1 sA Hl1) as (Hus1' & _).
  assert (Hmem1 : is_Some (users rs1 !! userId sA)).
  { destruct Hroster1 as [(_ & rs & _ & ->)|(_ & ->)].
    - rewrite lookup_insert_eq. by eexists.
    - rewrite lookup_singleton_eq. by eexists. }
  assert (HsA1 : socketToRoom w1 !! sock_id sA = Some (roomIdOf d)).
  { subst w1. wsimpl. by rewrite Hs1, lookup_insert_eq. }
  assert (Hus_w1 : userSockets w1 = userSockets w).
  { subst w1. wsimpl. by rewrite Hus1. }
  destruct (join_success_inv w1 sB d Hj2)
    as (role2 & wl2 & r2 & rs2 & _ & Hl2 & Hr2 & Hh2 & Hs2 & Hus2 & Hroster2).
  cbv zeta in Hr2, Hh2, Hs2, Hus2. fold w2 in Hr2, Hh2, Hs2, Hus2.
  destruct (leave_frame w1 wl2 sB Hl2) as (Hus2' & Hs2').
  destruct (leave_keeps_room_of_other_socket w1 wl2 sA sB (roomIdOf d) r rs1 Hl2)
    as (Hkeep & rs' & Hrs' & Husers); try done.
  { by rewrite Hus_w1, <- Huser. }
  { by rewrite <- Huser. }
  destruct Hroster2 as [(Hr2' & rs & Hrs & Hu2)|(Hnone & _)];
    [|by rewrite Hkeep in Hnone].
  rewrite Hkeep in Hr2'. injection Hr2' as <-. rewrite Hrs' in Hrs. injection Hrs as <-.
  assert (Hu : users rs2 = <[userId sA := roomUser_of sB role2]> (users rs1)).
  { rewrite <- Huser in Husers, Hu2. rewrite Hu2.
    destruct Husers as [->| ->]; [done|]. by rewrite insert_delete_eq. }
  exists r, rs1, rs2, (roomUser_of sB role2).
  assert (Hdom : dom (users rs2) = dom (users rs1)).
  { rewrite Hu, dom_insert_L. apply elem_of_dom in Hmem1.
    by apply subseteq_union_1_L, singleton_subseteq_l. }
  split; [done|]. split; [done|]. split; [done|]. split; [done|].
  split; [done|]. split; [done|]. split; [done|].
  split.
  { destruct Hmem1 as [ru1 Hru1]. rewrite Hu.
    rewrite <- (insert_id (users rs1) (userId sA) ru1) at 2 by done.
    rewrite <- (insert_delete_eq (users rs1)) at 1.
    rewrite <- (insert_delete_eq (users rs1) (userId sA) ru1).
    rewrite !map_size_insert_None by apply lookup_delete_eq. done. }
  unfold socketsInRoom.
  assert (Hus_w2 : userSockets w2 = userSockets w) by (by rewrite Hus2, Hus2').
  intros sid Hsid.
  apply elem_of_union in Hsid as [Hsid|Hsid]; apply elem_of_singleton in Hsid as ->;
    apply elem_of_filter; rewrite Hus_w2, Hs2; (split; [|done]).
  - by rewrite lookup_insert_ne, Hs2', HsA1.
  - by rewrite lookup_insert_eq.
Qed.

(** ** The server invariant and what follows from it *)

(** *** The shape of a save and of a leave *)

Lemma save_result_db (w : World) (r : loc) :
  db (save_result w r) = db w
  \/ exists rs yd row,
       roomHeap w !! r = Some rs
       /\ docHeap w !! document rs = Some yd
       /\ tbl_document (db w) !! documentId rs = Some row
       /\ db (save_result w r)
          = saved_db (db w) (documentId rs) (Y_encodeStateAsUpdate yd) (clock w)
              (lastSaveTime rs) row.
Proof.
  unfold save_result.
  destruct (roomHeap w !! r) as [rs|]; [|by left].
  destruct (docHeap w !! document rs) as [yd|] eqn:Hyd; [|by left].
  destruct (tbl_document (db w) !! documentId rs) as [row|] eqn:Hrow; [|by left].
  right. by exists rs, yd, row.
Qed.

(** The state after the leave of a resident room, field by field. *)
Lemma after_leave_shape
    (w : World) (socket : AuthenticatedSocket) (rid : string) (r : loc) (rs : RoomState) :
  roomHeap w !! r = Some rs ->
  let wl := after_leave w socket rid r rs in
  let rs2 := roster_after_leave w socket rid rs in
  userSockets wl = userSockets w
  /\ socketToRoom wl = delete (sock_id socket) (socketToRoom w)
  /\ docHeap wl = docHeap w
  /\ nextHandle wl = nextHandle w
  /\ clock wl = clock w
  /\ adapter wl = <[rid := in_room w rid ∖ {[ sock_id socket ]}]> (adapter w)
  /\ rooms wl = (if decide (size (users rs2) = 0%nat) then delete rid (rooms w) else rooms w)
  /\ documents wl = (if decide (size (users rs2) = 0%nat)
                     then delete (documentId rs) (documents w) else documents w)
  /\ timers wl = (if decide (size (users rs2) = 0%nat)
                  then cancel (saveTimeout rs) (timers w) else timers w)
  /\ (forall r0, r0 ≠ r -> roomHeap wl !! r0 = roomHeap w !! r0)
  /\ (exists rs', roomHeap wl !! r = Some rs'
        /\ documentId rs' = documentId rs /\ document rs' = document rs
        /\ saveTimeout rs' = saveTimeout rs /\ users rs' = users rs2)
  /\ (db wl = db w
      \/ (size (users rs2) = 0%nat
          /\ exists yd row,
               docHeap w !! document rs = Some yd
               /\ tbl_document (db w) !! documentId rs = Some row
               /\ db wl = saved_db (db w) (documentId rs) (Y_encodeStateAsUpdate yd)
                            (clock w) (lastSaveTime rs) row)).
Proof.
  intros Hh wl rs2.
  set (w2 := leave_membership w socket rid r).
  assert (F2 : userSockets w2 = userSockets w
    /\ socketToRoom w2 = delete (sock_id socket) (socketToRoom w)
    /\ docHeap w2 = docHeap w /\ db w2 = db w /\ rooms w2 = rooms w
    /\ documents w2 = documents w /\ timers w2 = timers w
    /\ nextHandle w2 = nextHandle w /\ clock w2 = clock w
    /\ adapter w2 = <[rid := in_room w rid ∖ {[ sock_id socket ]}]> (adapter w)
    /\ roomHeap w2 !! r = Some rs2
    /\ (forall r0, r0 ≠ r -> roomHeap w2 !! r0 = roomHeap w !! r0)).
  { subst w2 rs2. unfold leave_membership, roster_after_leave, in_room.
    destruct (decide (length (userSocketsInRoom w socket rid) = 0%nat)) as [Hl|Hl];
      wsimpl.
    - repeat split; try done.
      + by rewrite lookup_alter_eq, Hh.
      + intros r0 Hne. by rewrite lookup_alter_ne.
    - repeat split; done. }
  destruct F2 as (Fus & Fs & Fd & Fdb & Fr & Fdoc & Ft & Fn & Fc & Fa & Fh & Fho).
  assert (Hrs2 : document rs2 = document rs /\ documentId rs2 = documentId rs
                 /\ saveTimeout rs2 = saveTimeout rs /\ lastSaveTime rs2 = lastSaveTime rs).
  { subst rs2. unfold roster_after_leave. by destruct (decide _). }
  destruct Hrs2 as (Hdoc2 & Hid2 & Hto2 & Hls2).
  subst wl. unfold after_leave. fold w2 rs2.
  destruct (decide (size (users rs2) = 0%nat)) as [He|Hne].
  - destruct (save_result_frame w2 r) as (Sr & Sus & Ss & Sdoc & Sd & Sa & St & Sn & Sc).
    unfold teardown. wsimpl. rewrite Hid2, Hto2.
    split; [by rewrite Sus|]. split; [by rewrite Ss|]. split; [by rewrite Sd|].
    split; [by rewrite Sn|]. split; [by rewrite Sc|]. split; [by rewrite Sa|].
    split; [by rewrite Sr, Fr|]. split; [by rewrite Sdoc, Fdoc|].
    split; [by rewrite St, Ft|].
    split.
    { intros r0 Hne. destruct (save_result_roomHeap w2 r r0) as [E|[E _]]; [|done].
      by rewrite E, Fho. }
    split.
    { destruct (save_result_room w2 r rs2 Fh) as (rs' & E & Hid & Hu & Hdoc & Hto).
      exists rs'. by rewrite Hid, Hdoc, Hto, Hu. }
    destruct (save_result_db w2 r) as [E|(rs0 & yd & row & Hrs0 & Hyd & Hrow & E)].
    + left. by rewrite E.
    + right. split; [done|]. rewrite Fh in Hrs0. injection Hrs0 as <-.
      exists yd, row. rewrite Hdoc2, Fd in Hyd. rewrite Hid2, Fdb in Hrow.
      split; [done|]. split; [done|]. by rewrite E, Fdb, Fc, Hid2, Hls2.
  - repeat split; try done.
    + exists rs2. done.
    + by left.
Qed.

(** *** What an input leaves of the rooms

    [keeps_membership w w']: from [w] to [w'] no room was registered or
    removed, no socket changed its room, and every room object has the
    document, the members and the roles it had. *)
Definition keeps_membership (w w' : World) : Prop :=
  rooms w' = rooms w
  /\ documents w' = documents w
  /\ socketToRoom w' = socketToRoom w
  /\ adapter w' = adapter w
  /\ (forall l, is_Some (docHeap w !! l) -> is_Some (docHeap w' !! l))
  /\ (forall r rs', roomHeap w' !! r = Some rs' ->
        exists rs, roomHeap w !! r = Some rs
          /\ documentId rs' = documentId rs /\ document rs' = document rs
          /\ dom (users rs') = dom (users rs)
          /\ forall uid, ru_role <$> users rs' !! uid = ru_role <$> users rs !! uid).

Lemma keeps_membership_refl (w : World) : keeps_membership w w.
Proof. repeat split; try done. intros r rs' Hrs'. by exists rs'. Qed.

Lemma keeps_membership_trans (w1 w2 w3 : World) :
  keeps_membership w1 w2 -> keeps_membership w2 w3 -> keeps_membership w1 w3.
Proof.
  intros (A1 & A2 & A3 & A4 & A5 & A6) (B1 & B2 & B3 & B4 & B5 & B6).
  split; [congruence|]. split; [congruence|]. split; [congruence|].
  split; [congruence|]. split; [by auto|].
  intros r rs3 H3. destruct (B6 r rs3 H3) as (rs2 & H2 & E1 & E2 & E3 & E4).
  destruct (A6 r rs2 H2) as (rs1 & H1 & F1 & F2 & F3 & F4).
  exists rs1. split; [done|]. split; [congruence|]. split; [congruence|].
  split; [congruence|]. intros uid. by rewrite E4.
Qed.

(** Only what [keeps_membership] does not look at differs. *)
Lemma keeps_membership_fields (w w' : World) :
  rooms w' = rooms w -> documents w' = documents w -> socketToRoom w' = socketToRoom w ->
  adapter w' = adapter w -> docHeap w' = docHeap w -> roomHeap w' = roomHeap w ->
  keeps_membership w w'.
Proof.
  intros Hr Hd Hs Ha Hdh Hh. repeat split; try done.
  - intros l. by rewrite Hdh.
  - intros r rs'. rewrite Hh. intros Hrs'. by exists rs'.
Qed.

(** One room object is changed by a function that keeps its document, its
    members and their roles. *)
Lemma keeps_membership_alter (w w' : World) (f : RoomState -> RoomState) (r : loc) :
  (forall rs, documentId (f rs) = documentId rs /\ document (f rs) = document rs
     /\ dom (users (f rs)) = dom (users rs)
     /\ forall uid, ru_role <$> users (f rs) !! uid = ru_role <$> users rs !! uid) ->
  rooms w' = rooms w -> documents w' = documents w -> socketToRoom w' = socketToRoom w ->
  adapter w' = adapter w ->
  (forall l, is_Some (docHeap w !! l) -> is_Some (docHeap w' !! l)) ->
  roomHeap w' = alter f r (roomHeap w) ->
  keeps_membership w w'.
Proof.
  intros Hf Hr Hd Hs Ha Hdh Hh. repeat split; try done.
  intros r0 rs'. rewrite Hh. destruct (decide (r0 = r)) as [->|Hne].
  - rewrite lookup_alter_eq. destruct (roomHeap w !! r) as [rs|]; [|done].
    intros [= <-]. exists rs. split; [done|]. apply Hf.
  - rewrite lookup_alter_ne by done. intros Hrs'. by exists rs'.
Qed.

Lemma save_result_keeps_membership (w : World) (r : loc) :
  keeps_membership w (save_result w r).
Proof.
  destruct (save_result_frame w r) as (Fr & _ & Fs & Fdoc & Fd & Fa & _).
  repeat split; try done.
  - intros l. by rewrite Fd.
  - intros r0 rs' Hrs'.
    destruct (save_result_roomHeap w r r0) as [E|[-> E]]; rewrite E in Hrs'.
    + by exists rs'.
    + destruct (roomHeap w !! r) as [rs|]; [|done]. injection Hrs' as <-. by exists rs.
Qed.

Lemma fire_result_keeps_membership (w : World) (h : handle) :
  keeps_membership w (fire_result w h).
Proof.
  unfold fire_result. destruct (timers w !! h) as [tm|]; [|apply keeps_membership_refl].
  destruct (decide _); [|apply keeps_membership_refl].
  apply (keeps_membership_trans _ (with_timers (delete h) w)).
  - by apply keeps_membership_fields.
  - apply save_result_keeps_membership.
Qed.

(** An update, whatever becomes of it. *)
Lemma update_keeps_membership (w : World) (socket : AuthenticatedSocket)
    (payload : UpdateOperationPayload) :
  keeps_membership w (exec (handleUpdateOperation socket payload) w)
  /\ db (exec (handleUpdateOperation socket payload) w) = db w
  /\ userSockets (exec (handleUpdateOperation socket payload) w) = userSockets w.
Proof.
  assert (Hsame : forall c, handleUpdateOperation socket payload w = (c, w) ->
    keeps_membership w (exec (handleUpdateOperation socket payload) w)
    /\ db (exec (handleUpdateOperation socket payload) w) = db w
    /\ userSockets (exec (handleUpdateOperation socket payload) w) = userSockets w).
  { intros c E. unfold exec. rewrite E. split; [apply keeps_membership_refl|done]. }
  destruct (socketToRoom w !! sock_id socket) as [rid|] eqn:Hs.
  2:{ apply (Hsame (Normal tt)). unfold handleUpdateOperation. mred. by rewrite Hs. }
  destruct (decide (rid = "")) as [->|Hne].
  { apply (Hsame (Normal tt)). unfold handleUpdateOperation. mred. by rewrite Hs. }
  destruct (rooms w !! rid) as [r|] eqn:Hr.
  2:{ apply (Hsame (Normal tt)). unfold handleUpdateOperation. mred. rewrite Hs.
      destruct (decide (rid = "")); [done|]. by rewrite Hr. }
  destruct (roomHeap w !! r) as [rs|] eqn:Hrs.
  2:{ apply (Hsame Thrown). unfold handleUpdateOperation, readRoom. mred. rewrite Hs.
      destruct (decide (rid = "")); [done|]. by rewrite Hr, Hrs. }
  unfold exec, handleUpdateOperation, readRoom, applyUpdate, readDoc, socket_to_emit, emit,
    scheduleSave, readRoom, setTimeout, clearTimeout, modRoom, socket_emit, emit.
  mred. rewrite Hs. destruct (decide (rid = "")); [done|]. rewrite Hr, Hrs. cbv beta.
  destruct (decide _) as [Hv|Hv].
  { wsimpl. split; [by apply keeps_membership_fields|done]. }
  destruct (docHeap w !! document rs) as [yd|] eqn:Hyd.
  2:{ wsimpl. split; [by apply keeps_membership_fields|done]. }
  destruct (Y_applyUpdate yd (arrayToUint8Array (up_update payload))) as [yd'|yd'].
  - wsimpl. rewrite Hrs. cbv beta.
    assert (Hdh : forall l, is_Some (docHeap w !! l) ->
                    is_Some (<[document rs := yd']> (docHeap w) !! l)).
    { intros l Hl. destruct (decide (l = document rs)) as [->|];
        [by rewrite lookup_insert_eq|by rewrite lookup_insert_ne]. }
    destruct (saveTimeout rs) as [h|]; wsimpl;
      (split; [|done]);
      apply (keeps_membership_alter _ _ (set_saveTimeout (Some (nextHandle w))) r);
      done.
  - wsimpl. split; [|done]. repeat split; wsimpl; try done.
    + intros l Hl. destruct (decide (l = document rs)) as [->|];
        [by rewrite lookup_insert_eq|by rewrite lookup_insert_ne].
    + intros r0 rs' Hrs'. by exists rs'.
Qed.

Lemma cursor_keeps_membership (w : World) (socket : AuthenticatedSocket)
    (payload : CursorPresencePayload) :
  keeps_membership w (exec (handleCursorPresence socket payload) w)
  /\ db (exec (handleCursorPresence socket payload) w) = db w
  /\ userSockets (exec (handleCursorPresence socket payload) w) = userSockets w
  /\ timers (exec (handleCursorPresence socket payload) w) = timers w.
Proof.
  unfold exec, handleCursorPresence, modRoom, socket_to_emit, emit. mred.
  destruct (socketToRoom w !! sock_id socket) as [rid|];
    [|split; [apply keeps_membership_refl|done]].
  destruct (decide (rid = "")); [split; [apply keeps_membership_refl|done]|].
  destruct (rooms w !! rid) as [r|]; [|split; [apply keeps_membership_refl|done]].
  wsimpl. split; [|done].
  apply (keeps_membership_alter _ _
           (with_users (alter (set_cursor (cp_cursor payload)) (userId socket))) r);
    try done.
  intros rs. cbn [with_users documentId document users].
  split; [done|]. split; [done|]. split; [by rewrite dom_alter_L|].
  intros uid. destruct (decide (uid = userId socket)) as [->|Hne].
  - rewrite lookup_alter_eq. by destruct (users rs !! userId socket).
  - by rewrite lookup_alter_ne.
Qed.

Lemma typing_keeps_membership (w : World) (socket : AuthenticatedSocket)
    (payload : TypingIndicatorPayload) :
  keeps_membership w (exec (handleTypingIndicator socket payload) w)
  /\ db (exec (handleTypingIndicator socket payload) w) = db w
  /\ userSockets (exec (handleTypingIndicator socket payload) w) = userSockets w
  /\ roomHeap (exec (handleTypingIndicator socket payload) w) = roomHeap w
  /\ docHeap (exec (handleTypingIndicator socket payload) w) = docHeap w
  /\ timers (exec (handleTypingIndicator socket payload) w) = timers w.
Proof.
  unfold exec, handleTypingIndicator, socket_to_emit, emit. mred.
  destruct (socketToRoom w !! sock_id socket) as [rid|];
    [|split; [apply keeps_membership_refl|done]].
  destruct (decide (rid = "")); [split; [apply keeps_membership_refl|done]|].
  wsimpl. split; [by apply keeps_membership_fields|done].
Qed.

Lemma sync_keeps_membership (w : World) (socket : AuthenticatedSocket) :
  keeps_membership w (exec (handleRequestSync socket) w)
  /\ db (exec (handleRequestSync socket) w) = db w
  /\ userSockets (exec (handleRequestSync socket) w) = userSockets w
  /\ roomHeap (exec (handleRequestSync socket) w) = roomHeap w
  /\ docHeap (exec (handleRequestSync socket) w) = docHeap w
  /\ timers (exec (handleRequestSync socket) w) = timers w.
Proof.
  unfold exec, handleRequestSync, readRoom, getStateArray, getState, readDoc,
    getDocumentVersion, prisma_document_findUnique, socket_emit, emit. mred.
  destruct (socketToRoom w !! sock_id socket) as [rid|];
    [|split; [apply keeps_membership_refl|done]].
  destruct (decide (rid = "")); [split; [apply keeps_membership_refl|done]|].
  destruct (rooms w !! rid) as [r|]; [|split; [apply keeps_membership_refl|done]].
  destruct (roomHeap w !! r) as [rs|]; [|split; [apply keeps_membership_refl|done]].
  cbv beta.
  destruct (docHeap w !! document rs) as [yd|]; [|split; [apply keeps_membership_refl|done]].
  cbv beta. wsimpl. split; [by apply keeps_membership_fields|done].
Qed.

Lemma track_keeps_membership (w : World) (uid sid : string) :
  keeps_membership w (exec (trackUserSocket uid sid) w)
  /\ db (exec (trackUserSocket uid sid) w) = db w.
Proof.
  unfold exec, trackUserSocket. mred.
  destruct (userSockets w !! uid); wsimpl; (split; [by apply keeps_membership_fields|done]).
Qed.

(** *** The invariant [server_inv] *)

Definition rest_inv (w : World) : Prop := rosters_wf w /\ store_wf w /\ tracking_wf w.

Lemma dom_nonempty {A} (m m' : gmap string A) : dom m' = dom m -> m ≠ ∅ -> m' ≠ ∅.
Proof.
  intros Hd Hne ->. apply Hne. apply dom_empty_iff_L. by rewrite <- Hd, dom_empty_L.
Qed.

Lemma rest_inv_keeps (w w' : World) :
  keeps_membership w w' -> userSockets w' = userSockets w -> rest_inv w -> rest_inv w'.
Proof.
  intros (Hr & Hd & _ & _ & Hdh & Hh) Hu (Hros & (S1 & S2 & S3) & Htr).
  split; [|split; [split; [|split]|]].
  - intros rid r rs' Hrid Hrs'. rewrite Hr in Hrid.
    destruct (Hh r rs' Hrs') as (rs & Hrs & _ & _ & Hdom & _).
    apply (dom_nonempty (users rs)); [done|]. by eapply Hros.
  - intros rid r rs' Hrid Hrs'. rewrite Hr in Hrid.
    destruct (Hh r rs' Hrs') as (rs & Hrs & Hid & Hdoc & _).
    rewrite Hd, Hid, Hdoc. by eapply S1.
  - intros d l Hl. rewrite Hd in Hl. destruct (S2 d l Hl) as [H1 H2].
    rewrite Hr. split; [done|by apply Hdh].
  - intros d1 d2 l. rewrite Hd. apply S3.
  - intros uid sockets. rewrite Hu. apply Htr.
Qed.

(** Two registered rooms are two room objects. *)
Lemma rooms_wf_inj (w : World) (rid1 rid2 : string) (r : loc) :
  rooms_wf w -> rooms w !! rid1 = Some r -> rooms w !! rid2 = Some r -> rid1 = rid2.
Proof.
  intros Hwf H1 H2.
  destruct (Hwf rid1 r H1) as (rs1 & Hrs1 & ->).
  destruct (Hwf rid2 r H2) as (rs2 & Hrs2 & ->). congruence.
Qed.

Lemma rest_inv_tracking (w w' : World) :
  keeps_membership w w' -> tracking_wf w' -> rest_inv w -> rest_inv w'.
Proof.
  intros (Hr & Hd & _ & _ & Hdh & Hh) Htr' (Hros & (S1 & S2 & S3) & _).
  split; [|split; [split; [|split]|done]].
  - intros rid r rs' Hrid Hrs'. rewrite Hr in Hrid.
    destruct (Hh r rs' Hrs') as (rs & Hrs & _ & _ & Hdom & _).
    apply (dom_nonempty (users rs)); [done|]. by eapply Hros.
  - intros rid r rs' Hrid Hrs'. rewrite Hr in Hrid.
    destruct (Hh r rs' Hrs') as (rs & Hrs & Hid & Hdoc & _).
    rewrite Hd, Hid, Hdoc. by eapply S1.
  - intros d l Hl. rewrite Hd in Hl. destruct (S2 d l Hl) as [H1 H2].
    rewrite Hr. split; [done|by apply Hdh].
  - intros d1 d2 l. rewrite Hd. apply S3.
Qed.

Lemma track_tracking_wf (w : World) (uid sid : string) :
  tracking_wf w -> tracking_wf (exec (trackUserSocket uid sid) w).
Proof.
  intros Htr. unfold exec, trackUserSocket. mred.
  destruct (userSockets w !! uid) as [sockets|] eqn:E; wsimpl;
    intros uid' sockets'; wsimpl;
    (destruct (decide (uid' = uid)) as [->|Hne];
     [rewrite lookup_insert_eq; intros [= <-]|rewrite lookup_insert_ne by done; apply Htr]).
  - intros He. assert (Hin : sid ∈ sockets ∪ {[sid]}) by (apply elem_of_union_r, elem_of_singleton_2; done).
    rewrite He in Hin. by apply not_elem_of_empty in Hin.
  - intros He. assert (Hin : sid ∈ ({[sid]} : gset string)) by (by apply elem_of_singleton_2).
    rewrite He in Hin. by apply not_elem_of_empty in Hin.
Qed.

Lemma untrack_tracking_wf (w : World) (uid sid : string) :
  tracking_wf w -> tracking_wf (exec (untrackUserSocket uid sid) w).
Proof.
  intros Htr. unfold exec, untrackUserSocket. mred.
  destruct (userSockets w !! uid) as [sockets|] eqn:E; [|done].
  destruct (decide (size (sockets ∖ {[sid]}) = 0%nat)) as [He|Hne]; wsimpl;
    intros uid' sockets'; wsimpl.
  - intros [_ H]%lookup_delete_Some. by eapply Htr.
  - destruct (decide (uid' = uid)) as [->|Hne'].
    + rewrite lookup_insert_eq. intros [= <-] He. apply Hne. by rewrite He, size_empty.
    + rewrite lookup_insert_ne by done. apply Htr.
Qed.

Lemma untrack_keeps_membership (w : World) (uid sid : string) :
  keeps_membership w (exec (untrackUserSocket uid sid) w)
  /\ db (exec (untrackUserSocket uid sid) w) = db w
  /\ timers (exec (untrackUserSocket uid sid) w) = timers w
  /\ roomHeap (exec (untrackUserSocket uid sid) w) = roomHeap w.
Proof.
  unfold exec, untrackUserSocket. mred.
  destruct (userSockets w !! uid) as [sockets|];
    [|split; [apply keeps_membership_refl|done]].
  destruct (decide _); wsimpl; (split; [by apply keeps_membership_fields|done]).
Qed.

(** The leave of a resident room keeps the invariant. *)
Lemma rest_inv_after_leave
    (w : World) (socket : AuthenticatedSocket) (rid : string) (r : loc) (rs : RoomState) :
  rooms_wf w -> rest_inv w ->
  rooms w !! rid = Some r -> roomHeap w !! r = Some rs ->
  rest_inv (after_leave w socket rid r rs).
Proof.
  intros Hwf (Hros & (S1 & S2 & S3) & Htr) Hr Hrs.
  destruct (after_leave_shape w socket rid r rs Hrs)
    as (Fus & _ & Fd & _ & _ & _ & Fr & Fdoc & _ & Fho & (rs' & Frs' & Fid & Fdc & _ & Fu) & _).
  destruct (Hwf rid r Hr) as (rs0 & Hrs0 & Hrid). rewrite Hrs in Hrs0. injection Hrs0 as <-.
  set (wl := after_leave w socket rid r rs) in *.
  destruct (decide (size (users (roster_after_leave w socket rid rs)) = 0%nat)) as [He|Hne].
  - (* the room is torn down *)
    assert (Hback : forall rid0 r0 rs0',
              rooms wl !! rid0 = Some r0 -> roomHeap wl !! r0 = Some rs0' ->
              rid0 ≠ rid /\ rooms w !! rid0 = Some r0 /\ roomHeap w !! r0 = Some rs0').
    { intros rid0 r0 rs0'. rewrite Fr. intros [Hne0 Hrid0]%lookup_delete_Some Hrs0'.
      assert (r0 ≠ r) by (intros ->; apply Hne0; by apply (rooms_wf_inj w _ _ r)).
      rewrite Fho in Hrs0' by done. done. }
    split; [|split; [split; [|split]|]].
    + intros rid0 r0 rs0' Hrid0 Hrs0'.
      destruct (Hback _ _ _ Hrid0 Hrs0') as (_ & Hreg & Hh0). by eapply Hros.
    + intros rid0 r0 rs0' Hrid0 Hrs0'.
      destruct (Hback _ _ _ Hrid0 Hrs0') as (Hne0 & Hreg & Hh0).
      rewrite Fdoc, lookup_delete_ne; [by eapply S1|].
      intros E. apply Hne0. destruct (Hwf rid0 r0 Hreg) as (rs1 & Hrs1 & ->).
      rewrite Hh0 in Hrs1. injection Hrs1 as <-. by rewrite Hrid, E.
    + intros d l. rewrite Fdoc, Fr, Fd.
      intros [Hned Hl]%lookup_delete_Some. destruct (S2 d l Hl) as [H1 H2].
      split; [|done]. rewrite lookup_delete_ne; [done|].
      rewrite Hrid. by intros E%roomIdOf_inj.
    + intros d1 d2 l. rewrite Fdoc.
      intros [_ H1]%lookup_delete_Some [_ H2]%lookup_delete_Some. by eapply S3.
    + intros uid sockets. rewrite Fus. apply Htr.
  - (* the room stays *)
    assert (Hback : forall r0 rs0', roomHeap wl !! r0 = Some rs0' ->
              exists rs0, roomHeap w !! r0 = Some rs0
                /\ documentId rs0' = documentId rs0 /\ document rs0' = document rs0
                /\ (users rs0 ≠ ∅ -> users rs0' ≠ ∅)).
    { intros r0 rs0' Hrs0'. destruct (decide (r0 = r)) as [->|Hner].
      - rewrite Frs' in Hrs0'. injection Hrs0' as <-. exists rs.
        repeat split; try done. intros _. rewrite Fu. intros E. apply Hne.
        by rewrite E, map_size_empty.
      - rewrite Fho in Hrs0' by done. by exists rs0'. }
    split; [|split; [split; [|split]|]].
    + intros rid0 r0 rs0' Hrid0 Hrs0'. rewrite Fr in Hrid0.
      destruct (Hback _ _ Hrs0') as (rs0 & Hh0 & _ & _ & Hu). apply Hu. by eapply Hros.
    + intros rid0 r0 rs0' Hrid0 Hrs0'. rewrite Fr in Hrid0.
      destruct (Hback _ _ Hrs0') as (rs0 & Hh0 & Hid & Hdoc & _).
      rewrite Fdoc, Hid, Hdoc. by eapply S1.
    + intros d l. rewrite Fdoc, Fr, Fd. apply S2.
    + intros d1 d2 l. rewrite Fdoc. apply S3.
    + intros uid sockets. rewrite Fus. apply Htr.
Qed.

Lemma server_inv_leave (w : World) (socket : AuthenticatedSocket) :
  server_inv w ->
  exists wl, handleLeaveRoom socket w = (Normal tt, wl) /\ server_inv wl.
Proof.
  intros (Hwf & Hrest).
  destruct (server_wf_leave w socket Hwf) as (wl & El & Hwfl).
  exists wl. split; [done|]. split; [done|].
  destruct (leave_normal_cases w wl socket El) as [->|(rid & r & rs & _ & _ & Hr & Hh & ->)];
    [done|].
  by apply rest_inv_after_leave; [apply Hwf|..].
Qed.

(** A room is built for a document that had none. *)
Lemma rest_inv_new_room (w w' : World) (d : string) (r l : loc) (rs : RoomState) :
  rooms_wf w -> rest_inv w ->
  rooms w !! roomIdOf d = None -> documents w !! d = None ->
  roomHeap w !! r = None -> docHeap w !! l = None ->
  documentId rs = d -> document rs = l -> users rs ≠ ∅ ->
  rooms w' = <[roomIdOf d := r]> (rooms w) ->
  roomHeap w' = <[r := rs]> (roomHeap w) ->
  documents w' = <[d := l]> (documents w) ->
  docHeap w' !! l ≠ None ->
  (forall l0, is_Some (docHeap w !! l0) -> is_Some (docHeap w' !! l0)) ->
  userSockets w' = userSockets w ->
  rest_inv w'.
Proof.
  intros Hwf (Hros & (S1 & S2 & S3) & Htr) Hnr Hnd Hfr Hfl Hid Hdoc Hne Er Eh Ed Hl Hdh Eu.
  assert (Hback : forall rid0 r0 rs0,
            rooms w' !! rid0 = Some r0 -> roomHeap w' !! r0 = Some rs0 ->
            (rid0 = roomIdOf d /\ r0 = r /\ rs0 = rs)
            \/ (rid0 ≠ roomIdOf d /\ rooms w !! rid0 = Some r0 /\ roomHeap w !! r0 = Some rs0)).
  { intros rid0 r0 rs0. rewrite Er, Eh.
    destruct (decide (rid0 = roomIdOf d)) as [->|Hner].
    - rewrite lookup_insert_eq. intros [= <-]. rewrite lookup_insert_eq. intros [= <-].
      by left.
    - rewrite lookup_insert_ne by done. intros Hreg.
      destruct (Hwf rid0 r0 Hreg) as (rs1 & Hrs1 & _).
      rewrite lookup_insert_ne by (intros <-; congruence). intros Hrs0. by right. }
  split; [|split; [split; [|split]|]].
  - intros rid0 r0 rs0 Hreg Hrs0.
    destruct (Hback _ _ _ Hreg Hrs0) as [(_ & _ & ->)|(_ & Hreg0 & Hh0)]; [done|].
    by eapply Hros.
  - intros rid0 r0 rs0 Hreg Hrs0. rewrite Ed.
    destruct (Hback _ _ _ Hreg Hrs0) as [(_ & _ & ->)|(Hner & Hreg0 & Hh0)].
    + by rewrite Hid, Hdoc, lookup_insert_eq.
    + rewrite lookup_insert_ne; [by eapply S1|].
      intros E. apply Hner. destruct (Hwf rid0 r0 Hreg0) as (rs1 & Hrs1 & ->).
      rewrite Hh0 in Hrs1. injection Hrs1 as <-. by rewrite E.
  - intros d0 l0. rewrite Ed, Er. destruct (decide (d0 = d)) as [->|Hned].
    + rewrite !lookup_insert_eq. intros [= <-]. split; [done|].
      by destruct (docHeap w' !! l).
    + rewrite lookup_insert_ne by done. intros Hl0. destruct (S2 d0 l0 Hl0) as [H1 H2].
      split; [|by apply Hdh].
      rewrite lookup_insert_ne; [done|]. by intros ?%roomIdOf_inj.
  - intros d1 d2 l0. rewrite Ed.
    destruct (decide (d1 = d)) as [->|H1], (decide (d2 = d)) as [->|H2]; [done|..].
    + rewrite lookup_insert_eq, lookup_insert_ne by done. intros [= <-] H.
      destruct (S2 d2 l H) as [_ [? ?]]. congruence.
    + rewrite lookup_insert_eq, lookup_insert_ne by done. intros H [= <-].
      destruct (S2 d1 l H) as [_ [? ?]]. congruence.
    + rewrite !lookup_insert_ne by done. apply S3.
  - intros uid sockets. rewrite Eu. apply Htr.
Qed.

(** Rooms, document store and tracking as before; every room object keeps
    its document and does not lose its last member. *)
Lemma rest_inv_same (w w' : World) :
  rooms w' = rooms w -> documents w' = documents w -> userSockets w' = userSockets w ->
  (forall l, is_Some (docHeap w !! l) -> is_Some (docHeap w' !! l)) ->
  (forall r rs', roomHeap w' !! r = Some rs' ->
     exists rs, roomHeap w !! r = Some rs /\ documentId rs' = documentId rs
       /\ document rs' = document rs /\ (users rs ≠ ∅ -> users rs' ≠ ∅)) ->
  rest_inv w -> rest_inv w'.
Proof.
  intros Hr Hd Hu Hdh Hh (Hros & (S1 & S2 & S3) & Htr).
  split; [|split; [split; [|split]|]].
  - intros rid r rs' Hrid Hrs'. rewrite Hr in Hrid.
    destruct (Hh r rs' Hrs') as (rs & Hrs & _ & _ & Hne). apply Hne. by eapply Hros.
  - intros rid r rs' Hrid Hrs'. rewrite Hr in Hrid.
    destruct (Hh r rs' Hrs') as (rs & Hrs & Hid & Hdoc & _).
    rewrite Hd, Hid, Hdoc. by eapply S1.
  - intros d l Hl. rewrite Hd in Hl. destruct (S2 d l Hl) as [H1 H2].
    rewrite Hr. split; [done|by apply Hdh].
  - intros d1 d2 l. rewrite Hd. apply S3.
  - intros uid sockets. rewrite Hu. apply Htr.
Qed.

Lemma access_of_cases (dbs : Db) (uid d : string) :
  access_of dbs uid d = (false, None)
  \/ exists role, access_of dbs uid d = (true, Some role).
Proof.
  unfold access_of. destruct (tbl_document dbs !! d) as [row|]; [|by left].
  destruct (decide _); [by right; eexists|].
  destruct (tbl_collaborator dbs !! _); [by right; eexists|].
  destruct (doc_isPublic row); [by right; eexists|by left].
Qed.

(** The state after a join of a room that is there. *)
Definition joined_existing (wl : World) (socket : AuthenticatedSocket) (d : string)
    (role : Role) (r : loc) (rs : RoomState) (yd : YDoc) (row : DocumentRow) : World :=
  sent (user_joined wl socket (roomIdOf d) role)
    (sent (room_joined socket d row yd
             (<[userId socket := roomUser_of socket role]> (users rs)) role)
       (with_roomHeap (alter (with_users <[userId socket := roomUser_of socket role]>) r)
          (entered wl socket (roomIdOf d)))).

(** The state after a join that built the room from the durable store. *)
Definition joined_fresh (wl : World) (socket : AuthenticatedSocket) (d : string)
    (role : Role) (row : DocumentRow) (yd : YDoc) : World :=
  sent (user_joined wl socket (roomIdOf d) role)
    (sent (room_joined socket d row yd {[ userId socket := roomUser_of socket role ]} role)
       (with_roomHeap
          <[fresh (dom (roomHeap wl)) :=
              fresh_room wl socket d role (fresh (dom (docHeap wl)))]>
          (with_rooms <[roomIdOf d := fresh (dom (roomHeap wl))]>
             (with_documents <[d := fresh (dom (docHeap wl))]>
                (with_docHeap <[fresh (dom (docHeap wl)) := yd]>
                   (entered wl socket (roomIdOf d))))))).

Lemma leave_keeps_rows (w wl : World) (socket : AuthenticatedSocket) (k : string) :
  handleLeaveRoom socket w = (Normal tt, wl) ->
  is_Some (tbl_document (db w) !! k) -> is_Some (tbl_document (db wl) !! k).
Proof.
  intros [->|(rid & r & rs & _ & _ & _ & Hh & ->)]%leave_normal_cases; [done|].
  destruct (after_leave_frame w socket rid r rs Hh) as (_ & _ & _ & Frows & _).
  apply Frows.
Qed.

(** Every way a join can go, from a state of the invariant. *)
Lemma join_result (w : World) (socket : AuthenticatedSocket) (payload : JoinRoomPayload) :
  server_inv w ->
  let d := jr_documentId payload in
  (access_of (db w) (userId socket) d = (false, None)
   /\ handleJoinRoom socket payload w
      = (Normal tt, sent (error_to socket "Access denied to this document") w))
  \/ exists role wl row,
       access_of (db w) (userId socket) d = (true, Some role)
       /\ handleLeaveRoom socket w = (Normal tt, wl)
       /\ server_inv wl
       /\ tbl_document (db wl) !! d = Some row
       /\ ((exists r rs yd,
              rooms wl !! roomIdOf d = Some r /\ roomHeap wl !! r = Some rs
              /\ docHeap wl !! document rs = Some yd
              /\ handleJoinRoom socket payload w
                 = (Normal tt, joined_existing wl socket d role r rs yd row))
           \/ (rooms wl !! roomIdOf d = None /\ documents wl !! d = None
               /\ exists yd, loaded (doc_content row) = Some yd
                    /\ handleJoinRoom socket payload w
                       = (Normal tt, joined_fresh wl socket d role row yd))
           \/ (rooms wl !! roomIdOf d = None /\ documents wl !! d = None
               /\ loaded (doc_content row) = None
               /\ handleJoinRoom socket payload w
                  = (Normal tt, sent (error_to socket "Failed to join room")
                                  (entered wl socket (roomIdOf d))))).
Proof.
  intros Hinv d.
  rewrite handleJoinRoom_steps. fold d. unfold try_catch. cbv [mbind M_bind bind].
  rewrite checkDocumentAccess_result.
  destruct (access_of_cases (db w) (userId socket) d) as [E|(role & E)]; rewrite E.
  { left. done. }
  right. destruct (server_inv_leave w socket Hinv) as (wl & El & Hinvl).
  pose proof (leave_keeps_rows w wl socket d El (access_granted_row _ _ _ _ E)) as [row Hrow].
  exists role, wl, row. rewrite El.
  split; [done|]. split; [done|]. split; [done|]. split; [done|].
  destruct Hinvl as ((Hrwf & _) & _ & (S1 & S2 & _) & _).
  destruct (rooms wl !! roomIdOf d) as [r|] eqn:Hr.
  - left. destruct (Hrwf _ _ Hr) as (rs & Hrs & _).
    destruct (S2 _ _ (S1 _ _ _ Hr Hrs)) as [_ [yd Hyd]].
    exists r, rs, yd. split; [done|]. split; [done|]. split; [done|].
    by rewrite (join_rest_existing wl socket d role r rs yd row).
  - right.
    assert (Hdoc : documents wl !! d = None).
    { destruct (documents wl !! d) as [l|] eqn:Hl; [|done].
      destruct (S2 _ _ Hl) as [[r Hr'] _]. congruence. }
    destruct (loaded (doc_content row)) as [yd|] eqn:Hload.
    + left. split; [done|]. split; [done|]. exists yd. split; [done|].
      by rewrite (join_rest_fresh wl socket d role row yd).
    + right. split; [done|]. split; [done|]. split; [done|].
      by rewrite (join_rest_load_failure wl socket d role row).
Qed.

Lemma server_inv_join (w : World) (socket : AuthenticatedSocket) (payload : JoinRoomPayload) :
  server_inv w -> server_inv (exec (handleJoinRoom socket payload) w).
Proof.
  intros Hinv. split; [apply server_wf_join, Hinv|].
  destruct (join_result w socket payload Hinv)
    as [[_ E]|(role & wl & row & _ & _ & Hinvl & Hrow &
               [(r & rs & yd & Hr & Hrs & Hyd & E)
               |[(Hr & Hdoc & yd & Hload & E)|(Hr & Hdoc & Hload & E)]])];
    unfold exec; rewrite E; cbn [snd].
  - apply (rest_inv_keeps w); [by apply keeps_membership_fields|done|apply Hinv].
  - apply (rest_inv_same wl); try done; [|apply Hinvl].
    intros r0 rs'. unfold joined_existing, entered. wsimpl.
    destruct (decide (r0 = r)) as [->|Hne].
    + rewrite lookup_alter_eq, Hrs. intros [= <-]. exists rs.
      repeat split; try done. intros _. cbn [with_users users].
      apply insert_non_empty.
    + rewrite lookup_alter_ne by done. intros Hrs'. by exists rs'.
  - destruct Hinvl as ((Hrwf & _) & Hrest).
    set (w' := joined_fresh wl socket (jr_documentId payload) role row yd).
    assert (Er : rooms w' = <[roomIdOf (jr_documentId payload) := fresh (dom (roomHeap wl))]>
                              (rooms wl)) by reflexivity.
    assert (Eh : roomHeap w'
                 = <[fresh (dom (roomHeap wl)) :=
                       fresh_room wl socket (jr_documentId payload) role
                         (fresh (dom (docHeap wl)))]> (roomHeap wl)) by reflexivity.
    assert (Ed : documents w' = <[jr_documentId payload := fresh (dom (docHeap wl))]>
                                  (documents wl)) by reflexivity.
    assert (Eu : userSockets w' = userSockets wl) by reflexivity.
    refine (rest_inv_new_room wl w' (jr_documentId payload)
              (fresh (dom (roomHeap wl) : gset loc)) (fresh (dom (docHeap wl) : gset loc))
              (fresh_room wl socket (jr_documentId payload) role (fresh (dom (docHeap wl))))
              Hrwf Hrest Hr Hdoc _ _ eq_refl eq_refl _ Er Eh Ed _ _ Eu).
    + apply not_elem_of_dom, is_fresh.
    + apply not_elem_of_dom, is_fresh.
    + cbn [fresh_room users]. apply insert_non_empty.
    + subst w'. unfold joined_fresh. wsimpl. by rewrite lookup_insert_eq.
    + intros l0 Hl0. subst w'. unfold joined_fresh, entered. wsimpl.
      destruct (decide (l0 = fresh (dom (docHeap wl)))) as [->|Hne];
        [by rewrite lookup_insert_eq|by rewrite lookup_insert_ne].
  - apply (rest_inv_same wl); try done; [|apply Hinvl].
    intros r0 rs' Hrs'. by exists rs'.
Qed.

Lemma server_inv_step (ti : Z * Input) (w : World) : server_inv w -> server_inv (step ti w).
Proof.
  intros Hinv. split; [apply server_wf_step, Hinv|].
  unfold step.
  assert (Hinvt : server_inv (with_clock (fun _ => ti.1) w)).
  { split; [by apply (server_wf_fields w); [..|apply Hinv]|].
    apply (rest_inv_keeps w); [by apply keeps_membership_fields|done|apply Hinv]. }
  set (wt := with_clock (fun _ => ti.1) w) in *.
  destruct ti as [t [socket|socket payload|socket|socket payload|socket payload
                    |socket payload|socket|socket|h]]; cbn [snd dispatch].
  - apply (rest_inv_tracking wt); [apply track_keeps_membership| |apply Hinvt].
    apply track_tracking_wf, Hinvt.
  - apply server_inv_join, Hinvt.
  - destruct (server_inv_leave wt socket Hinvt) as (wl & E & Hinvl).
    unfold exec. rewrite E. apply Hinvl.
  - destruct (update_keeps_membership wt socket payload) as (Hk & _ & Hu).
    by apply (rest_inv_keeps wt); [..|apply Hinvt].
  - destruct (cursor_keeps_membership wt socket payload) as (Hk & _ & Hu & _).
    by apply (rest_inv_keeps wt); [..|apply Hinvt].
  - destruct (typing_keeps_membership wt socket payload) as (Hk & _ & Hu & _).
    by apply (rest_inv_keeps wt); [..|apply Hinvt].
  - destruct (sync_keeps_membership wt socket) as (Hk & _ & Hu & _).
    by apply (rest_inv_keeps wt); [..|apply Hinvt].
  - unfold exec, handleDisconnect. cbv [mbind M_bind bind].
    destruct (untrack_result wt (userId socket) (sock_id socket)) as (us & E & _).
    rewrite E.
    assert (Hinvu : server_inv (with_userSockets (fun _ => us) wt)).
    { assert (Eu : with_userSockets (fun _ => us) wt
                   = exec (untrackUserSocket (userId socket) (sock_id socket)) wt).
      { unfold exec. by rewrite E. }
      split; [by apply (server_wf_fields wt); [..|apply Hinvt]|].
      rewrite Eu. apply (rest_inv_tracking wt); [apply untrack_keeps_membership| |apply Hinvt].
      apply untrack_tracking_wf, Hinvt. }
    destruct (server_inv_leave _ socket Hinvu) as (wl & El & Hinvl).
    rewrite El. apply Hinvl.
  - unfold exec. rewrite fireTimer_result. cbn [snd].
    apply (rest_inv_keeps wt); [apply fire_result_keeps_membership| |apply Hinvt].
    unfold fire_result. destruct (timers wt !! h) as [tm|]; [|done].
    destruct (decide _); [|done].
    by destruct (save_result_frame (with_timers (delete h) wt) (target tm)) as (_ & -> & _).
Qed.

Lemma server_inv_run (inputs : list (Z * Input)) (w : World) :
  server_inv w -> server_inv (run inputs w).
Proof.
  revert w. induction inputs as [|ti inputs IH]; intros w Hinv; [done|].
  apply IH. by apply server_inv_step.
Qed.

Lemma server_inv_constructed (w : World) : constructed w -> server_inv w.
Proof.
  intros (Hr & Hu & _ & Hd & Ht).
  split; [by apply server_wf_initial|].
  split; [|split; [split; [|split]|]].
  - intros rid r rs. by rewrite Hr, lookup_empty.
  - intros rid r rs. by rewrite Hr, lookup_empty.
  - intros d l. by rewrite Hd, lookup_empty.
  - intros d1 d2 l. by rewrite Hd, lookup_empty.
  - intros uid sockets. by rewrite Hu, lookup_empty.
Qed.

(** *** The invariant, read on the timers and the document store *)

(** X3: whatever inputs a server has taken since it was constructed, every
    pending save timer is the one that the room object it saves holds in
    [saveTimeout], so no room object has two pending save timers:
    [scheduleSave] clears the timer the room holds before it sets one. *)
Theorem one_pending_save_per_room
    (w : World) (inputs : list (Z * Input)) (h : handle) (tm : Timer) :
  constructed w ->
  timers (run inputs w) !! h = Some tm ->
  let w' := run inputs w in
  (exists rs, roomHeap w' !! target tm = Some rs /\ saveTimeout rs = Some h)
  /\ forall h' tm', timers w' !! h' = Some tm' -> target tm' = target tm -> h' = h.
Proof.
  intros Hc Htm w'.
  pose proof (server_inv_run inputs w (server_inv_constructed w Hc)) as ((_ & Htwf) & _).
  fold w' in Htm, Htwf.
  destruct (Htwf h tm Htm) as (_ & rs & Hreg & Hrs & Hto).
  split; [by exists rs|].
  intros h' tm' Htm' Htgt.
  destruct (Htwf h' tm' Htm') as (_ & rs' & _ & Hrs' & Hto').
  rewrite Htgt, Hrs in Hrs'. injection Hrs' as <-. congruence.
Qed.

(** X4: whatever inputs a server has taken since it was constructed, the
    document store has an entry for a document exactly when the document
    has a registered room, and then the entry is the document object of
    that room, which is live. *)
Theorem documentStore_follows_rooms (w : World) (inputs : list (Z * Input)) (d : string) :
  constructed w ->
  let w' := run inputs w in
  exists b,
    documentStore_has d w' = (Normal b, w')
    /\ (b = true <-> is_Some (rooms w' !! roomIdOf d))
    /\ forall r rs, rooms w' !! roomIdOf d = Some r -> roomHeap w' !! r = Some rs ->
         documentStore_get d w' = (Normal (Some (document rs)), w')
         /\ is_Some (docHeap w' !! document rs).
Proof.
  intros Hc w'.
  pose proof (server_inv_run inputs w (server_inv_constructed w Hc))
    as ((Hrwf & _) & _ & (S1 & S2 & _) & _).
  fold w' in Hrwf, S1, S2.
  eexists. split; [reflexivity|]. split.
  - rewrite bool_decide_eq_true. split.
    + intros [l Hl]. by destruct (S2 _ _ Hl).
    + intros [r Hr]. destruct (Hrwf _ _ Hr) as (rs & Hrs & Hrid).
      apply roomIdOf_inj in Hrid as ->. by rewrite (S1 _ _ _ Hr Hrs).
  - intros r rs Hr Hrs. destruct (Hrwf _ _ Hr) as (rs' & Hrs' & Hrid).
    rewrite Hrs in Hrs'. injection Hrs' as <-. apply roomIdOf_inj in Hrid as ->.
    pose proof (S1 _ _ _ Hr Hrs) as Hdoc.
    split; [|by destruct (S2 _ _ Hdoc)].
    unfold documentStore_get. mred. by rewrite Hdoc.
Qed.

(** *** Rooms are separate *)

(** X5: an update submitted to one room, whatever becomes of it (refused,
    applied and broadcast, or rejected by the engine), leaves every other
    registered room as it was: its room object and its document are
    untouched. *)
Theorem update_leaves_other_rooms_alone
    (w : World) (socket : AuthenticatedSocket) (payload : UpdateOperationPayload)
    (rid2 : string) (r2 : loc) (rs2 : RoomState) :
  server_inv w ->
  rooms w !! rid2 = Some r2 -> roomHeap w !! r2 = Some rs2 ->
  socketToRoom w !! sock_id socket ≠ Some rid2 ->
  let w' := exec (handleUpdateOperation socket payload) w in
  rooms w' !! rid2 = Some r2
  /\ roomHeap w' !! r2 = Some rs2
  /\ docHeap w' !! document rs2 = docHeap w !! document rs2.
Proof.
  intros ((Hrwf & _) & _ & (S1 & _ & S3) & _) Hr2 Hrs2 Hother w'. subst w'.
  assert (Hsame : forall c, handleUpdateOperation socket payload w = (c, w) ->
    rooms (exec (handleUpdateOperation socket payload) w) !! rid2 = Some r2
    /\ roomHeap (exec (handleUpdateOperation socket payload) w) !! r2 = Some rs2
    /\ docHeap (exec (handleUpdateOperation socket payload) w) !! document rs2
       = docHeap w !! document rs2).
  { intros c E. unfold exec. by rewrite E. }
  destruct (socketToRoom w !! sock_id socket) as [rid|] eqn:Hs.
  2:{ apply (Hsame (Normal tt)). unfold handleUpdateOperation. mred. by rewrite Hs. }
  destruct (decide (rid = "")) as [->|Hne].
  { apply (Hsame (Normal tt)). unfold handleUpdateOperation. mred. by rewrite Hs. }
  destruct (rooms w !! rid) as [r|] eqn:Hr.
  2:{ apply (Hsame (Normal tt)). unfold handleUpdateOperation. mred. rewrite Hs.
      destruct (decide (rid = "")); [done|]. by rewrite Hr. }
  destruct (Hrwf _ _ Hr) as (rs & Hrs & Hrid).
  assert (Hr_ne : r ≠ r2).
  { intros ->. apply Hother. f_equal. by apply (rooms_wf_inj w _ _ r2). }
  assert (Hd_ne : document rs ≠ document rs2).
  { intros E. apply Hother. f_equal.
    destruct (Hrwf _ _ Hr2) as (rs2' & Hrs2' & ->). rewrite Hrs2 in Hrs2'.
    injection Hrs2' as <-. rewrite Hrid. f_equal.
    apply (S3 _ _ (document rs)); [exact (S1 _ _ _ Hr Hrs)|].
    rewrite E. exact (S1 _ _ _ Hr2 Hrs2). }
  unfold exec, handleUpdateOperation, readRoom, applyUpdate, readDoc, socket_to_emit, emit,
    scheduleSave, readRoom, setTimeout, clearTimeout, modRoom, socket_emit, emit.
  mred. rewrite Hs. destruct (decide (rid = "")); [done|]. rewrite Hr, Hrs. cbv beta.
  destruct (decide _) as [Hv|Hv]; [by wsimpl|].
  destruct (docHeap w !! document rs) as [yd|] eqn:Hyd; [|by wsimpl].
  destruct (Y_applyUpdate yd (arrayToUint8Array (up_update payload))) as [yd'|yd'].
  - wsimpl. rewrite Hrs. cbv beta.
    destruct (saveTimeout rs) as [h|]; wsimpl;
      rewrite lookup_alter_ne, lookup_insert_ne by done; done.
  - wsimpl. by rewrite lookup_insert_ne.
Qed.

(** *** Socket tracking *)

(** X6: a socket that connects and disconnects at once leaves the server
    exactly as it was, when it is a new socket: not tracked for its user and
    not in a room. *)
Theorem connect_then_disconnect_restores_state (w : World) (socket : AuthenticatedSocket) :
  tracking_wf w ->
  sock_id socket ∉ default ∅ (userSockets w !! userId socket) ->
  socketToRoom w !! sock_id socket = None ->
  exec (handleDisconnect socket)
    (exec (trackUserSocket (userId socket) (sock_id socket)) w) = w.
Proof.
  intros Htr Hnew Hs.
  unfold exec, handleDisconnect, trackUserSocket, untrackUserSocket, handleLeaveRoom.
  mred.
  destruct (userSockets w !! userId socket) as [sockets|] eqn:E; wsimpl;
    rewrite lookup_insert_eq; cbv zeta.
  - assert (Hs' : (sockets ∪ {[sock_id socket]}) ∖ {[sock_id socket]} = sockets).
    { apply set_eq. intros x.
      rewrite elem_of_difference, elem_of_union, !elem_of_singleton.
      split; [by intros [[?|?] ?]|].
      intros Hx. split; [by left|]. intros ->. cbn in Hnew. done. }
    rewrite Hs'.
    destruct (decide (size sockets = 0%nat)) as [He|Hne].
    { apply size_empty_inv in He. exfalso. apply (Htr _ _ E). by apply leibniz_equiv. }
    wsimpl. rewrite Hs. cbn [snd]. world_eq.
    rewrite insert_insert_eq. by apply insert_id.
  - assert (Hs' : ({[sock_id socket]} : gset string) ∖ {[sock_id socket]} = ∅).
    { apply set_eq. intros x. rewrite elem_of_difference, elem_of_singleton.
      split; [by intros [? ?]|by intros ?%not_elem_of_empty]. }
    rewrite Hs', size_empty.
    destruct (decide (0%nat = 0%nat)) as [_|?]; [|done].
    wsimpl. rewrite Hs. cbn [snd]. world_eq.
    rewrite delete_insert_eq. by apply delete_id.
Qed.

(** X7: after a disconnect the socket is tracked for nobody it was tracked
    for, and the tracking of the other users is untouched.  It is unmapped
    from its room when that room is registered; a mapping to a room that
    is not registered stays in [socketToRoom]. *)
Theorem disconnect_forgets_socket (w : World) (socket : AuthenticatedSocket) :
  server_wf w ->
  let w' := exec (handleDisconnect socket) w in
  (sock_id socket ∉ default ∅ (userSockets w' !! userId socket))
  /\ (forall uid, uid ≠ userId socket -> userSockets w' !! uid = userSockets w !! uid)
  /\ (forall rid, socketToRoom w !! sock_id socket = Some rid -> rid ≠ "" ->
        (is_Some (rooms w !! rid) -> socketToRoom w' !! sock_id socket = None)
        /\ (rooms w !! rid = None -> socketToRoom w' !! sock_id socket = Some rid)).
Proof.
  intros Hwf w'. subst w'.
  unfold exec, handleDisconnect. cbv [mbind M_bind bind].
  assert (Hu : exists us,
    untrackUserSocket (userId socket) (sock_id socket) w
    = (Normal tt, with_userSockets (fun _ => us) w)
    /\ (sock_id socket ∉ default ∅ (us !! userId socket))
    /\ forall uid, uid ≠ userId socket -> us !! uid = userSockets w !! uid).
  { unfold untrackUserSocket. mred.
    destruct (userSockets w !! userId socket) as [sockets|] eqn:E.
    - destruct (decide (size (sockets ∖ {[sock_id socket]}) = 0%nat)) as [He|Hne].
      + exists (delete (userId socket) (userSockets w)). split; [done|].
        rewrite lookup_delete_eq. split; [apply not_elem_of_empty|].
        intros uid Hne. by rewrite lookup_delete_ne.
      + exists (<[userId socket := sockets ∖ {[sock_id socket]}]> (userSockets w)).
        split; [done|]. rewrite lookup_insert_eq. split.
        * cbn. rewrite elem_of_difference, elem_of_singleton. by intros [_ ?].
        * intros uid Hne'. by rewrite lookup_insert_ne.
    - exists (userSockets w). split; [by rewrite with_userSockets_id|].
      rewrite E. split; [apply not_elem_of_empty|done]. }
  destruct Hu as (us & Eu & Hgone & Hothers). rewrite Eu.
  set (wu := with_userSockets (fun _ => us) w).
  assert (Hwfu : server_wf wu) by (by apply (server_wf_fields w)).
  destruct (server_wf_leave wu socket Hwfu) as (wl & El & _). rewrite El. cbn [snd].
  destruct (leave_normal_cases wu wl socket El)
    as [->|(rid & r & rs & Hne & Hs & Hr & Hh & ->)].
  - split; [done|]. split; [done|].
    intros rid Hs Hne. split; [|done].
    intros [r Hr]. exfalso.
    destruct (proj1 Hwf _ _ Hr) as (rs & Hrs & _).
    pose proof (leave_resident_at wu socket rid r rs Hne Hs Hr Hrs) as El'.
    rewrite El in El'. injection El' as El'.
    apply (f_equal (fun x => socketToRoom x !! sock_id socket)) in El'.
    destruct (after_leave_shape wu socket rid r rs Hrs) as (_ & Fs & _).
    rewrite Fs, lookup_delete_eq in El'. change (socketToRoom wu) with (socketToRoom w) in El'.
    congruence.
  - destruct (after_leave_shape wu socket rid r rs Hh) as (Fus & Fs & _).
    rewrite Fus, Fs. split; [done|]. split; [done|].
    intros rid' Hs' Hne'. change (socketToRoom wu) with (socketToRoom w) in Hs.
    rewrite Hs in Hs'. injection Hs' as <-.
    split; [by rewrite lookup_delete_eq|].
    change (rooms wu) with (rooms w) in Hr. congruence.
Qed.

(** *** Saving *)

(** X8: [saveDocument] never throws.  When the row of the document is not
    in the durable store, the failed update is swallowed and nothing at all
    happens: no operation or snapshot record, the time of the last save is
    not advanced, DOCUMENT_SAVED is not emitted. *)
Theorem saveDocument_swallows_missing_row (w : World) (r : loc) :
  (exists w', saveDocument r w = (Normal tt, w'))
  /\ forall rs, roomHeap w !! r = Some rs ->
       tbl_document (db w) !! documentId rs = None ->
       saveDocument r w = (Normal tt, w).
Proof.
  rewrite saveDocument_result. split; [by eexists|].
  intros rs Hrs Hrow. unfold save_result. rewrite Hrs.
  destruct (docHeap w !! document rs); [|done]. by rewrite Hrow.
Qed.

(** *** Leaving twice *)

(** X9: leaving is idempotent: a second leave right after the first changes
    nothing more, in whatever state the first one was issued. *)
Theorem leave_twice_is_leave_once (w : World) (socket : AuthenticatedSocket) :
  exec (handleLeaveRoom socket) (exec (handleLeaveRoom socket) w)
  = exec (handleLeaveRoom socket) w.
Proof.
  assert (Hnoop : forall w0 : World, socketToRoom w0 !! sock_id socket = None ->
            exec (handleLeaveRoom socket) w0 = w0).
  { intros w0 E. unfold exec, handleLeaveRoom. mred. by rewrite E. }
  assert (Hsame : handleLeaveRoom socket w = (Normal tt, w) ->
    exec (handleLeaveRoom socket) (exec (handleLeaveRoom socket) w)
    = exec (handleLeaveRoom socket) w).
  { intros E. assert (E' : exec (handleLeaveRoom socket) w = w)
      by (unfold exec; by rewrite E).
    by rewrite !E'. }
  destruct (socketToRoom w !! sock_id socket) as [rid|] eqn:Hs.
  2:{ apply Hsame. unfold handleLeaveRoom. mred. by rewrite Hs. }
  destruct (decide (rid = "")) as [->|Hne].
  { apply Hsame. unfold handleLeaveRoom. mred. by rewrite Hs. }
  destruct (rooms w !! rid) as [r|] eqn:Hr.
  2:{ apply Hsame. unfold handleLeaveRoom. mred. rewrite Hs.
      destruct (decide (rid = "")); [done|]. by rewrite Hr. }
  apply Hnoop.
  destruct (roomHeap w !! r) as [rs|] eqn:Hh.
  - unfold exec. rewrite (leave_resident_at w socket rid r rs) by done. cbn [snd].
    destruct (after_leave_shape w socket rid r rs Hh) as (_ & Fs & _).
    by rewrite Fs, lookup_delete_eq.
  - unfold exec, handleLeaveRoom, modRoom, socket_to_emit, emit, socket_leave, readRoom.
    mred. rewrite Hs. destruct (decide (rid = "")); [done|]. rewrite Hr.
    destruct (decide (length (userSocketsInRoom w socket rid) = 0%nat)); wsimpl;
      rewrite ?lookup_alter_eq, Hh; cbn [fmap option_fmap option_map]; wsimpl;
      by rewrite lookup_delete_eq.
Qed.

(** *** What the server writes to the durable store *)

Lemma leave_db (w wl : World) (socket : AuthenticatedSocket) :
  handleLeaveRoom socket w = (Normal tt, wl) ->
  db wl = db w
  \/ exists d state lastSave row,
       tbl_document (db w) !! d = Some row
       /\ db wl = saved_db (db w) d state (clock w) lastSave row.
Proof.
  intros [->|(rid & r & rs & _ & _ & _ & Hh & ->)]%leave_normal_cases; [by left|].
  destruct (after_leave_shape w socket rid r rs Hh)
    as (_ & _ & _ & _ & _ & _ & _ & _ & _ & _ & _ & [E|(_ & yd & row & _ & Hrow & E)]).
  - by left.
  - right. by eexists _, _, _, row.
Qed.

Lemma server_inv_clock (w : World) (t : Z) :
  server_inv w -> server_inv (with_clock (fun _ => t) w).
Proof.
  intros Hinv. split; [by apply (server_wf_fields w); [..|apply Hinv]|].
  apply (rest_inv_keeps w); [by apply keeps_membership_fields|done|apply Hinv].
Qed.

(** One input writes the durable store at most once, and then as one save
    of one document whose row exists. *)
Lemma dispatch_db (i : Input) (w : World) :
  server_inv w ->
  db (exec (dispatch i) w) = db w
  \/ exists d state lastSave row,
       tbl_document (db w) !! d = Some row
       /\ db (exec (dispatch i) w) = saved_db (db w) d state (clock w) lastSave row.
Proof.
  intros Hinv.
  destruct i as [socket|socket payload|socket|socket payload|socket payload
                |socket payload|socket|socket|h]; cbn [dispatch].
  - left. apply track_keeps_membership.
  - destruct (join_result w socket payload Hinv)
      as [[_ E]|(role & wl & row & _ & El & _ & _ &
                 [(r & rs & yd & _ & _ & _ & E)
                 |[(_ & _ & yd & _ & E)|(_ & _ & _ & E)]])];
      unfold exec; rewrite E; cbn [snd]; [by left|..];
      exact (leave_db w wl socket El).
  - destruct (server_inv_leave w socket Hinv) as (wl & El & _).
    unfold exec. rewrite El. exact (leave_db w wl socket El).
  - left. apply update_keeps_membership.
  - left. apply cursor_keeps_membership.
  - left. apply typing_keeps_membership.
  - left. apply sync_keeps_membership.
  - unfold exec, handleDisconnect. cbv [mbind M_bind bind].
    destruct (untrack_result w (userId socket) (sock_id socket)) as (us & E & _).
    rewrite E.
    assert (Hwfu : server_wf (with_userSockets (fun _ => us) w))
      by (by apply (server_wf_fields w); [..|apply Hinv]).
    destruct (server_wf_leave _ socket Hwfu) as (wl & El & _). rewrite El.
    exact (leave_db _ wl socket El).
  - unfold exec. rewrite fireTimer_result. cbn [snd]. unfold fire_result.
    destruct (timers w !! h) as [tm|]; [|by left].
    destruct (decide _); [|by left].
    destruct (save_result_db (with_timers (delete h) w) (target tm))
      as [E|(rs & yd & row & _ & _ & Hrow & E)]; [by left|].
    right. by eexists _, _, _, row.
Qed.

Lemma step_db (ti : Z * Input) (w : World) :
  server_inv w ->
  db (step ti w) = db w
  \/ exists d state lastSave row,
       tbl_document (db w) !! d = Some row
       /\ db (step ti w) = saved_db (db w) d state ti.1 lastSave row.
Proof.
  intros Hinv. unfold step.
  exact (dispatch_db ti.2 _ (server_inv_clock w ti.1 Hinv)).
Qed.

Lemma saved_db_access (dbs : Db) (d0 : string) (state : Uint8Array) (now lastSave : Z)
    (row : DocumentRow) (uid d : string) :
  access_of (saved_db dbs d0 state now lastSave row) uid d = access_of dbs uid d.
Proof.
  unfold access_of, saved_db. cbn [tbl_document tbl_collaborator].
  rewrite lookup_alter. destruct (decide (d0 = d)) as [->|Hne]; [|done].
  by destruct (tbl_document dbs !! d).
Qed.

(** X10: the collaboration server never changes who may access a document:
    whatever inputs it takes, [checkDocumentAccess] answers for every user
    and document as it did before. *)
Theorem server_never_changes_access
    (w : World) (inputs : list (Z * Input)) (uid d : string) :
  server_inv w ->
  (checkDocumentAccess uid d (run inputs w)).1 = (checkDocumentAccess uid d w).1.
Proof.
  rewrite !checkDocumentAccess_result. cbn [fst]. intros Hinv. f_equal.
  revert w Hinv. induction inputs as [|ti inputs IH]; intros w Hinv; [done|].
  cbn [run foldl]. change (foldl _ (step ti w) inputs) with (run inputs (step ti w)).
  rewrite IH by (by apply server_inv_step).
  destruct (step_db ti w Hinv) as [->|(d0 & state & lastSave & row & _ & ->)]; [done|].
  apply saved_db_access.
Qed.

(** What one input adds to the operation log and does to the row of [d]. *)
Lemma step_log (ti : Z * Input) (w : World) (d : string) (row0 : DocumentRow) :
  server_inv w ->
  tbl_document (db w) !! d = Some row0 ->
  (tbl_operation (db (step ti w)) = tbl_operation (db w)
   /\ tbl_document (db (step ti w)) !! d = Some row0)
  \/ (exists o, tbl_operation (db (step ti w)) = (tbl_operation (db w) ++ [o])%list
        /\ op_documentId o ≠ d /\ op_userId o = "system"
        /\ tbl_document (db (step ti w)) !! d = Some row0)
  \/ (exists o row, tbl_operation (db (step ti w)) = (tbl_operation (db w) ++ [o])%list
        /\ op_documentId o = d /\ op_userId o = "system"
        /\ op_version o = doc_version row0 + 1
        /\ tbl_document (db (step ti w)) !! d = Some row
        /\ doc_version row = doc_version row0 + 1
        /\ doc_content row = Some (op_data o)).
Proof.
  intros Hinv Hrow0.
  destruct (step_db ti w Hinv) as [->|(d0 & state & lastSave & row & Hrow & ->)];
    [by left|].
  right. unfold saved_db. cbn [tbl_operation tbl_document].
  destruct (decide (d0 = d)) as [->|Hne].
  - right. rewrite Hrow0 in Hrow. injection Hrow as <-.
    eexists _, _. split; [reflexivity|]. cbn [op_documentId op_userId op_version op_data].
    rewrite lookup_alter_eq, Hrow0. cbn [fmap option_fmap option_map].
    repeat split; reflexivity.
  - left. eexists. split; [reflexivity|]. cbn [op_documentId op_userId].
    by rewrite lookup_alter_ne.
Qed.

(** The operation log when the inputs are taken one after the other: it
    only grows, by records of the user "system"; the records added for a
    document carry, in order, the versions that follow the version its row
    had, one by one, up to the version the row has now; and when there is
    one, the content of the row is the data of the last. *)
Lemma operation_log_of_run
    (w : World) (inputs : list (Z * Input)) (d : string) (row0 : DocumentRow) :
  server_inv w ->
  tbl_document (db w) !! d = Some row0 ->
  let w' := run inputs w in
  exists ops row,
    tbl_operation (db w') = (tbl_operation (db w) ++ ops)%list
    /\ (forall o, o ∈ ops -> op_userId o = "system")
    /\ tbl_document (db w') !! d = Some row
    /\ doc_version row = doc_version row0 + Z.of_nat (length (operations_of d ops))
    /\ op_version <$> operations_of d ops
       = seqZ (doc_version row0 + 1) (Z.of_nat (length (operations_of d ops)))
    /\ match last (operations_of d ops) with
       | Some o => doc_content row = Some (op_data o)
       | None => row = row0
       end.
Proof.
  intros Hinv Hrow0 w'. subst w'.
  revert w row0 Hinv Hrow0. induction inputs as [|ti inputs IH]; intros w row0 Hinv Hrow0.
  { exists [], row0. rewrite app_nil_r. cbn. repeat split; try done.
    - by intros o ?%elem_of_nil.
    - lia. }
  cbn [run foldl]. change (foldl _ (step ti w) inputs) with (run inputs (step ti w)).
  pose proof (server_inv_step ti w Hinv) as Hinv1.
  destruct (step_log ti w d row0 Hinv Hrow0)
    as [(Eo & Hrow1)|[(o & Eo & Hod & Hsys & Hrow1)
                     |(o & row1 & Eo & Hod & Hsys & Hov & Hrow1 & Hv1 & Hc1)]].
  - destruct (IH _ _ Hinv1 Hrow1) as (ops & row & E & Hu & Hrow & Hv & Hvs & Hl).
    exists ops, row. by rewrite E, Eo.
  - destruct (IH _ _ Hinv1 Hrow1) as (ops & row & E & Hu & Hrow & Hv & Hvs & Hl).
    exists (o :: ops), row. rewrite E, Eo, <- app_assoc.
    assert (Ef : operations_of d (o :: ops) = operations_of d ops).
    { unfold operations_of. by rewrite filter_cons_False. }
    rewrite Ef. repeat split; try done.
    intros o' [->|?]%elem_of_cons; [done|by apply Hu].
  - destruct (IH _ _ Hinv1 Hrow1) as (ops & row & E & Hu & Hrow & Hv & Hvs & Hl).
    exists (o :: ops), row. rewrite E, Eo, <- app_assoc.
    assert (Ef : operations_of d (o :: ops) = o :: operations_of d ops).
    { unfold operations_of. by rewrite filter_cons_True. }
    rewrite Ef. split; [done|].
    split; [intros o' [->|?]%elem_of_cons; [done|by apply Hu]|].
    split; [done|]. split; [rewrite Hv, Hv1; cbn [length]; lia|].
    split.
    + cbn [length]. rewrite Nat2Z.inj_succ, seqZ_cons by lia.
      rewrite fmap_cons, Hov, Hvs, Hv1. do 2 f_equal. lia.
    + destruct (operations_of d ops) as [|o1 l1] eqn:El.
      * simpl in Hl. simpl. rewrite Hl. exact Hc1.
      * rewrite last_cons_cons. destruct (last (o1 :: l1)) eqn:E1; [done|].
        by apply last_None in E1.
Qed.

(** X11: every record of the operation log stands for a version the
    document went through.  Whatever inputs a server has taken since it
    was constructed, the log has only grown, by records of the user
    "system"; the row of a document is still there and its version has not
    gone down; the records added for the document are no more than the
    steps its version has gone up by, and each carries a version above the
    one the row had at the start and not above the one it has now. *)
Theorem operation_log_within_versions
    (w : World) (inputs : list (Z * Input)) (d : string) (row0 : DocumentRow) :
  constructed w ->
  tbl_document (db w) !! d = Some row0 ->
  let w' := run inputs w in
  exists ops row,
    tbl_operation (db w') = (tbl_operation (db w) ++ ops)%list
    /\ (forall o, o ∈ ops -> op_userId o = "system")
    /\ tbl_document (db w') !! d = Some row
    /\ doc_version row0 <= doc_version row
    /\ Z.of_nat (length (operations_of d ops)) <= doc_version row - doc_version row0
    /\ forall o, o ∈ operations_of d ops ->
         doc_version row0 < op_version o <= doc_version row.
Proof.
  intros Hc Hrow0 w'.
  destruct (operation_log_of_run w inputs d row0 (server_inv_constructed w Hc) Hrow0)
    as (ops & row & E & Hsys & Hrow & Hv & Hvs & _).
  exists ops, row. split; [exact E|]. split; [exact Hsys|]. split; [exact Hrow|].
  split; [lia|]. split; [lia|].
  intros o Ho.
  assert (Hin : op_version o ∈ op_version <$> operations_of d ops).
  { apply list_elem_of_fmap. by exists o. }
  rewrite Hvs in Hin. apply elem_of_seqZ in Hin. lia.
Qed.

(** *** Saving every room *)

Lemma Promise_all_saves (order : list loc) (w : World) :
  Promise_all (saveDocument <$> order) w = (Normal tt, foldl save_result w order).
Proof.
  revert w. induction order as [|r order IH]; intros w; [done|].
  cbn [fmap list_fmap Promise_all foldl].
  change (list_fmap loc (M unit) saveDocument order) with (saveDocument <$> order).
  by rewrite saveDocument_result, IH.
Qed.

(** The rooms saved one after the other, each once. *)
Lemma saves_in_order (order : list loc) (w : World) :
  server_wf w -> NoDup order ->
  (forall r, r ∈ order -> exists rid, rooms w !! rid = Some r) ->
  let w' := foldl save_result w order in
  clock w' = clock w /\ rooms w' = rooms w /\ docHeap w' = docHeap w
  /\ timers w' = timers w
  /\ forall rid r rs yd row,
       rooms w !! rid = Some r -> roomHeap w !! r = Some rs ->
       docHeap w !! document rs = Some yd ->
       tbl_document (db w) !! documentId rs = Some row ->
       (r ∈ order ->
          tbl_document (db w') !! documentId rs
          = Some (saved_row (Y_encodeStateAsUpdate yd) (clock w) row)
          /\ roomHeap w' !! r = Some (set_lastSaveTime (clock w) rs))
       /\ (r ∉ order ->
             tbl_document (db w') !! documentId rs = Some row
             /\ roomHeap w' !! r = Some rs).
Proof.
  revert w. induction order as [|r1 order IH]; intros w Hwf Hnd Hreg w'.
  { subst w'. cbn [foldl]. split; [done|]. split; [done|]. split; [done|].
    split; [done|]. intros rid r rs yd row _ Hrs _ Hrow.
    split; [by intros ?%elem_of_nil|done]. }
  subst w'. cbn [foldl]. set (w1 := save_result w r1).
  apply NoDup_cons in Hnd as [Hr1 Hnd].
  destruct (save_result_frame w r1) as (Fr & _ & _ & _ & Fd & _ & Ft & _ & Fc).
  fold w1 in Fr, Fd, Ft, Fc.
  assert (Hwf1 : server_wf w1) by (by apply server_wf_save).
  assert (Hreg1 : forall r, r ∈ order -> exists rid, rooms w1 !! rid = Some r).
  { intros r Hr. rewrite Fr. apply Hreg. by right. }
  destruct (IH w1 Hwf1 Hnd Hreg1) as (Ic & Ir & Id & It & IH').
  split; [congruence|]. split; [congruence|]. split; [congruence|]. split; [congruence|].
  intros rid r rs yd row Hrid Hrs Hyd Hrow.
  destruct (decide (r = r1)) as [->|Hne].
  - assert (E1 : w1 = after_save w r1 rs yd row).
    { subst w1. unfold save_result. by rewrite Hrs, Hyd, Hrow. }
    assert (Hrs1 : roomHeap w1 !! r1 = Some (set_lastSaveTime (clock w) rs)).
    { rewrite E1. unfold after_save. wsimpl. by rewrite lookup_alter_eq, Hrs. }
    assert (Hrow1 : tbl_document (db w1) !! documentId rs
                    = Some (saved_row (Y_encodeStateAsUpdate yd) (clock w) row)).
    { rewrite E1. unfold after_save, saved_db. wsimpl. by rewrite lookup_alter_eq, Hrow. }
    destruct (IH' rid r1 (set_lastSaveTime (clock w) rs) yd
                (saved_row (Y_encodeStateAsUpdate yd) (clock w) row)) as [_ Hout];
      [by rewrite Fr|done|by rewrite Fd|done|].
    split; [intros _; by apply Hout|]. intros Hnot. exfalso. apply Hnot. by left.
  - destruct (Hreg r1) as (rid1 & Hrid1); [by left|].
    destruct (proj1 Hwf _ _ Hrid1) as (rs1 & Hrs1 & Hid1).
    destruct (proj1 Hwf _ _ Hrid) as (rs' & Hrs' & Hid). rewrite Hrs in Hrs'.
    injection Hrs' as <-.
    assert (Hdne : documentId rs1 ≠ documentId rs).
    { intros E. apply Hne. assert (Erid : rid1 = rid) by (by rewrite Hid1, Hid, E).
      rewrite Erid in Hrid1. congruence. }
    assert (Hh1 : roomHeap w1 !! r = Some rs).
    { subst w1. destruct (save_result_roomHeap w r1 r) as [E|[E _]]; [by rewrite E|done]. }
    assert (Hrow1 : tbl_document (db w1) !! documentId rs = Some row).
    { subst w1. by rewrite (save_result_other_row w r1 rs1). }
    destruct (IH' rid r rs yd row) as [Hin Hout];
      [by rewrite Fr|done|by rewrite Fd|done|].
    rewrite Fc in Hin. split.
    + intros [?|?]%elem_of_cons; [done|by apply Hin].
    + intros Hnot. apply Hout. intros ?. apply Hnot. by right.
Qed.

(** X12: [saveAllDocuments] saves every registered room, in whatever order
    the registry hands the rooms out: for each room whose document and row
    exist, the row gets the encoding of the document and the next version,
    and the room the time of the save.  It does not throw, and it clears no
    save timer: a save that was pending stays pending. *)
Theorem saveAllDocuments_flushes_every_room
    (w : World) (order : list loc) (rid : string) (r : loc) (rs : RoomState) (yd : YDoc)
    (row : DocumentRow) :
  server_wf w ->
  order ≡ₚ (map_to_list (rooms w)).*2 ->
  rooms w !! rid = Some r -> roomHeap w !! r = Some rs ->
  docHeap w !! document rs = Some yd ->
  tbl_document (db w) !! documentId rs = Some row ->
  saveAllDocuments w = Promise_all (saveDocument <$> (map_to_list (rooms w)).*2) w
  /\ exists w',
       Promise_all (saveDocument <$> order) w = (Normal tt, w')
       /\ tbl_document (db w') !! documentId rs
          = Some (saved_row (Y_encodeStateAsUpdate yd) (clock w) row)
       /\ roomHeap w' !! r = Some (set_lastSaveTime (clock w) rs)
       /\ rooms w' = rooms w /\ docHeap w' = docHeap w /\ timers w' = timers w.
Proof.
  intros Hwf Hperm Hrid Hrs Hyd Hrow. split; [done|].
  rewrite Promise_all_saves. eexists. split; [reflexivity|].
  assert (Hin : forall r0, r0 ∈ order <-> exists rid0, rooms w !! rid0 = Some r0).
  { intros r0. rewrite Hperm, list_elem_of_fmap. split.
    - intros ([rid0 r0'] & -> & Hin%elem_of_map_to_list). by exists rid0.
    - intros (rid0 & Hr0). exists (rid0, r0). split; [done|]. by apply elem_of_map_to_list. }
  assert (Hnd : NoDup order).
  { rewrite Hperm. apply NoDup_fmap_2_strong; [|apply NoDup_map_to_list].
    intros [rid1 r1] [rid2 r2] H1%elem_of_map_to_list H2%elem_of_map_to_list E.
    cbn in E. subst r2. f_equal. by apply (rooms_wf_inj w _ _ r1); [apply Hwf|..]. }
  destruct (saves_in_order order w Hwf Hnd) as (_ & Fr & Fd & Ft & Hall).
  { intros r0. apply Hin. }
  destruct (Hall rid r rs yd row Hrid Hrs Hyd Hrow) as [Hsaved _].
  destruct Hsaved as [H1 H2]; [apply Hin; by exists rid|]. done.
Qed.

(** *** Who may write *)

(** What an update of a member that is no viewer emits: never the
    permission error. *)
Lemma update_refused_iff_viewer
    (w : World) (socket : AuthenticatedSocket) (d : string) (r : loc)
    (rs : RoomState) (ru : RoomUser) (payload : UpdateOperationPayload) :
  resident w socket d r rs ->
  users rs !! userId socket = Some ru ->
  error_to socket "You do not have permission to edit this document"
    ∈ emitted (handleUpdateOperation socket payload) w
  <-> ru_role ru = VIEWER.
Proof.
  intros Hres Hru. split.
  - intros Hin. destruct (decide (ru_role ru = VIEWER)) as [|Hne]; [done|]. exfalso.
    assert (Hrole : ru_role <$> users rs !! userId socket ≠ Some VIEWER).
    { rewrite Hru. cbn. congruence. }
    revert Hin. unfold emitted, exec.
    destruct (docHeap w !! document rs) as [yd|] eqn:Hyd.
    + destruct (Y_applyUpdate yd (arrayToUint8Array (up_update payload))) as [yd'|yd'] eqn:Ha.
      * rewrite (update_accepted w socket d r rs yd yd' payload) by done.
        unfold after_update. wsimpl. rewrite drop_app_length.
        by intros ?%list_elem_of_singleton.
      * rewrite (update_malformed w socket d r rs yd yd' payload) by done.
        wsimpl. rewrite drop_app_length. by intros ?%list_elem_of_singleton.
    + destruct Hres as (Hs & Hr & Hh).
      unfold handleUpdateOperation, readRoom, applyUpdate, readDoc, socket_emit, emit.
      mred. rewrite Hs.
      destruct (decide (roomIdOf d = "")) as [e|_]; [by destruct (roomIdOf_nonempty d)|].
      rewrite Hr, Hh. cbv beta. destruct (decide _) as [?|_]; [done|].
      rewrite Hyd. wsimpl. rewrite drop_app_length. by intros ?%list_elem_of_singleton.
  - intros Hv. rewrite (emitted_sent _ w (Normal tt)
      (error_to socket "You do not have permission to edit this document")); [left|].
    by apply (viewer_update_denied w socket d r rs ru).
Qed.

(** X14: the write check of [handleUpdateOperation] is [canEdit]: an update
    of a member of a resident room is refused with the permission error
    exactly when [canEdit] denies the role it has on the roster. *)
Theorem update_refused_iff_cannot_edit
    (w : World) (socket : AuthenticatedSocket) (d : string) (r : loc)
    (rs : RoomState) (ru : RoomUser) (payload : UpdateOperationPayload) :
  resident w socket d r rs ->
  users rs !! userId socket = Some ru ->
  error_to socket "You do not have permission to edit this document"
    ∈ emitted (handleUpdateOperation socket payload) w
  <-> canEdit (ru_role ru) = false.
Proof.
  intros Hres Hru. rewrite (update_refused_iff_viewer w socket d r rs ru) by done.
  unfold canEdit, hasPermission. rewrite bool_decide_eq_false.
  destruct (ru_role ru); cbn [RolePermissions]; (split; [intros Hv|intros Hno]).
  - discriminate Hv.
  - exfalso. apply Hno. right. left.
  - discriminate Hv.
  - exfalso. apply Hno. right. left.
  - intros Hin. apply list_elem_of_singleton in Hin. discriminate Hin.
  - reflexivity.
Qed.

(** *** What the other inputs leave alone *)

(** X16: only joins, leaves and disconnects change who is in which room.  A
    connection, an update, a cursor or typing message, a sync request and a
    save timer coming due, in whatever state and whatever becomes of them,
    register and remove no room, move no socket, and leave every room
    object its document, its members and their roles. *)
Theorem only_join_leave_disconnect_change_membership (w : World) (i : Input) :
  changes_membership i = false ->
  let w' := exec (dispatch i) w in
  rooms w' = rooms w
  /\ documents w' = documents w
  /\ socketToRoom w' = socketToRoom w
  /\ adapter w' = adapter w
  /\ forall r rs', roomHeap w' !! r = Some rs' ->
       exists rs, roomHeap w !! r = Some rs
         /\ documentId rs' = documentId rs /\ document rs' = document rs
         /\ dom (users rs') = dom (users rs)
         /\ forall uid, ru_role <$> users rs' !! uid = ru_role <$> users rs !! uid.
Proof.
  intros Hi w'.
  assert (Hk : keeps_membership w w').
  { subst w'. destruct i; try discriminate Hi; cbn [dispatch].
    - apply track_keeps_membership.
    - apply update_keeps_membership.
    - apply cursor_keeps_membership.
    - apply typing_keeps_membership.
    - apply sync_keeps_membership.
    - unfold exec. rewrite fireTimer_result. apply fire_result_keeps_membership. }
  destruct Hk as (H1 & H2 & H3 & H4 & _ & H6). done.
Qed.

(** *** The document store *)

(** X18: [getOrCreate] is idempotent: asked again for the same id, with
    whatever initial state, it hands out the object it handed out before and
    does nothing else; and when the first call throws, nothing was stored. *)
Theorem getOrCreate_twice_is_once
    (w : World) (d : string) (initial1 initial2 : option Uint8Array) :
  (l1 ← documentStore_getOrCreate d initial1;
   l2 ← documentStore_getOrCreate d initial2;
   mret (l1, l2)) w
  = (l1 ← documentStore_getOrCreate d initial1; mret (l1, l1)) w
  /\ ((documentStore_getOrCreate d initial1 w).1 = Thrown ->
      documentStore_getOrCreate d initial1 w = (Thrown, w)
      /\ documents w !! d = None /\ loaded initial1 = None).
Proof.
  unfold documentStore_getOrCreate. cbv [mbind M_bind bind gets modify mret M_ret ret].
  destruct (documents w !! d) as [l|] eqn:Hd.
  - rewrite Hd. done.
  - rewrite new_CRDTDocument_result.
    destruct (loaded initial1) as [yd|]; wsimpl.
    + rewrite lookup_insert_eq. done.
    + done.
Qed.

(** X19: a document that is removed from the store and asked for again is a
    new object, built from the initial state given now and not from what the
    removed object held; the object that was handed out before is not the
    entry any more. *)
Theorem removed_document_is_built_anew
    (w : World) (d : string) (l : loc) (yd yd' : YDoc) (initial : option Uint8Array) :
  documents w !! d = Some l ->
  docHeap w !! l = Some yd ->
  loaded initial = Some yd' ->
  exists l' w',
    (documentStore_remove d;; documentStore_getOrCreate d initial) w = (Normal l', w')
    /\ l' ≠ l
    /\ documents w' !! d = Some l'
    /\ docHeap w' !! l' = Some yd'.
Proof.
  intros Hd Hl Hload.
  unfold documentStore_remove, documentStore_getOrCreate.
  cbv [mbind M_bind bind gets modify mret M_ret ret]. rewrite Hd. wsimpl.
  rewrite lookup_delete_eq, new_CRDTDocument_result, Hload. wsimpl.
  eexists _, _. split; [reflexivity|]. wsimpl.
  assert (Hne : fresh (dom (docHeap w)) ≠ l).
  { intros E. apply (is_fresh (dom (docHeap w))). rewrite E. by apply elem_of_dom. }
  split; [done|]. rewrite !lookup_insert_eq. done.
Qed.

(** *** Presence *)

(** X20: a cursor message of a socket in a resident room goes to the other
    sockets of the room under the id of the authenticated user, whatever
    user id the payload names, and it touches one thing in the state: the
    cursor of that user's roster entry.  A sender that is not on the
    roster is not put on it. *)
Theorem cursor_updates_own_entry_only
    (w : World) (socket : AuthenticatedSocket) (d : string) (r : loc) (rs : RoomState)
    (payload : CursorPresencePayload) :
  resident w socket d r rs ->
  let w' := exec (handleCursorPresence socket payload) w in
  emitted (handleCursorPresence socket payload) w
  = [{| recipients := in_room w (roomIdOf d) ∖ {[ sock_id socket ]};
        event := CURSOR_PRESENCE payload (userId socket) |}]
  /\ exists rs',
       roomHeap w' !! r = Some rs'
       /\ (forall ru, users rs !! userId socket = Some ru ->
             users rs' !! userId socket = Some (set_cursor (cp_cursor payload) ru))
       /\ (users rs !! userId socket = None -> users rs' = users rs)
       /\ (forall uid, uid ≠ userId socket -> users rs' !! uid = users rs !! uid)
       /\ forall r0, r0 ≠ r -> roomHeap w' !! r0 = roomHeap w !! r0.
Proof.
  intros (Hs & Hr & Hh) w'. subst w'.
  unfold emitted, exec, handleCursorPresence, modRoom, socket_to_emit, emit. mred.
  rewrite Hs. destruct (decide (roomIdOf d = "")) as [e|_];
    [by destruct (roomIdOf_nonempty d)|].
  rewrite Hr. wsimpl. rewrite drop_app_length. split; [done|].
  exists (with_users (alter (set_cursor (cp_cursor payload)) (userId socket)) rs).
  rewrite lookup_alter_eq, Hh. split; [done|]. cbn [with_users users].
  split; [intros ru Hru; by rewrite lookup_alter_eq, Hru|].
  split.
  { intros Hnone. apply map_eq. intros uid.
    destruct (decide (uid = userId socket)) as [->|Hne].
    - by rewrite lookup_alter_eq, Hnone.
    - by rewrite lookup_alter_ne. }
  split; [intros uid Hne; by rewrite lookup_alter_ne|].
  intros r0 Hne. by rewrite lookup_alter_ne.
Qed.

End Properties.

(** ** Tokens, route protection, socket authentication *)

Lemma String_split_nonempty (sep : ascii) (s : string) : String_split sep s ≠ [].
Proof.
  destruct s as [|c s]; simpl; [done|].
  destruct (decide (c = sep)); [done|]. by destruct (String_split sep s).
Qed.

Lemma String_split_without (sep : ascii) (s : string) :
  occurs sep s = false -> String_split sep s = [s].
Proof.
  induction s as [|c s IH]; simpl; [done|].
  intros [Hc Hs]%orb_false_elim. apply bool_decide_eq_false in Hc.
  destruct (decide (c = sep)); [done|]. by rewrite IH.
Qed.

(** The first part ends at the first separator. *)
Lemma String_split_app (sep : ascii) (a b : string) :
  occurs sep a = false ->
  String_split sep (a ++ String sep b) = a :: String_split sep b.
Proof.
  induction a as [|c a IH]; simpl.
  - intros _. by destruct (decide (sep = sep)).
  - intros [Hc Ha]%orb_false_elim. apply bool_decide_eq_false in Hc.
    destruct (decide (c = sep)); [done|]. by rewrite IH.
Qed.

Lemma String_split_one (sep : ascii) (s part : string) :
  String_split sep s = [part] -> part = s /\ occurs sep s = false.
Proof.
  revert part. induction s as [|c s IH]; simpl; intros part.
  - by intros [= <-].
  - destruct (decide (c = sep)) as [->|Hne].
    + intros [= _ E]. by destruct (String_split_nonempty sep s).
    + destruct (String_split sep s) as [|p ps] eqn:E;
        [by destruct (String_split_nonempty sep s)|].
      intros [= <- ->]. destruct (IH p eq_refl) as [-> Hs].
      split; [done|]. rewrite Hs. by rewrite bool_decide_eq_false_2.
Qed.

Lemma String_split_two (sep : ascii) (s p0 p1 : string) :
  String_split sep s = [p0; p1] ->
  s = p0 ++ String sep p1 /\ occurs sep p0 = false /\ occurs sep p1 = false.
Proof.
  revert p0. induction s as [|c s IH]; simpl; intros p0; [done|].
  destruct (decide (c = sep)) as [->|Hne].
  - intros [= <- E]. by destruct (String_split_one sep s p1 E) as [-> Hs].
  - destruct (String_split sep s) as [|p ps] eqn:E; [done|].
    intros [= <- ->]. destruct (IH p eq_refl) as (-> & Hp & Hp1).
    split; [done|]. split; [|done]. simpl. rewrite Hp. by rewrite bool_decide_eq_false_2.
Qed.

(** X21: [extractBearerToken] returns a token exactly for a header that is
    "Bearer", one space, and a token without a space (the empty token
    included); every other header, the missing and the empty one included,
    gives [null]. *)
Theorem extractBearerToken_spec (authHeader : option string) (token : string) :
  extractBearerToken authHeader = Some token
  <-> authHeader = Some ("Bearer " ++ token) /\ occurs " " token = false.
Proof.
  unfold extractBearerToken. split.
  - destruct authHeader as [h|]; simpl; [|done].
    destruct (decide (h = "")); [done|].
    destruct (String_split " " h) as [|scheme [|tok [|]]] eqn:E; try done.
    destruct (decide (scheme = "Bearer")) as [->|]; [|done].
    intros [= ->]. apply String_split_two in E as (-> & _ & Ht). done.
  - intros [-> Ht]. cbn [present].
    destruct (decide _) as [E|_]; [discriminate E|].
    change ("Bearer " ++ token) with ("Bearer" ++ String " " token).
    rewrite String_split_app by done. rewrite String_split_without by done.
    by destruct (decide _).
Qed.

Lemma present_Some (s : option string) (t : string) :
  present s = Some t <-> s = Some t /\ t ≠ "".
Proof.
  unfold present. destruct s as [s|]; [|by split; [|intros []]].
  destruct (decide (s = "")) as [->|Hne].
  - split; [done|]. by intros [[= <-] ?].
  - split; [by intros [= <-]|]. by intros [[= <-] _].
Qed.

(** X22: the permission table follows the role order of
    [requireDocumentRole]: everybody may read, writing needs EDITOR or
    more, deleting, sharing and administration need OWNER. *)
Theorem permissions_follow_roleHierarchy (role : Role) :
  hasPermission role PermRead = true
  /\ (canEdit role = true <-> roleHierarchy EDITOR <= roleHierarchy role)
  /\ (canDelete role = true <-> roleHierarchy OWNER <= roleHierarchy role)
  /\ (canShare role = true <-> roleHierarchy OWNER <= roleHierarchy role)
  /\ (hasPermission role PermAdmin = true <-> roleHierarchy OWNER <= roleHierarchy role).
Proof.
  unfold canEdit, canDelete, canShare, hasPermission.
  rewrite !bool_decide_eq_true.
  destruct role; cbn [RolePermissions roleHierarchy];
    rewrite ?elem_of_cons, ?elem_of_nil; repeat split; intros; try lia;
    try (by left); try (by right; left); try (by right; right; left);
    try (by right; right; right; left); try (by right; right; right; right; left);
    repeat match goal with H : _ \/ _ |- _ => destruct H; try done end.
Qed.

Section SessionProperties.

Context {YDoc : Type} `{!CRDTEngine YDoc} `{!JWT}.
Variables (env : Env) (tbl_user : gmap string UserRow).

Local Abbreviation World := (@World YDoc).

(** X23: [getCurrentUser] takes the bearer token of the Authorization header
    when there is one that is not empty, and then never looks at the
    cookie, not even when the token does not verify; with any other header
    it answers as [getServerUser] does for the cookie. *)
Theorem getCurrentUser_bearer_before_cookie (authorization cookie : option string) :
  let request := {| req_authorization := authorization; req_cookie := cookie |} in
  (forall token,
     authorization = Some ("Bearer " ++ token) -> occurs " " token = false -> token ≠ "" ->
     getCurrentUser env tbl_user request = userOfToken env tbl_user token)
  /\ ((forall token,
         authorization = Some ("Bearer " ++ token) -> occurs " " token = false ->
         token = "") ->
      getCurrentUser env tbl_user request = getServerUser env tbl_user cookie).
Proof.
  intros request. subst request. unfold getCurrentUser, getServerUser.
  cbn [req_authorization req_cookie].
  split.
  - intros token -> Hsp Hne.
    assert (E : extractBearerToken (Some ("Bearer " ++ token)) = Some token).
    { unfold extractBearerToken. cbn [present].
      destruct (decide _) as [E|_]; [discriminate E|].
      change ("Bearer " ++ token) with ("Bearer" ++ String " " token).
      rewrite String_split_app by done. rewrite String_split_without by done.
      by destruct (decide _). }
    rewrite E.
    assert (Hp : present (Some token) = Some token) by (by apply present_Some).
    by rewrite !Hp.
  - intros Hnone.
    destruct (present (extractBearerToken authorization)) as [token|] eqn:E; [|done].
    apply present_Some in E as [E Hne]. exfalso. apply Hne.
    revert E. unfold extractBearerToken.
    destruct (present authorization) as [h|] eqn:Eh; [|done].
    apply present_Some in Eh as [-> _].
    destruct (String_split " " h) as [|scheme [|tok [|]]] eqn:Es; try done.
    destruct (decide (scheme = "Bearer")) as [->|]; [|done].
    intros [= ->]. apply String_split_two in Es as (-> & _ & Ht). by apply Hnone.
Qed.

(** X24: [requireDocumentRole] reads the durable store and changes nothing.
    It allows the owner of the document whatever the minimum; another user
    with a collaborator row when the role of that row is at least the
    minimum; a user with neither when the document is public and the
    minimum is VIEWER; and nobody else.  A refusal says "Document not
    found" when the user has no access at all (also when the document
    exists) and "Insufficient permissions" otherwise. *)
Theorem requireDocumentRole_spec (w : World) (uid d : string) (minRole : Role) :
  exists rc,
    requireDocumentRole uid d minRole w = (Normal rc, w)
    /\ (rc_allowed rc = true
        <-> exists row, tbl_document (db w) !! d = Some row
              /\ (doc_ownerId row = uid
                  \/ (exists role, tbl_collaborator (db w) !! (uid, d) = Some role
                        /\ roleHierarchy minRole <= roleHierarchy role)
                  \/ (tbl_collaborator (db w) !! (uid, d) = None
                      /\ doc_isPublic row = true /\ minRole = VIEWER)))
    /\ (rc_allowed rc = false ->
        if (access_of (db w) uid d).1
        then rc_error rc = Some "Insufficient permissions"
        else rc_error rc = Some "Document not found" /\ rc_role rc = None).
Proof.
  unfold requireDocumentRole. cbv [mbind M_bind bind].
  rewrite checkDocumentAccess_result. unfold access_of.
  destruct (tbl_document (db w) !! d) as [row|] eqn:Hrow; cbn [fst snd negb].
  2:{ eexists. split; [reflexivity|]. cbn [rc_allowed rc_error rc_role].
      split; [|done]. split; [done|]. by intros (row & ? & _). }
  destruct (decide (doc_ownerId row = uid)) as [Ho|Ho]; cbn [fst snd negb].
  { destruct (decide (roleHierarchy OWNER < roleHierarchy minRole)) as [Hlt|_].
    { exfalso. revert Hlt. destruct minRole; cbn; lia. }
    eexists. split; [reflexivity|]. cbn [rc_allowed]. split; [|done].
    split; [|done]. intros _. exists row. by split; [|left]. }
  destruct (tbl_collaborator (db w) !! (uid, d)) as [role|] eqn:Hc; cbn [fst snd negb].
  { destruct (decide (roleHierarchy role < roleHierarchy minRole)) as [Hlt|Hge];
      (eexists; split; [reflexivity|]); cbn [rc_allowed rc_error].
    - split; [|done]. split; [done|].
      intros (row' & [= <-] & [?|[(role' & [= <-] & ?)|(? & _)]]); [done|lia|done].
    - split; [|done]. split; [|done]. intros _. exists row. split; [done|].
      right. left. exists role. split; [done|lia]. }
  destruct (doc_isPublic row) eqn:Hp; cbn [fst snd negb].
  - destruct (decide (roleHierarchy VIEWER < roleHierarchy minRole)) as [Hlt|Hge];
      (eexists; split; [reflexivity|]); cbn [rc_allowed rc_error].
    + split; [|done]. split; [done|].
      intros (row' & [= <-] & [?|[(role' & ? & _)|(_ & _ & ->)]]); [done|done|].
      revert Hlt. cbn. lia.
    + split; [|done]. split; [|done]. intros _. exists row. split; [done|].
      right. right. repeat split; [done|]. revert Hge. destruct minRole; cbn; (done || lia).
  - eexists. split; [reflexivity|]. cbn [rc_allowed rc_error rc_role]. split; [|done].
    split; [done|].
    intros (row' & [= <-] & [?|[(role' & ? & _)|(_ & ? & _)]]); [done|done|congruence].
Qed.

(** X25: [protectDocumentRoute] reads and changes nothing.  When it passes, the
    user is the one [getCurrentUser] finds for the request, the role is the
    one [checkDocumentAccess] gives that user, and it is at least the
    minimum.  Otherwise the response is 401 "Unauthorized" (no user), 403
    "Document not found" (that user has no access, whether or not the
    document exists) or 403 "Insufficient permissions" (a role below the
    minimum), and nothing else: the message "Access denied" is never sent. *)
Theorem protectDocumentRoute_outcomes (w : World) (request : NextRequest) (d : string)
    (minRole : Role) :
  exists res,
    protectDocumentRoute env tbl_user request d minRole w = (Normal res, w)
    /\ match res with
       | Passed (user, role) =>
           getCurrentUser env tbl_user request = Some user
           /\ access_of (db w) (su_id user) d = (true, Some role)
           /\ roleHierarchy minRole <= roleHierarchy role
       | ErrorResponse status error =>
           (status = 401 /\ error = "Unauthorized"
            /\ getCurrentUser env tbl_user request = None)
           \/ (status = 403 /\ error = "Document not found"
               /\ exists user, getCurrentUser env tbl_user request = Some user
                    /\ (access_of (db w) (su_id user) d).1 = false)
           \/ (status = 403 /\ error = "Insufficient permissions"
               /\ exists user role,
                    getCurrentUser env tbl_user request = Some user
                    /\ access_of (db w) (su_id user) d = (true, Some role)
                    /\ roleHierarchy role < roleHierarchy minRole)
       end.
Proof.
  unfold protectDocumentRoute, protectRoute.
  destruct (getCurrentUser env tbl_user request) as [user|] eqn:Hu.
  2:{ eexists. split; [reflexivity|]. by left. }
  unfold requireDocumentRole. cbv [mbind M_bind bind mret M_ret ret].
  rewrite checkDocumentAccess_result.
  assert (Hacc : (access_of (db w) (su_id user) d = (false, None))
                 \/ exists role, access_of (db w) (su_id user) d = (true, Some role)).
  { unfold access_of. destruct (tbl_document (db w) !! d) as [row|]; [|by left].
    destruct (decide _); [by right; eexists|].
    destruct (tbl_collaborator (db w) !! _); [by right; eexists|].
    destruct (doc_isPublic row); [by right; eexists|by left]. }
  destruct Hacc as [E|(role & E)]; rewrite E; cbn [fst snd negb].
  - eexists. split; [reflexivity|]. right. left. repeat split. exists user. by rewrite E.
  - destruct (decide (roleHierarchy role < roleHierarchy minRole)) as [Hlt|Hge];
      cbn [rc_allowed rc_role rc_error].
    + eexists. split; [reflexivity|]. right. right. repeat split. by exists user, role.
    + eexists. split; [reflexivity|]. repeat split; [done|lia].
Qed.

(** X26: the authentication middleware accepts a socket only with the profile
    of a user that exists: the token it used (the [auth] token when there is
    one that is not empty, the [query] token otherwise) verified, the user
    named by its payload is in the user table, and the socket carries the
    id and the profile of that user. *)
Theorem setupMiddleware_accepts_existing_users (socketId : string) (handshake : Handshake)
    (socket : AuthenticatedSocket) :
  setupMiddleware env tbl_user socketId handshake = Accepted socket ->
  sock_id socket = socketId
  /\ userId socket = su_id (user socket)
  /\ prisma_user_findUnique tbl_user (userId socket) = Some (user socket)
  /\ exists token payload,
       token ≠ ""
       /\ (hs_auth_token handshake = Some token
           \/ (present (hs_auth_token handshake) = None
               /\ hs_query_token handshake = Some token))
       /\ verifyToken env token = Some payload
       /\ jwt_userId payload = userId socket.
Proof.
  unfold setupMiddleware.
  set (chosen := match present (hs_auth_token handshake) with
                 | Some token => Some token
                 | None => hs_query_token handshake
                 end).
  destruct (present chosen) as [token|] eqn:Htok; [|done].
  destruct (verifyToken env token) as [payload|] eqn:Hv; [|done].
  destruct (prisma_user_findUnique tbl_user (jwt_userId payload)) as [u|] eqn:Hu; [|done].
  intros [= <-]. cbn [sock_id userId user].
  assert (Hid : su_id u = jwt_userId payload).
  { revert Hu. unfold prisma_user_findUnique.
    destruct (tbl_user !! jwt_userId payload); [|done]. by intros [= <-]. }
  split; [done|]. split; [done|]. split; [by rewrite Hid|].
  exists token, payload. apply present_Some in Htok as [Hc Hne].
  split; [done|]. split; [|done].
  subst chosen. destruct (present (hs_auth_token handshake)) as [t|] eqn:Ha.
  - injection Hc as ->. apply present_Some in Ha as [Ha _]. by left.
  - right. done.
Qed.

(** X27: without a secret nobody is authenticated.  When JWT_SECRET is not
    set (or empty), [verifyToken] rejects every token, so [getCurrentUser]
    finds no user for any request, [protectRoute] answers 401, and the
    socket middleware accepts no socket. *)
Theorem no_secret_no_authentication :
  getJWTSecret env = None ->
  (forall token, verifyToken env token = None)
  /\ (forall request, getCurrentUser env tbl_user request = None)
  /\ (forall request, protectRoute env tbl_user request = ErrorResponse 401 "Unauthorized")
  /\ (forall socketId handshake socket,
        setupMiddleware env tbl_user socketId handshake ≠ Accepted socket).
Proof.
  intros Hno.
  assert (Hv : forall token, verifyToken env token = None).
  { intros token. unfold verifyToken. by rewrite Hno. }
  assert (Hu : forall request, getCurrentUser env tbl_user request = None).
  { intros request. unfold getCurrentUser, userOfToken.
    destruct (present _) as [token|]; [|done]. by rewrite Hv. }
  split; [done|]. split; [done|]. split.
  - intros request. unfold protectRoute. by rewrite Hu.
  - intros socketId handshake socket. unfold setupMiddleware.
    destruct (present _) as [token|]; [|done]. by rewrite Hv.
Qed.

End SessionProperties.

(** ** The properties on the concrete server *)

Import Scenario.

Lemma unmapped_connection_is_ignored_witness :
  socketToRoom connected !! sock_id sA = None
  /\ handleLeaveRoom sA connected = (Normal tt, connected).
Proof.
  assert (H : socketToRoom connected !! sock_id sA = None) by (vm_compute; reflexivity).
  split; [exact H|].
  exact (proj2 (proj2 (proj2 (proj2
    (unmapped_connection_is_ignored connected sA (edit [1] 0)
       {| cp_documentId := "d1"; cp_userId := "alice"; cp_cursor := None;
          cp_user := ("Alice", "#ff0000") |}
       {| ti_documentId := "d1"; ti_userId := "alice"; ti_isTyping := true |} H))))).
Defined.

Lemma resident_alice_and_bob :
  resident alice_and_bob sB "d1" 0%nat (room0 alice_and_bob).
Proof. repeat split; vm_compute; reflexivity. Defined.

Lemma viewer_update_rejected_witness :
  emitted (handleUpdateOperation sB (edit [1; 2] 30)) alice_and_bob
  = [error_to sB "You do not have permission to edit this document"].
Proof.
  refine (proj1 (proj2 (viewer_update_rejected alice_and_bob sB "d1" 0%nat
    (room0 alice_and_bob) (roomUser_of sB VIEWER) (edit [1; 2] 30)
    resident_alice_and_bob _ _))).
  - vm_compute. reflexivity.
  - reflexivity.
Defined.

Lemma resident_alice_alone : resident alice_alone sA "d1" 0%nat (room0 alice_alone).
Proof. repeat split; vm_compute; reflexivity. Defined.

Lemma malformed_update_reported_to_submitter_only_witness :
  emitted (handleUpdateOperation sA (edit [255; 1] 30)) alice_alone
  = [error_to sA "Failed to apply update"]
  /\ timers (exec (handleUpdateOperation sA (edit [255; 1] 30)) alice_alone)
     = timers alice_alone.
Proof.
  pose proof (malformed_update_reported_to_submitter_only alice_alone sA "d1" 0%nat
    (room0 alice_alone) [] [] (edit [255; 1] 30) resident_alice_alone) as H.
  destruct H as (Hem & Htm & _).
  - vm_compute. discriminate.
  - vm_compute. reflexivity.
  - vm_compute. reflexivity.
  - split; [exact Hem|exact Htm].
Defined.

(** C8 as stated fails for an engine that has integrated part of an update
    when it throws.  Alice, alone in the room of [d1], whose document is
    empty, submits the bytes 1, 255: the engine integrates 1 and throws at
    255.  Alice gets "Failed to apply update", nothing else is sent and no
    save is scheduled, but the document of the room now holds 1: the
    update is partially applied. *)
Lemma malformed_update_partially_applied :
  let w := alice_alone in
  let submit :=
    handleUpdateOperation (CRDTEngine0 := IntegratingEngine) sA (edit [1; 255] 30) in
  let w' := exec submit w in
  run (CRDTEngine0 := IntegratingEngine)
      (connected_inputs ++ [(10, JoinRoom sA join_d1)]) empty_server = w
  /\ resident w sA "d1" 0%nat (room0 w)
  /\ Y_applyUpdate (CRDTEngine := IntegratingEngine) [] (arrayToUint8Array [1; 255])
     = Malformed [Byte.x01]
  /\ emitted submit w = [error_to sA "Failed to apply update"]
  /\ timers w' = timers w
  /\ docHeap w !! document (room0 w) = Some []
  /\ docHeap w' !! document (room0 w) = Some [Byte.x01]
  /\ docHeap w' ≠ docHeap w.
Proof.
  cbv zeta.
  split; [vm_compute; reflexivity|]. split; [exact resident_alice_alone|].
  split; [vm_compute; reflexivity|]. split; [vm_compute; reflexivity|].
  split; [vm_compute; reflexivity|]. split; [vm_compute; reflexivity|].
  split; [vm_compute; reflexivity|].
  intros E. apply (f_equal (fun m => m !! 0%nat)) in E.
  vm_compute in E. discriminate.
Qed.

Lemma sync_serves_current_state_witness :
  emitted (handleRequestSync sB)
    (with_clock (fun _ => 31) (exec (handleUpdateOperation sA (edit [7; 8] 30)) alice_and_bob))
  = [sync_state_of alice_and_bob sB (room0 alice_and_bob) [Byte.x07; Byte.x08]].
Proof.
  assert (HresA : resident alice_and_bob sA "d1" 0%nat (room0 alice_and_bob)).
  { repeat split; vm_compute; reflexivity. }
  assert (Hdoc : docHeap alice_and_bob !! document (room0 alice_and_bob) = Some []).
  { vm_compute. reflexivity. }
  pose proof (proj2 (sync_serves_current_state alice_and_bob sB "d1" 0%nat
    (room0 alice_and_bob) [] resident_alice_and_bob Hdoc)) as H.
  refine (proj1 (H sA (edit [7; 8] 30) [Byte.x07; Byte.x08] 31 HresA _ _)).
  - vm_compute. discriminate.
  - vm_compute. reflexivity.
Defined.

Lemma leave_room_outcome_witness :
  rooms (exec (handleDisconnect sA) alice_alone) !! roomIdOf "d1" = None
  /\ tbl_document (db (exec (handleDisconnect sA) alice_alone)) !! "d1"
     = Some (saved_row [] 10 row_d1).
Proof.
  pose proof (leave_room_outcome alice_alone sA "d1" 0%nat (room0 alice_alone)
    (handleDisconnect sA) (or_intror eq_refl) resident_alice_alone) as [_ H].
  assert (Hlast : ¬ has_other_socket alice_alone sA (roomIdOf "d1")).
  { rewrite has_other_socket_spec. intros Hne. apply Hne. vm_compute. reflexivity. }
  destruct (H Hlast) as (_ & _ & _ & Hempty).
  assert (He : delete (userId sA) (users (room0 alice_alone)) = ∅).
  { vm_compute. reflexivity. }
  destruct (Hempty He) as (Hgone & _ & _ & _ & Hdb).
  split; [exact Hgone|].
  assert (Hyd : docHeap alice_alone !! document (room0 alice_alone) = Some []).
  { vm_compute. reflexivity. }
  assert (Hrow : tbl_document (db alice_alone) !! documentId (room0 alice_alone)
                 = Some row_d1).
  { vm_compute. reflexivity. }
  destruct (Hdb [] row_d1 Hyd Hrow) as (E & _).
  rewrite E. vm_compute. reflexivity.
Defined.

Lemma same_room_rejoin_rebuilds_room_witness :
  rooms (exec (handleJoinRoom sA join_d1) alice_alone) !! roomIdOf "d1" = Some 1%nat
  /\ 1%nat ≠ 0%nat
  /\ tbl_document (db (exec (handleJoinRoom sA join_d1) alice_alone)) !! "d1"
     = Some (saved_row [] 10 row_d1).
Proof.
  assert (Hlast : ¬ has_other_socket alice_alone sA (roomIdOf "d1")).
  { rewrite has_other_socket_spec. intros Hne. apply Hne. vm_compute. reflexivity. }
  pose proof (same_room_rejoin_rebuilds_room alice_alone sA "d1" 0%nat (room0 alice_alone)
    OWNER [] [] row_d1 resident_alice_alone) as H.
  destruct H as (_ & Hrow & _ & Hne & Hroom & _).
  - vm_compute. reflexivity.
  - vm_compute. reflexivity.
  - exact Hlast.
  - vm_compute. reflexivity.
  - vm_compute. reflexivity.
  - vm_compute. reflexivity.
  - vm_compute. reflexivity.
  - split; [exact Hroom|]. split; [exact Hne|exact Hrow].
Defined.

Lemma failed_join_state_witness :
  rooms (exec (handleJoinRoom sA join_d2) connected) = rooms connected
  /\ documents (exec (handleJoinRoom sA join_d2) connected) = documents connected.
Proof.
  pose proof (failed_join_state connected sA "d2") as (_ & H & Hleave).
  assert (Hnone : socketToRoom connected !! sock_id sA = None) by (vm_compute; reflexivity).
  destruct (H OWNER connected row_d2) as (Hr & _ & Hd & _).
  - vm_compute. reflexivity.
  - exact (Hleave Hnone).
  - vm_compute. reflexivity.
  - vm_compute. reflexivity.
  - vm_compute. reflexivity.
  - vm_compute. reflexivity.
  - split; [exact Hr|exact Hd].
Defined.

(** C3 as stated fails: Alice, alone in the room of [d1], asks to join [d2],
    whose stored content the engine rejects.  The join fails ("Failed to
    join room"), yet by then the leave path has run: the room of [d1] is
    gone from the registry, its document from the document store, and the
    connection is no longer mapped to the room it was in. *)
Lemma failed_join_changes_state :
  let w := alice_alone in
  let w' := exec (handleJoinRoom sA join_d2) w in
  error_to sA "Failed to join room" ∈ emitted (handleJoinRoom sA join_d2) w
  /\ rooms w !! roomIdOf "d1" = Some 0%nat /\ rooms w' !! roomIdOf "d1" = None
  /\ documents w !! "d1" = Some 0%nat /\ documents w' !! "d1" = None
  /\ socketToRoom w !! sock_id sA = Some (roomIdOf "d1")
  /\ socketToRoom w' !! sock_id sA = Some (roomIdOf "d2")
  /\ ¬ (rooms w' = rooms w /\ socketToRoom w' = socketToRoom w
        /\ roomHeap w' = roomHeap w /\ documents w' = documents w).
Proof.
  cbv zeta.
  assert (Hr : rooms alice_alone !! roomIdOf "d1" = Some 0%nat) by (vm_compute; reflexivity).
  assert (Hr' : rooms (exec (handleJoinRoom sA join_d2) alice_alone) !! roomIdOf "d1" = None)
    by (vm_compute; reflexivity).
  split.
  { assert (E : emitted (handleJoinRoom sA join_d2) alice_alone
                = [user_left alice_alone sA (roomIdOf "d1");
                   {| recipients := ∅; event := DOCUMENT_SAVED "d1" 10 |};
                   error_to sA "Failed to join room"]) by (vm_compute; reflexivity).
    rewrite E. right. right. left. }
  split; [exact Hr|]. split; [exact Hr'|].
  split; [vm_compute; reflexivity|]. split; [vm_compute; reflexivity|].
  split; [vm_compute; reflexivity|]. split; [vm_compute; reflexivity|].
  intros (E & _). apply (f_equal (fun m => m !! roomIdOf "d1")) in E.
  vm_compute in E. discriminate.
Qed.

(** C4, the periodic snapshot that is missed: the room of [d1] is created
    at time 10 and saved at 70010, 120010 and 170010.  The first save
    writes a snapshot.  At the third, 100 seconds have passed since that
    snapshot, more than the interval of one minute, but only 50 seconds
    since the second save, which reset [lastSaveTime]: no snapshot is
    written, and the snapshot of the first save is still the only one. *)
Lemma snapshot_not_measured_from_last_snapshot :
  let save t w := exec (saveDocument 0%nat) (with_clock (fun _ => t) w) in
  let w1 := save 70010 alice_alone in
  let w3 := save 170010 (save 120010 w1) in
  tbl_snapshot (db alice_alone) = []
  /\ tbl_snapshot (db w1) = [{| sn_documentId := "d1"; sn_data := []; sn_version := 1 |}]
  /\ tbl_snapshot (db w3) = tbl_snapshot (db w1)
  /\ doc_version <$> tbl_document (db w3) !! "d1" = Some 3
  /\ 170010 - 70010 > SNAPSHOT_INTERVAL_MS
  /\ ¬ snapshots_since_last_snapshot 0%nat 10 [70010; 120010; 170010] alice_alone.
Proof.
  cbv zeta.
  split; [vm_compute; reflexivity|]. split; [vm_compute; reflexivity|].
  split; [vm_compute; reflexivity|]. split; [vm_compute; reflexivity|].
  split; [vm_compute; reflexivity|].
  intros H. cbn [snapshots_since_last_snapshot] in H.
  destruct H as (_ & _ & (_ & H3) & _).
  vm_compute in H3. discriminate (H3 eq_refl).
Qed.

(** Every state the concrete server reaches from its start is well formed. *)
Lemma server_wf_reachable (inputs : list (Z * Input)) :
  server_wf (run inputs empty_server).
Proof. apply server_wf_run. by apply server_wf_initial. Qed.



Lemma second_join_upserts_member_witness :
  let w1 := with_clock (fun _ => 20) (exec (handleJoinRoom sA join_d1) connected) in
  let w2 := exec (handleJoinRoom sA2 join_d1) w1 in
  exists r rs1 rs2 ru,
    rooms w1 !! roomIdOf "d1" = Some r
    /\ roomHeap w1 !! r = Some rs1
    /\ rooms w2 !! roomIdOf "d1" = Some r
    /\ roomHeap w2 !! r = Some rs2
    /\ is_Some (users rs1 !! userId sA)
    /\ users rs2 = <[userId sA := ru]> (users rs1)
    /\ dom (users rs2) = dom (users rs1)
    /\ size (users rs2) = size (users rs1)
    /\ {[ sock_id sA; sock_id sA2 ]} ⊆ socketsInRoom w2 (userId sA) (roomIdOf "d1").
Proof.
  refine (second_join_upserts_member connected sA sA2 "d1" 20 _ _ _ _ _ _).
  - vm_compute. discriminate.
  - reflexivity.
  - vm_compute. reflexivity.
  - vm_compute. reflexivity.
  - unfold joined.
    assert (E : exists p rest, emitted (handleJoinRoom sA join_d1) connected
                  = {| recipients := {[ sock_id sA ]}; event := ROOM_JOINED p |} :: rest).
    { eexists _, _. vm_compute. reflexivity. }
    destruct E as (p & rest & E). exists p. unfold join_d1 in E. rewrite E. left.
  - unfold joined.
    assert (E : exists p rest,
                  emitted (handleJoinRoom sA2 join_d1)
                    (with_clock (fun _ => 20) (exec (handleJoinRoom sA join_d1) connected))
                  = {| recipients := {[ sock_id sA2 ]}; event := ROOM_JOINED p |} :: rest).
    { eexists _, _. vm_compute. reflexivity. }
    destruct E as (p & rest & E). exists p. unfold join_d1 in E. rewrite E. left.
Defined.
(** *** The further properties on the concrete server *)

Lemma constructed_empty_server : constructed empty_server.
Proof. repeat split. Qed.

Lemma constructed_empty_server_two : constructed empty_server_two.
Proof. repeat split. Qed.

Lemma server_inv_empty_server : server_inv empty_server.
Proof. apply server_inv_constructed, constructed_empty_server. Qed.

Lemma server_inv_reachable (inputs : list (Z * Input)) (w : World) :
  run inputs empty_server = w -> server_inv w.
Proof. intros <-. apply server_inv_run, server_inv_empty_server. Qed.

Lemma server_inv_connected : server_inv connected.
Proof. apply (server_inv_reachable connected_inputs). vm_compute. reflexivity. Qed.

Lemma server_inv_alice_alone : server_inv alice_alone.
Proof.
  apply (server_inv_reachable (connected_inputs ++ [(10, JoinRoom sA join_d1)])).
  vm_compute. reflexivity.
Qed.

Lemma server_inv_alice_and_bob : server_inv alice_and_bob.
Proof.
  apply (server_inv_reachable
           (connected_inputs ++ [(10, JoinRoom sA join_d1); (20, JoinRoom sB join_d1)])).
  vm_compute. reflexivity.
Qed.

Lemma server_inv_two_rooms : server_inv two_rooms.
Proof.
  assert (E : run two_rooms_inputs empty_server_two = two_rooms) by (vm_compute; reflexivity).
  rewrite <- E. apply server_inv_run, server_inv_constructed, constructed_empty_server_two.
Qed.

(** After the edits, the one pending timer is the save timer of room 0. *)
Lemma one_pending_save_per_room_witness :
  exists rs,
    roomHeap (run editing_inputs empty_server) !! 0%nat = Some rs
    /\ saveTimeout rs = Some 1%nat.
Proof.
  destruct (one_pending_save_per_room empty_server editing_inputs 1%nat
              {| deadline := 2050; target := 0%nat |} constructed_empty_server)
    as ((rs & Hrs & Hst) & _).
  - vm_compute. reflexivity.
  - exists rs. split; [exact Hrs|exact Hst].
Defined.

(** After the session, the document store has the document of [d1]. *)
Lemma documentStore_follows_rooms_witness :
  documentStore_has "d1" (run session_inputs empty_server)
  = (Normal true, run session_inputs empty_server).
Proof.
  destruct (documentStore_follows_rooms empty_server session_inputs "d1"
              constructed_empty_server) as (b & E & Hb & _).
  rewrite E. replace b with true; [reflexivity|].
  symmetry. apply Hb. vm_compute. eexists. reflexivity.
Defined.

(** Bob edits [d3]; the room of [d1], where Alice is, stays as it was. *)
Lemma update_leaves_other_rooms_alone_witness :
  let w' := exec (handleUpdateOperation sB (edit_d3 [9] 30)) two_rooms in
  rooms w' !! roomIdOf "d1" = Some 0%nat
  /\ roomHeap w' !! 0%nat = Some (room_at 0%nat two_rooms)
  /\ docHeap w' !! 0%nat = docHeap two_rooms !! 0%nat.
Proof.
  refine (update_leaves_other_rooms_alone two_rooms sB (edit_d3 [9] 30) (roomIdOf "d1")
            0%nat (room_at 0%nat two_rooms) server_inv_two_rooms _ _ _).
  - vm_compute. reflexivity.
  - vm_compute. reflexivity.
  - vm_compute. discriminate.
Defined.

(** A second tab of Bob connects and disconnects while Alice is in her room. *)
Lemma connect_then_disconnect_restores_state_witness :
  exec (handleDisconnect sB2) (exec (trackUserSocket (userId sB2) (sock_id sB2)) alice_alone)
  = alice_alone.
Proof.
  apply connect_then_disconnect_restores_state.
  - apply server_inv_alice_alone.
  - apply (bool_decide_unpack _). vm_compute. exact I.
  - vm_compute. reflexivity.
Defined.

(** Alice, alone in her room, disconnects. *)
Lemma disconnect_forgets_socket_witness :
  socketToRoom (exec (handleDisconnect sA) alice_alone) !! sock_id sA = None
  /\ userSockets (exec (handleDisconnect sA) alice_alone) !! userId sB
     = userSockets alice_alone !! userId sB.
Proof.
  destruct (disconnect_forgets_socket alice_alone sA (proj1 server_inv_alice_alone))
    as (_ & Hothers & Hroom).
  split.
  - apply (Hroom (roomIdOf "d1")).
    + vm_compute. reflexivity.
    + discriminate.
    + vm_compute. eexists. reflexivity.
  - apply Hothers. discriminate.
Defined.

(** Over the session Bob stays a viewer of the public document [d1]. *)
Lemma server_never_changes_access_witness :
  (checkDocumentAccess "bob" "d1" (run session_inputs empty_server)).1
  = Normal (true, Some VIEWER).
Proof.
  rewrite (server_never_changes_access empty_server session_inputs "bob" "d1"
             server_inv_empty_server).
  vm_compute. reflexivity.
Defined.

(** The session saves [d1] once: one record, of version 1. *)
Lemma operation_log_within_versions_witness :
  exists ops row,
    tbl_operation (db (run session_inputs empty_server)) = ops
    /\ tbl_document (db (run session_inputs empty_server)) !! "d1" = Some row
    /\ Z.of_nat (length (operations_of "d1" ops)) <= doc_version row
    /\ forall o, o ∈ operations_of "d1" ops -> 0 < op_version o <= doc_version row.
Proof.
  destruct (operation_log_within_versions empty_server session_inputs "d1" row_d1
              constructed_empty_server eq_refl)
    as (ops & row & E1 & _ & E3 & _ & E5 & E6).
  exists ops, row. split; [exact E1|]. split; [exact E3|].
  split; [simpl in E5; lia|exact E6].
Defined.

(** Both rooms are saved; the row of [d3] gets version 8. *)
Lemma saveAllDocuments_flushes_every_room_witness :
  exists w',
    saveAllDocuments two_rooms = (Normal tt, w')
    /\ tbl_document (db w') !! "d3" = Some (saved_row [Byte.x01] 20 row_d3)
    /\ timers w' = timers two_rooms.
Proof.
  destruct (saveAllDocuments_flushes_every_room two_rooms
              (map_to_list (rooms two_rooms)).*2 (roomIdOf "d3") 1%nat
              (room_at 1%nat two_rooms) [Byte.x01] row_d3 (proj1 server_inv_two_rooms))
    as (E & w' & Ep & Hrow & _ & _ & _ & Ht).
  - reflexivity.
  - vm_compute. reflexivity.
  - vm_compute. reflexivity.
  - vm_compute. reflexivity.
  - vm_compute. reflexivity.
  - exists w'. rewrite E. split; [exact Ep|]. split; [exact Hrow|exact Ht].
Defined.

(** Bob is on the roster of [d1] as a viewer: his update is refused. *)
Lemma update_refused_iff_cannot_edit_witness :
  error_to sB "You do not have permission to edit this document"
    ∈ emitted (handleUpdateOperation sB (edit [7] 30)) alice_and_bob.
Proof.
  apply (proj2 (update_refused_iff_cannot_edit alice_and_bob sB "d1" 0%nat
                  (room0 alice_and_bob) (roomUser_of sB VIEWER) (edit [7] 30)
                  resident_alice_and_bob ltac:(vm_compute; reflexivity))).
  reflexivity.
Defined.

(** An update of Alice moves nobody. *)
Lemma only_join_leave_disconnect_change_membership_witness :
  let w' := exec (dispatch (UpdateOperation sA (edit [7] 30))) alice_and_bob in
  rooms w' = rooms alice_and_bob /\ socketToRoom w' = socketToRoom alice_and_bob.
Proof.
  destruct (only_join_leave_disconnect_change_membership alice_and_bob
              (UpdateOperation sA (edit [7] 30)) eq_refl) as (H1 & _ & H3 & _).
  split; [exact H1|exact H3].
Defined.

(** The document of [d1] is removed from the store and created again. *)
Lemma removed_document_is_built_anew_witness :
  exists l' w',
    (documentStore_remove "d1";; documentStore_getOrCreate "d1" (Some [Byte.x05]))
      alice_alone = (Normal l', w')
    /\ l' ≠ 0%nat
    /\ docHeap w' !! l' = Some [Byte.x05].
Proof.
  destruct (removed_document_is_built_anew alice_alone "d1" 0%nat [] [Byte.x05]
              (Some [Byte.x05]))
    as (l' & w' & E & Hne & _ & Hnew).
  - vm_compute. reflexivity.
  - vm_compute. reflexivity.
  - vm_compute. reflexivity.
  - exists l', w'. repeat split; assumption.
Defined.

(** Bob sends a cursor message that names Alice: it goes out under his id. *)
Lemma cursor_updates_own_entry_only_witness :
  emitted (handleCursorPresence sB cursor_of_bob) alice_and_bob
  = [{| recipients := in_room alice_and_bob (roomIdOf "d1") ∖ {[ sock_id sB ]};
        event := CURSOR_PRESENCE cursor_of_bob (userId sB) |}].
Proof.
  exact (proj1 (cursor_updates_own_entry_only alice_and_bob sB "d1" 0%nat
                  (room0 alice_and_bob) cursor_of_bob resident_alice_and_bob)).
Defined.

(** The handshake with the token of Alice in the query is accepted as Alice. *)
Lemma setupMiddleware_accepts_existing_users_witness :
  prisma_user_findUnique users0 (userId sA) = Some (user sA)
  /\ exists token payload,
       hs_query_token handshake0 = Some token
       /\ verifyToken (H := OneToken) env0 token = Some payload
       /\ jwt_userId payload = "alice".
Proof.
  destruct (setupMiddleware_accepts_existing_users (H := OneToken) env0 users0 "sA"
              handshake0 sA eq_refl) as (_ & _ & Hrow & token & payload & Hne & Htok & Hv & Hid).
  split; [exact Hrow|]. exists token, payload.
  destruct Htok as [Htok|[_ Htok]].
  { destruct Hne. simpl in Htok. by injection Htok as <-. }
  split; [exact Htok|]. split; [exact Hv|exact Hid].
Defined.

(** With an empty JWT_SECRET the token of Alice opens no route. *)
Lemma no_secret_no_authentication_witness :
  protectRoute (H := OneToken) env_unset users0
    {| req_authorization := Some "Bearer token-of-alice";
       req_cookie := Some "token-of-alice" |}
  = ErrorResponse 401 "Unauthorized".
Proof.
  destruct (no_secret_no_authentication (H := OneToken) env_unset users0 eq_refl)
    as (_ & _ & H & _).
  apply H.
Defined.
